(** * Text-to-CAD control loop: generation, sandbox execution, mesh
      validation, retry and packaging.

    Shallow embedding of [api/main.py] and of the error classifier and the
    security scan of [api/pipeline.py].

    Text is a [string] whose characters are code points below 256; the
    lower-casing and the white space of Python's [str] are written out on
    that range.  The language model, the container runtime, the mesh
    library, the JSON parser and the file system are external: they appear
    as the fields of an environment record and every statement holds for
    all of them. *)

From Stdlib Require Import String Ascii List Bool Arith ZArith Lia DecimalString.
From Stdlib Require Import Floats.PrimFloat.
Import ListNotations.

Open Scope list_scope.
Open Scope string_scope.

(* ================================================================== *)
(** * Python string operations *)
(* ================================================================== *)

Module PyStr.

Definition LF : ascii := "010"%char.
Definition nl : string := String LF EmptyString.

(** [str.isspace] per character, code points below 256. *)
Definition isspace (c : ascii) : bool :=
  let n := nat_of_ascii c in
  (((9 <=? n) && (n <=? 13)) || ((28 <=? n) && (n <=? 32))
   || (n =? 133) || (n =? 160))%nat.

(** [str.lower] per character, code points below 256. *)
Definition lower_char (c : ascii) : ascii :=
  let n := nat_of_ascii c in
  if (((65 <=? n) && (n <=? 90))
      || ((192 <=? n) && (n <=? 222) && negb (n =? 215)))%nat
  then ascii_of_nat (n + 32) else c.

Fixpoint lower (s : string) : string :=
  match s with
  | EmptyString => EmptyString
  | String c s' => String (lower_char c) (lower s')
  end.

(** [p in s]. *)
Fixpoint contains (p s : string) : bool :=
  prefix p s ||
  match s with
  | EmptyString => false
  | String _ s' => contains p s'
  end.

(** [s.split(sep)] for a non-empty [sep]: [skip] counts the characters of
    a separator found earlier that are still to be passed over. *)
Fixpoint split_from (sep : string) (skip : nat) (s : string) : list string :=
  match s with
  | EmptyString => [EmptyString]
  | String c s' =>
      match skip with
      | S k => split_from sep k s'
      | O =>
          if prefix sep s
          then EmptyString :: split_from sep (String.length sep - 1) s'
          else match split_from sep 0 s' with
               | x :: xs => String c x :: xs
               | [] => [String c EmptyString]
               end
      end
  end.

Definition split (sep s : string) : list string := split_from sep 0 s.

Fixpoint lstrip (s : string) : string :=
  match s with
  | EmptyString => EmptyString
  | String c s' => if isspace c then lstrip s' else s
  end.

Fixpoint rstrip (s : string) : string :=
  match s with
  | EmptyString => EmptyString
  | String c s' =>
      match rstrip s' with
      | EmptyString => if isspace c then EmptyString else String c EmptyString
      | r => String c r
      end
  end.

(** [s.strip()]. *)
Definition strip (s : string) : string := rstrip (lstrip s).

(** [s[:n]]. *)
Definition take (n : nat) (s : string) : string := substring 0 n s.

(** [s.replace(c, r)] for a one-character [c]. *)
Fixpoint replace_char (c : ascii) (r : string) (s : string) : string :=
  match s with
  | EmptyString => EmptyString
  | String a s' =>
      if Ascii.eqb a c then r ++ replace_char c r s'
      else String a (replace_char c r s')
  end.

(** Whether the character [c] occurs in [s]. *)
Fixpoint has_char (c : ascii) (s : string) : bool :=
  match s with
  | EmptyString => false
  | String a s' => Ascii.eqb a c || has_char c s'
  end.

(** Truth value of an [Optional[str]]. *)
Definition truthy (o : option string) : bool :=
  match o with
  | Some (String _ _) => true
  | _ => false
  end.

(** [xs[-1]] of a list of strings that is never empty where it is used. *)
Definition last_item (xs : list string) : string := last xs EmptyString.

End PyStr.

Import PyStr.

(* ================================================================== *)
(** * Error classifier: [AgentPipeline._parse_freecad_error] *)
(* ================================================================== *)

Module Classifier.

(** The line the rules look at: the last line of the stripped text,
    replaced by every later line that contains [ValueError:]. *)
Definition select_error_line (stderr : string) : string :=
  let lines := split nl (strip stderr) in
  fold_left
    (fun error_line line =>
       if contains "ValueError:" line then line else error_line)
    lines (last_item lines).

Definition hint_draft : string :=
  "DRAFT FAILED: You must apply draft BEFORE any fillets. Reorder: box → draft → fillet → shell".
Definition hint_null_shape : string :=
  "NULL SHAPE: Boolean operation failed. Ensure objects overlap and have valid geometry.".
Definition hint_fusion : string :=
  "FUSION FAILED: Objects DO NOT intersect. Move objects closer (overlap by at least 0.1mm) or check dimensions.".
Definition hint_fillet (s : string) : string :=
  "FILLET ERROR: "
  ++ (if contains "ValueError:" s
      then last_item (split "ValueError: " s) else s)
  ++ ". Reduce fillet radius.".
Definition hint_non_manifold : string :=
  "NON-MANIFOLD: Mesh has holes. Check boolean operations created valid solids.".
Definition hint_empty : string :=
  "EMPTY RESULT: No geometry created. Verify your logic creates actual shapes.".
Definition hint_makefillet : string :=
  "FILLET FAILED: Radius may be too large for edge length, or edge selection returned nothing.".
Definition hint_generic (stderr : string) : string :=
  "ERROR: " ++ take 300 stderr.

Definition _parse_freecad_error (stderr : string) : string :=
  let s := lower (select_error_line stderr) in
  if contains "apply_draft failed" s
     || (contains "draft" s && contains "before" s)
  then hint_draft
  else if contains "null shape" s then hint_null_shape
  else if contains "fuse_objects failed" s then hint_fusion
  else if contains "fillet" s && contains "too large" s then hint_fillet s
  else if contains "not watertight" s then hint_non_manifold
  else if contains "empty" s then hint_empty
  else if contains "makefillet" s then hint_makefillet
  else hint_generic stderr.

(** The same rules as an ordered table of (pattern test, hint) pairs. *)
Record rule : Type := mkRule {
  rule_matches : string -> bool;
  rule_hint : string -> string
}.

Definition rule_table : list rule :=
  [ mkRule (fun s => contains "apply_draft failed" s
                     || (contains "draft" s && contains "before" s))
           (fun _ => hint_draft);
    mkRule (contains "null shape") (fun _ => hint_null_shape);
    mkRule (contains "fuse_objects failed") (fun _ => hint_fusion);
    mkRule (fun s => contains "fillet" s && contains "too large" s)
           hint_fillet;
    mkRule (contains "not watertight") (fun _ => hint_non_manifold);
    mkRule (contains "empty") (fun _ => hint_empty);
    mkRule (contains "makefillet") (fun _ => hint_makefillet) ].

(** First match of the table on the text [s]; [fallback] when no rule
    matches. *)
Definition first_match (s fallback : string) : string :=
  match find (fun r => rule_matches r s) rule_table with
  | Some r => rule_hint r s
  | None => fallback
  end.

(** The classifier as the specification words it: the table run on the
    whole lower-cased diagnostic text. *)
Definition classify_whole_text (stderr : string) : string :=
  first_match (lower stderr) (hint_generic stderr).

(** The selected line as the specification words it: the last line that
    contains [ValueError:] when there is one, the last line otherwise. *)
Definition selected_line_spec (stderr : string) : string :=
  let lines := split nl (strip stderr) in
  match filter (contains "ValueError:") lines with
  | [] => last_item lines
  | hits => last_item hits
  end.

End Classifier.

Import Classifier.

(* ================================================================== *)
(** * Code post-processing and security scan: [AgentPipeline._generate_code] *)
(* ================================================================== *)

Module Pipeline.

(** The text between the first Markdown fence and the next one. *)
Definition extract_code (text : string) : string :=
  if contains "```python" text
  then nth 0 (split "```" (nth 1 (split "```python" text) "")) ""
  else if contains "```" text
  then nth 0 (split "```" (nth 1 (split "```" text) "")) ""
  else text.

Definition ensure_function (text : string) : string :=
  if negb (contains "def generate_model" text)
  then "def generate_model(utils, step_path, stl_path):" ++ nl
       ++ "    from FreeCAD import Base" ++ nl
       ++ "    " ++ replace_char LF (nl ++ "    ") text
  else text.

Definition dangerous : list string :=
  [ "subprocess"; "os.system"; "eval("; "exec("; "__import__"; "os.popen" ].

(** The first entry of [dangerous] that occurs in [text]. *)
Definition blocked_pattern (text : string) : option string :=
  find (fun pattern => contains pattern text) dangerous.

Definition script_header_lines : string :=
  "import os, sys" ++ nl
  ++ "sys.path.append('/app/lib')" ++ nl
  ++ "from freecad_utils import PartUtils" ++ nl
  ++ "import FreeCAD" ++ nl
  ++ "from FreeCAD import Base" ++ nl.

(** The lines before the generated text, with the blank line after them. *)
Definition script_header : string := script_header_lines ++ nl.

Definition script_footer_lines : string :=
  nl
  ++ "if __name__ == '__main__':" ++ nl
  ++ "    utils = PartUtils()" ++ nl
  ++ "    generate_model(utils," ++ nl
  ++ "                   os.environ.get('STEP_OUTPUT', 'output.step')," ++ nl
  ++ "                   os.environ.get('STL_OUTPUT', 'output.stl'))" ++ nl.

(** The blank line after the generated text, and the entry point. *)
Definition script_footer : string := nl ++ script_footer_lines.

Definition final_code (text : string) : string :=
  script_header ++ strip text ++ script_footer.

(** Everything [_generate_code] does to the model's reply: the script to
    run, or the pattern that blocks it. *)
Definition postprocess (reply : string) : string + string :=
  let text := ensure_function (extract_code reply) in
  match blocked_pattern text with
  | Some pattern => inl pattern
  | None => inr (final_code text)
  end.

End Pipeline.

Import Pipeline.

(* ================================================================== *)
(** * Exceptions, effects and the environment *)
(* ================================================================== *)

(** The exceptions, by the classes the code tells apart: its own
    [GeometryError], FastAPI's [HTTPException], [ValueError] (the class of
    the security error, and of what Python raises for a script that
    cannot be encoded or for an integer too long to parse), and every
    other exception, with its text. *)
Inductive exn : Type :=
| GeometryError (msg : string)
| HTTPException (status_code : nat) (detail : string)
| ValueError (msg : string)
| OtherException (msg : string).

(** An exception raised by Python or by a library, never one of the
    server's own classes: a [ValueError] or any other. *)
Inductive lib_exn : Type :=
| LibValueError (msg : string)
| LibException (msg : string).

Definition lib_raise (e : lib_exn) : exn :=
  match e with
  | LibValueError msg => ValueError msg
  | LibException msg => OtherException msg
  end.

(** [str(e)] where the code formats an exception. *)
Definition str_nat (n : nat) : string :=
  DecimalString.NilEmpty.string_of_uint (Nat.to_uint n).

Definition exn_str (e : exn) : string :=
  match e with
  | GeometryError msg => msg
  | HTTPException status_code detail => str_nat status_code ++ ": " ++ detail
  | ValueError msg => msg
  | OtherException msg => msg
  end.

Inductive file_name : Type := gen_py | output_step | output_stl | render_zip.

(** A scratch directory is named by the ordinal of the executor call that
    allocated it; a path is a file of one scratch directory. *)
Definition path : Type := (nat * file_name)%type.

Inductive log_entry : Type :=
| LogAttempt (attempt : nat)
| LogRetrying (feedback : string)
| LogAttemptFailed (attempt : nat) (e : string)
| LogPipelineInit (e : string)
| LogInvalidConstraints (constraints : string)
| LogTimeout (timeout : nat)
| LogDockerError (e : string)
| LogFreecadFailed (stdout stderr : string)
| LogMeshWarning (e : string)
| LogCleaned (job : nat)
| LogCleanupFailed (job : nat) (e : string).

(** What a request does to the world outside, in order:
    - [EvLog]: a line of the log;
    - [EvGenerate fb]: a call of [AgentPipeline.run] with feedback [fb];
    - [EvSandbox job script]: a call of the executor with [script], which
      draws the name of scratch directory [job];
    - [EvMkdir job]: scratch directory [job] has been created;
    - [EvZip job members]: the archive of [job] written with [members];
    - [EvRmtree job ie]: [shutil.rmtree] called on scratch directory [job];
    - [EvAddTask job]: [cleanup_workdir] of directory [job] handed to
      [background_tasks.add_task]. *)
Inductive event : Type :=
| EvLog (entry : log_entry)
| EvGenerate (feedback : option string)
| EvSandbox (job : nat) (script : string)
| EvMkdir (job : nat)
| EvZip (job : nat) (members : list string)
| EvRmtree (job : nat) (ignore_errors : bool)
| EvAddTask (job : nat).

(** What one call of the executor can meet.  The container run ends with
    an exit code, exceeds the time limit, or raises any other exception
    while it is launched or awaited ([e] is the text of the exception).
    Before the run, creating the scratch directory can raise (an
    [OSError], with text [e]), and so can opening and writing [gen.py] (an
    [OSError], or a [UnicodeEncodeError] for a script the file encoding
    cannot take). *)
Inductive process_outcome : Type :=
| Completed (stdout stderr : string) (returncode : Z)
| TimedOut
| LaunchFailed (e : string)
| MkdirFailed (e : string)
| WriteFailed (e : lib_exn).

(** What [json.loads] does with a text: it returns a value, raises
    [JSONDecodeError], or raises something else (a [RecursionError] on
    deep nesting, a plain [ValueError] on an integer with too many
    digits). *)
Inductive json_outcome : Type :=
| JsonParsed
| JsonDecodeError
| JsonRaised (e : lib_exn).

(** A read of the mesh library: the value, or the text of the exception. *)
Definition attr (A : Type) : Type := (string + A)%type.

Record Trimesh : Type := mkTrimesh {
  is_empty : attr bool;
  is_watertight : attr bool;
  volume : attr float;
  faces : attr nat
}.

(** Reply of the language model to the code-generation request. *)
Inductive llm_outcome : Type :=
| LLMFailed (e : string)
| LLMReplied (text : string) (usage_error : option string).

(** The collaborators of one server process.
    - [uuid4 k]: the name drawn for the [k]-th scratch directory;
    - [pipeline_init_error]: the exception of [AgentPipeline(...)], if any;
    - [generate_content k fb]: the model's answer to the [k]-th
      code-generation call, made with feedback [fb];
    - [docker_run k script]: what the [k]-th call of the executor, with
      [script], meets;
    - [file_exists p]: whether [p] is there once the run has ended;
    - [trimesh_load p]: [trimesh.load(p, force='mesh')];
    - [zip_error k]: the exception of writing the archive of run [k], if any;
    - [rmtree_error k]: the exception of removing scratch directory [k],
      if any;
    - [json_loads text]: [json.loads(text)]. *)
Record Env : Type := mkEnv {
  uuid4 : nat -> string;
  pipeline_init_error : option string;
  generate_content : nat -> option string -> llm_outcome;
  docker_run : nat -> string -> process_outcome;
  file_exists : path -> bool;
  trimesh_load : path -> attr Trimesh;
  zip_error : nat -> option string;
  rmtree_error : nat -> option string;
  json_loads : string -> json_outcome
}.

(** The state threaded through a request: the ordinals of the next
    executor call and of the next generation call, and the events so far,
    oldest first. *)
Record World : Type := mkWorld {
  next_job : nat;
  next_gen : nat;
  trace : list event
}.

Definition fresh (job gen : nat) : World := mkWorld job gen [].

Inductive result (A : Type) : Type :=
| Return (a : A)
| Raise (e : exn).

Arguments Return {A} a.
Arguments Raise {A} e.

Definition M (A : Type) : Type := World -> result A * World.

Definition ret {A : Type} (a : A) : M A := fun w => (Return a, w).

Definition raise {A : Type} (e : exn) : M A := fun w => (Raise e, w).

Definition bind {A B : Type} (m : M A) (k : A -> M B) : M B :=
  fun w =>
    match m w with
    | (Return a, w') => k a w'
    | (Raise e, w') => (Raise e, w')
    end.

(** [try: m  except Exception as e: h e]. *)
Definition try_except {A : Type} (m : M A) (h : exn -> M A) : M A :=
  fun w =>
    match m w with
    | (Return a, w') => (Return a, w')
    | (Raise e, w') => h e w'
    end.

Definition emit (ev : event) : M unit :=
  fun w => (Return tt, mkWorld (next_job w) (next_gen w) (trace w ++ [ev])%list).

Definition log (entry : log_entry) : M unit := emit (EvLog entry).

Definition when (b : bool) (m : M unit) : M unit := if b then m else ret tt.

(** A read of the mesh library inside the monad. *)
Definition read {A : Type} (a : attr A) : M A :=
  match a with
  | inl e => raise (OtherException e)
  | inr v => ret v
  end.

Declare Scope py_scope.
Delimit Scope py_scope with py.
Notation "x <- m ;; k" := (bind m (fun x => k))
  (at level 100, m at next level, right associativity) : py_scope.
Notation "m ;; k" := (bind m (fun _ => k))
  (at level 100, right associativity) : py_scope.
Open Scope py_scope.

(** The events of a trace, by kind. *)
Fixpoint sandbox_scripts (tr : list event) : list string :=
  match tr with
  | [] => []
  | EvSandbox _ script :: tr' => script :: sandbox_scripts tr'
  | _ :: tr' => sandbox_scripts tr'
  end.

Fixpoint generation_feedbacks (tr : list event) : list (option string) :=
  match tr with
  | [] => []
  | EvGenerate fb :: tr' => fb :: generation_feedbacks tr'
  | _ :: tr' => generation_feedbacks tr'
  end.

(** The geometry failures the loop caught, each with its attempt ordinal. *)
Fixpoint caught_errors (tr : list event) : list (nat * string) :=
  match tr with
  | [] => []
  | EvLog (LogAttemptFailed attempt e) :: tr' => (attempt, e) :: caught_errors tr'
  | _ :: tr' => caught_errors tr'
  end.

Fixpoint cleanup_events (tr : list event) : list event :=
  match tr with
  | [] => []
  | EvRmtree job ie :: tr' => EvRmtree job ie :: cleanup_events tr'
  | EvAddTask job :: tr' => EvAddTask job :: cleanup_events tr'
  | _ :: tr' => cleanup_events tr'
  end.

(* ================================================================== *)
(** * The server: [api/main.py] *)
(* ================================================================== *)

Record FileResponse : Type := mkResponse {
  resp_path : path;
  resp_filename : string;
  resp_media_type : string;
  resp_headers : list (string * string)
}.

Section Server.

Variable env : Env.

(** [validate_mesh]: the checks of the [try] block, in order. *)
Definition mesh_checks (stl_path : path) : M unit :=
  mesh <- read (trimesh_load env stl_path) ;;
  e <- read (is_empty mesh) ;;
  when e (raise (GeometryError "Generated mesh is empty.")) ;;
  wt <- read (is_watertight mesh) ;;
  when (negb wt)
       (raise (GeometryError "Generated mesh is not watertight (non-manifold).")) ;;
  v <- read (volume mesh) ;;
  when (PrimFloat.leb v 0%float)
       (raise (GeometryError "Generated mesh has zero or negative volume.")) ;;
  n <- read (faces mesh) ;;
  when (n =? 0)%nat (raise (GeometryError "Generated mesh has no faces.")).

Definition validate_mesh (stl_path : path) : M unit :=
  if negb (file_exists env stl_path) then ret tt
  else
    try_except (mesh_checks stl_path)
      (fun e =>
         match e with
         | GeometryError _ => raise e
         | _ => log (LogMeshWarning (exn_str e))
         end).

(** [_run_docker_execution]: draw the name of the scratch directory,
    create it, write [gen.py] into it, run the container, and turn every
    way the run can end into a result tuple.  The directory and the script
    are made before the [try]: what they raise leaves the function. *)
Definition _run_docker_execution (script_content : string) (timeout : nat)
  : M (string * string * Z * nat) :=
  fun w =>
    let work_dir := next_job w in
    let w1 := mkWorld (S work_dir) (next_gen w)
                      (trace w ++ [EvSandbox work_dir script_content])%list in
    match docker_run env work_dir script_content with
    | MkdirFailed e => (Raise (OtherException e), w1)
    | WriteFailed e =>
        (emit (EvMkdir work_dir) ;; raise (lib_raise e)) w1
    | Completed stdout stderr returncode =>
        (emit (EvMkdir work_dir) ;;
         ret (stdout, stderr, returncode, work_dir)) w1
    | TimedOut =>
        (emit (EvMkdir work_dir) ;;
         log (LogTimeout timeout) ;;
         ret ("", "TIMEOUT: Execution exceeded " ++ str_nat timeout ++ "s limit",
              124%Z, work_dir)) w1
    | LaunchFailed e =>
        (emit (EvMkdir work_dir) ;;
         log (LogDockerError e) ;;
         ret ("", e, 1%Z, work_dir)) w1
    end.

(** [shutil.rmtree(work_dir, ignore_errors=...)]. *)
Definition shutil_rmtree (work_dir : nat) (ignore_errors : bool) : M unit :=
  emit (EvRmtree work_dir ignore_errors) ;;
  match rmtree_error env work_dir with
  | Some e => if ignore_errors then ret tt else raise (OtherException e)
  | None => ret tt
  end.

(** The background task registered on success. *)
Definition cleanup_workdir (work_dir : nat) : M unit :=
  try_except
    (shutil_rmtree work_dir false ;; log (LogCleaned work_dir))
    (fun e => log (LogCleanupFailed work_dir (exn_str e))).

(** What the framework does once a response has been sent: it calls the
    tasks handed to [background_tasks.add_task], oldest first.  The only
    task the server hands over is [cleanup_workdir], closed over the
    scratch directory of the call that added it. *)
Fixpoint run_background_tasks (added : list event) : M unit :=
  match added with
  | [] => ret tt
  | EvAddTask work_dir :: added' =>
      cleanup_workdir work_dir ;; run_background_tasks added'
  | _ :: added' => run_background_tasks added'
  end.

(** [zipfile.ZipFile(zip_path, 'w')] with the three conditional writes. *)
Definition write_zip (work_dir : nat) : M unit :=
  let members :=
    ((if file_exists env (work_dir, output_step) then ["render.step"] else [])
     ++ (if file_exists env (work_dir, output_stl) then ["render.stl"] else [])
     ++ (if file_exists env (work_dir, gen_py) then ["model_gen.py"] else []))%list in
  match zip_error env work_dir with
  | Some e => raise (OtherException e)
  | None => emit (EvZip work_dir members)
  end.

(** [res_path.exists()]: the archive exists once it has been written. *)
Definition res_exists (p : path) : bool :=
  match snd p with
  | render_zip => true
  | _ => file_exists env p
  end.

Definition in_list (s : string) (l : list string) : bool :=
  existsb (String.eqb s) l.

(** The [try] block of [_run_freecad_generation].  Response headers that
    carry measurements (durations, token counts, mesh volume and bounding
    box) are left out: [_get_mesh_metadata] never raises. *)
Definition package (stdout stderr : string) (code : Z) (work_dir : nat)
    (extra_headers : option (list (string * string))) (fmt : string)
  : M FileResponse :=
  let step_out := (work_dir, output_step) in
  let stl_out := (work_dir, output_stl) in
  when (negb (code =? 0)%Z)
       (log (LogFreecadFailed stdout stderr) ;;
        raise (GeometryError ("FreeCAD Error: " ++ stderr))) ;;
  when (file_exists env stl_out) (validate_mesh stl_out) ;;
  r <- (if in_list fmt ["zip"; "both"]
        then
          write_zip work_dir ;;
          ret ((work_dir, render_zip),
               "render_" ++ uuid4 env work_dir ++ ".zip",
               "application/zip")
        else
          ret (if String.eqb fmt "step" && file_exists env step_out
               then step_out else stl_out,
               "render." ++ fmt,
               "application/octet-stream")) ;;
  let '(res_path, filename, media_type) := r in
  when (negb (res_exists res_path))
       (raise (HTTPException 500 "Output file missing from container")) ;;
  emit (EvAddTask work_dir) ;;
  ret (mkResponse res_path filename media_type
         (match extra_headers with Some h => h | None => [] end)).

Definition _run_freecad_generation (fc_code : string)
    (extra_headers : option (list (string * string))) (fmt : string)
  : M FileResponse :=
  r <- _run_docker_execution fc_code 30 ;;
  let '(stdout, stderr, code, work_dir) := r in
  try_except
    (package stdout stderr code work_dir extra_headers fmt)
    (fun e =>
       shutil_rmtree work_dir true ;;
       match e with
       | GeometryError _ | HTTPException _ _ => raise e
       | _ => raise (HTTPException 500 (exn_str e))
       end).

(** [AgentPipeline.run]: the specification stage absorbs its own
    failures, so the call ends the way [_generate_code] ends. *)
Definition agent_pipeline_run (feedback : option string) : M string :=
  fun w =>
    let w1 := mkWorld (next_job w) (S (next_gen w))
                      (trace w ++ [EvGenerate feedback])%list in
    match generate_content env (next_gen w) feedback with
    | LLMFailed e => (Raise (OtherException e), w1)
    | LLMReplied text usage_error =>
        match postprocess text with
        | inl pattern =>
            (Raise (ValueError ("Security: blocked pattern '" ++ pattern ++ "'")), w1)
        | inr code =>
            match usage_error with
            | Some e => (Raise (OtherException e), w1)
            | None => (Return code, w1)
            end
        end
    end.

(** The statement after the loop. *)
Definition after_loop (last_error : option string) : M FileResponse :=
  raise (HTTPException 400
           ("Generation failed after 3 attempts: "
            ++ match last_error with Some e => e | None => "None" end)).

(** The [try] body of one iteration.  Of [json.loads(constraints)] only
    [JSONDecodeError] is caught there; the value parsed goes to the
    pipeline with the prompt. *)
Definition attempt_body (format : string) (previous_code constraints : option string)
    (attempt : nat) (feedback_msg : option string) : M FileResponse :=
  log (LogAttempt attempt) ;;
  match feedback_msg with
  | Some (String c m) => log (LogRetrying (String c m))
  | _ => ret tt
  end ;;
  match constraints with
  | Some (String c t) =>
      match json_loads env (String c t) with
      | JsonParsed => ret tt
      | JsonDecodeError => log (LogInvalidConstraints (String c t))
      | JsonRaised e => raise (lib_raise e)
      end
  | _ => ret tt
  end ;;
  let feedback :=
    if truthy previous_code && (attempt =? 0)%nat
    then previous_code else feedback_msg in
  fc_code <- agent_pipeline_run feedback ;;
  let headers :=
    if (0 <? attempt)%nat then [("X-Retry-Count", str_nat attempt)] else [] in
  _run_freecad_generation fc_code (Some headers) format.

(** [for attempt in range(3)], as a recursion on the attempts left. *)
Fixpoint retry_loop (format : string) (previous_code constraints : option string)
    (attempts : list nat) (last_error feedback_msg : option string)
  : M FileResponse :=
  match attempts with
  | [] => after_loop last_error
  | attempt :: rest =>
      try_except
        (attempt_body format previous_code constraints attempt feedback_msg)
        (fun e =>
           match e with
           | GeometryError msg =>
               log (LogAttemptFailed attempt msg) ;;
               if (attempt <? 2)%nat
               then retry_loop format previous_code constraints rest (Some msg)
                               (Some (_parse_freecad_error msg))
               else after_loop (Some msg)
           | _ => raise e
           end)
  end.

(** [POST /generate]. *)
Definition generate_from_text (prompt format : string)
    (previous_code constraints gemini_api_key : option string) : M FileResponse :=
  if negb (truthy gemini_api_key)
  then raise (HTTPException 400 "gemini_api_key is required in request body")
  else
    match pipeline_init_error env with
    | Some e =>
        log (LogPipelineInit e) ;;
        raise (HTTPException 400
                 ("Invalid API key or pipeline initialization failed: " ++ e))
    | None => retry_loop format previous_code constraints (seq 0 3) None None
    end.

(** [POST /render]. *)
Definition render_from_script (scad_code format : string) : M FileResponse :=
  match scad_code with
  | EmptyString => raise (HTTPException 400 "scad_code is required")
  | _ => _run_freecad_generation scad_code None format
  end.

End Server.


(* ================================================================== *)
(** * Vocabulary of the statements *)
(* ================================================================== *)

Definition is_geometry_error (e : exn) : bool :=
  match e with GeometryError _ => true | _ => false end.

(** The world with one more event. *)
Definition record (ev : event) (w : World) : World :=
  mkWorld (next_job w) (next_gen w) (trace w ++ [ev])%list.

Definition is_return {A : Type} (r : result A) : bool :=
  match r with Return _ => true | Raise _ => false end.

(** Events that are neither a generation call, nor a call of the
    executor, nor a caught geometry failure. *)
Definition quiet (evs : list event) : Prop :=
  sandbox_scripts evs = [] /\ generation_feedbacks evs = []
  /\ caught_errors evs = [].

(** The exception with which the executor leaves before the run, if the
    directory or the script could not be made. *)
Definition setup_error (o : process_outcome) : option exn :=
  match o with
  | MkdirFailed e => Some (OtherException e)
  | WriteFailed e => Some (lib_raise e)
  | _ => None
  end.

(** The result tuple the executor builds from the way the run ended.  A
    call that raised before the run builds none: the empty result with
    code 0 stands for it, so that a statement about a non-zero exit code
    says nothing of such a call. *)
Definition sandbox_result (timeout : nat) (o : process_outcome)
  : string * string * Z :=
  match o with
  | Completed stdout stderr returncode => (stdout, stderr, returncode)
  | TimedOut =>
      ("", "TIMEOUT: Execution exceeded " ++ str_nat timeout ++ "s limit", 124%Z)
  | LaunchFailed e => ("", e, 1%Z)
  | MkdirFailed _ | WriteFailed _ => ("", "", 0%Z)
  end.

Definition sandbox_log (timeout : nat) (o : process_outcome) : list event :=
  match o with
  | TimedOut => [EvLog (LogTimeout timeout)]
  | LaunchFailed e => [EvLog (LogDockerError e)]
  | _ => []
  end.

(** The events of one executor call after the call itself: the directory
    made, unless making it raised, and the line the run logs. *)
Definition executor_events (timeout job : nat) (o : process_outcome) : list event :=
  match o with
  | MkdirFailed _ => []
  | _ => EvMkdir job :: sandbox_log timeout o
  end.

(** What parsing the constraints of a request does in every iteration:
    [json.loads] is called only on a non-empty text. *)
Definition constraints_outcome (env : Env) (constraints : option string)
  : json_outcome :=
  match constraints with
  | Some (String c t) => json_loads env (String c t)
  | _ => JsonParsed
  end.

Definition constraints_log (env : Env) (constraints : option string) : list event :=
  match constraints with
  | Some (String c t) =>
      match json_loads env (String c t) with
      | JsonDecodeError => [EvLog (LogInvalidConstraints (String c t))]
      | _ => []
      end
  | _ => []
  end.

Definition constraints_error (env : Env) (constraints : option string)
  : option exn :=
  match constraints_outcome env constraints with
  | JsonRaised e => Some (lib_raise e)
  | _ => None
  end.

(** Exceptions that [_run_freecad_generation] lets out. *)
Definition is_reported (e : exn) : bool :=
  match e with
  | GeometryError _ | HTTPException _ _ => true
  | _ => false
  end.

(** The feedback an iteration hands to the pipeline. *)
Definition chosen_feedback (previous_code : option string) (attempt : nat)
    (feedback_msg : option string) : option string :=
  if truthy previous_code && (attempt =? 0)%nat
  then previous_code else feedback_msg.

Definition blocked_error (pattern : string) : exn :=
  ValueError ("Security: blocked pattern '" ++ pattern ++ "'").

(** What an attempt does after its generation call, read off the
    environment: [r] is its result, [evs] its events, [j] the ordinal of
    the executor call it would make, [dj] the number of calls it made. *)
Definition attempt_post (env : Env) (reply : llm_outcome) (j : nat)
    (r : result FileResponse) (evs : list event) (dj : nat) : Prop :=
  match reply with
  | LLMFailed e =>
      r = Raise (OtherException e) /\ sandbox_scripts evs = []
      /\ cleanup_events evs = [] /\ dj = 0
  | LLMReplied text usage_error =>
      match postprocess text, usage_error with
      | inl pattern, _ =>
          r = Raise (blocked_error pattern) /\ sandbox_scripts evs = []
          /\ cleanup_events evs = [] /\ dj = 0
      | inr _, Some e =>
          r = Raise (OtherException e) /\ sandbox_scripts evs = []
          /\ cleanup_events evs = [] /\ dj = 0
      | inr code, None =>
          sandbox_scripts evs = [code] /\ dj = 1
          /\ cleanup_events evs
             = match setup_error (docker_run env j code) with
               | Some _ => []
               | None => [if is_return r then EvAddTask j else EvRmtree j true]
               end
          /\ (forall e, r = Raise e ->
                        match setup_error (docker_run env j code) with
                        | Some e' => e = e'
                        | None => is_reported e = true
                        end)
          /\ (snd (sandbox_result 30 (docker_run env j code)) <> 0%Z ->
              r = Raise (GeometryError
                           ("FreeCAD Error: "
                            ++ snd (fst (sandbox_result 30 (docker_run env j code))))))
      end
  end.

(** The line logged when an iteration starts with feedback. *)
Definition retry_log (feedback_msg : option string) : list event :=
  match feedback_msg with
  | Some (String c m) => [EvLog (LogRetrying (String c m))]
  | _ => []
  end.

(** The events of an iteration before its generation call. *)
Definition attempt_pre (env : Env) (constraints : option string) (attempt : nat)
    (feedback_msg : option string) : list event :=
  (EvLog (LogAttempt attempt)
   :: retry_log feedback_msg ++ constraints_log env constraints)%list.

Definition retry_headers (attempt : nat) : list (string * string) :=
  if (0 <? attempt)%nat then [("X-Retry-Count", str_nat attempt)] else [].

Definition exhausted (msg : string) : exn :=
  HTTPException 400 ("Generation failed after 3 attempts: " ++ msg).

(** The runs of the retry loop, as a relation: an iteration ends the
    loop, or fails recoverably and the loop goes on, or fails recoverably
    with no attempt left to make. *)
Inductive loop_run (env : Env) (format : string)
    (previous_code constraints : option string)
  : list nat -> option string -> option string -> World
    -> result FileResponse -> World -> Prop :=
| loop_empty (last_error feedback_msg : option string) (w : World) :
    loop_run env format previous_code constraints [] last_error feedback_msg w
      (Raise (HTTPException 400
                ("Generation failed after 3 attempts: "
                 ++ match last_error with Some e => e | None => "None" end))) w
| loop_stop (attempt : nat) (rest : list nat)
    (last_error feedback_msg : option string) (w w1 : World)
    (r : result FileResponse) :
    attempt_body env format previous_code constraints attempt feedback_msg w = (r, w1) ->
    (forall msg, r <> Raise (GeometryError msg)) ->
    loop_run env format previous_code constraints (attempt :: rest) last_error feedback_msg w r w1
| loop_retry (attempt : nat) (rest : list nat)
    (last_error feedback_msg : option string) (w w1 w' : World) (msg : string)
    (r : result FileResponse) :
    attempt_body env format previous_code constraints attempt feedback_msg w
    = (Raise (GeometryError msg), w1) ->
    attempt < 2 ->
    loop_run env format previous_code constraints rest (Some msg)
      (Some (_parse_freecad_error msg))
      (record (EvLog (LogAttemptFailed attempt msg)) w1) r w' ->
    loop_run env format previous_code constraints (attempt :: rest) last_error feedback_msg w r w'
| loop_exhausted (attempt : nat) (rest : list nat)
    (last_error feedback_msg : option string) (w w1 : World) (msg : string) :
    attempt_body env format previous_code constraints attempt feedback_msg w
    = (Raise (GeometryError msg), w1) ->
    2 <= attempt ->
    loop_run env format previous_code constraints (attempt :: rest) last_error feedback_msg w
      (Raise (exhausted msg)) (record (EvLog (LogAttemptFailed attempt msg)) w1).


(** Whether the file the packager will answer with is in place: the
    archive can be written, or the single file chosen for [fmt] exists. *)
Definition result_file_present (env : Env) (work_dir : nat) (fmt : string) : bool :=
  if in_list fmt ["zip"; "both"]
  then match zip_error env work_dir with None => true | Some _ => false end
  else file_exists env
         (if String.eqb fmt "step" && file_exists env (work_dir, output_step)
          then (work_dir, output_step) else (work_dir, output_stl)).

(* ================================================================== *)
(** * Sample collaborators *)
(* ================================================================== *)

Module Samples.

(** A reply of the model with a fenced script. *)
Definition cube_reply : string :=
  "Here is the part." ++ nl
  ++ "```python" ++ nl
  ++ "def generate_model(utils, step_path, stl_path):" ++ nl
  ++ "    body = utils.create_box('Cube', 10, 10, 10)" ++ nl
  ++ "    utils.export_step(body, step_path)" ++ nl
  ++ "    utils.export_stl(body, stl_path)" ++ nl
  ++ "```" ++ nl.

(** A reply that tries to reach a host shell. *)
Definition shell_reply : string :=
  "```python" ++ nl
  ++ "import subprocess" ++ nl
  ++ "def generate_model(utils, step_path, stl_path):" ++ nl
  ++ "    subprocess.run(['sh'])" ++ nl
  ++ "```".

Definition cube_script : string :=
  match postprocess cube_reply with
  | inr code => code
  | inl _ => ""
  end.

Definition solid_cube : Trimesh :=
  mkTrimesh (inr false) (inr true) (inr 1000%float) (inr 12).

Definition flat_sheet : Trimesh :=
  mkTrimesh (inr false) (inr true) (inr 0%float) (inr 2).

(** Collaborators that always answer [reply], let the [k]-th call of the
    executor meet [outcome k], leave behind the files named, load [mesh],
    fail to remove a directory when [rm] says so, and parse every JSON
    text. *)
Definition sample_env (reply : string) (outcome : nat -> process_outcome)
    (has_step has_stl : bool) (mesh : Trimesh) (rm : option string) : Env :=
  mkEnv (fun k => "job-" ++ str_nat k)
        None
        (fun _ _ => LLMReplied reply None)
        (fun k _ => outcome k)
        (fun p => match snd p with
                  | output_step => has_step
                  | output_stl => has_stl
                  | gen_py => true
                  | render_zip => false
                  end)
        (fun _ => inr mesh)
        (fun _ => None)
        (fun _ => rm)
        (fun _ => JsonParsed).

Definition happy_env : Env :=
  sample_env cube_reply (fun _ => Completed "ok" "" 0%Z) true true solid_cube None.

Definition timeout_env : Env :=
  sample_env cube_reply (fun _ => TimedOut) false false solid_cube None.

Definition launch_env : Env :=
  sample_env cube_reply
    (fun _ => LaunchFailed "[Errno 2] No such file or directory: 'docker'")
    false false solid_cube None.

Definition stl_only_env : Env :=
  sample_env cube_reply (fun _ => Completed "ok" "" 0%Z) false true solid_cube None.

Definition no_output_env : Env :=
  sample_env cube_reply (fun _ => Completed "ok" "" 0%Z) false false solid_cube None.

Definition shell_env : Env :=
  sample_env shell_reply (fun _ => Completed "ok" "" 0%Z) true true solid_cube None.

Definition flat_env : Env :=
  sample_env cube_reply (fun _ => Completed "ok" "" 0%Z) true true flat_sheet None.

Definition fillet_stderr : string :=
  "Traceback (most recent call last):" ++ nl
  ++ "ValueError: Fillet radius 9.0 too large for edge of length 4.0" ++ nl.

(** The first run fails on a fillet, the later ones succeed. *)
Definition fillet_then_ok_env : Env :=
  sample_env cube_reply
    (fun k => match k with
              | 0 => Completed "" fillet_stderr 1%Z
              | _ => Completed "ok" "" 0%Z
              end)
    true true solid_cube None.

Definition stuck_rmtree_env : Env :=
  sample_env cube_reply (fun _ => Completed "" "boom" 1%Z) false false solid_cube
    (Some "[Errno 16] Device or resource busy").

(** The scratch directory is made, but the script cannot be written:
    the file system is full. *)
Definition full_disk_env : Env :=
  sample_env cube_reply
    (fun _ => WriteFailed (LibException "[Errno 28] No space left on device"))
    false false solid_cube None.

(** The scratch directory itself cannot be made. *)
Definition no_scratch_env : Env :=
  sample_env cube_reply
    (fun _ => MkdirFailed "[Errno 13] Permission denied: '/tmp/geometry_jobs'")
    false false solid_cube None.

End Samples.

(** The environment with another answer to the removal of directories. *)
Definition with_rmtree_error (rm : nat -> option string) (env : Env) : Env :=
  mkEnv (uuid4 env) (pipeline_init_error env) (generate_content env)
        (docker_run env) (file_exists env) (trimesh_load env) (zip_error env) rm
        (json_loads env).


(* ================================================================== *)
(** * Further code of [api/main.py] and [api/pipeline.py] *)
(* ================================================================== *)

Module Config.

(** [os.environ.get(name, "*").replace(";", ",").split(",")]: the value of
    [ALLOWED_ORIGINS] and of [ALLOWED_HOSTS]; [value] is what the process
    environment holds under the name, if anything. *)
Definition ALLOWED (value : option string) : list string :=
  split "," (replace_char ";"%char ","
               (match value with Some v => v | None => "*" end)).

(** [[o.strip() for o in ALLOWED if o.strip()]]: [origins] and [hosts]. *)
Definition stripped_entries (entries : list string) : list string :=
  flat_map (fun o => match strip o with
                     | EmptyString => []
                     | o' => [o']
                     end) entries.

Definition origins (value : option string) : list string :=
  stripped_entries (ALLOWED value).

End Config.

Module Report.

(** The dictionary [AgentPipeline.validate_mesh] fills in. *)
Record report : Type := mkReport {
  valid : bool;
  errors : list string
}.

(** [AgentPipeline.validate_mesh]: [loaded] is what [trimesh.load(stl_path)]
    gives; the result is the report returned and the warning logged, if
    any.  The report keeps what was written to it before an exception. *)
Definition validate_mesh_report (loaded : attr Trimesh) : report * option string :=
  let r0 := mkReport true [] in
  match loaded with
  | inl e => (r0, Some e)
  | inr mesh =>
      match is_watertight mesh with
      | inl e => (r0, Some e)
      | inr watertight =>
          let r1 := if negb watertight
                    then mkReport false (errors r0 ++ ["Not watertight"])%list
                    else r0 in
          match volume mesh with
          | inl e => (r1, Some e)
          | inr v =>
              (if PrimFloat.leb v 0%float
               then mkReport false (errors r1 ++ ["Zero/negative volume"])%list
               else r1,
               None)
          end
      end
  end.

End Report.

Module Examples.

(** [SPEC_TYPE_EXAMPLES], in the order of the dictionary. *)
Definition SPEC_TYPE_EXAMPLES : list (string * list string) :=
  [ ("enclosure", ["example_enclosure.py"]);
    ("housing", ["example_enclosure.py"]);
    ("case", ["example_enclosure.py"]);
    ("box", ["example_enclosure.py"; "example_custom_block.py"]);
    ("bracket", ["example_l_bracket.py"; "example_u_bracket.py";
                 "example_flat_bracket.py"]);
    ("l-bracket", ["example_l_bracket.py"]);
    ("u-bracket", ["example_u_bracket.py"]);
    ("angle", ["example_l_bracket.py"]);
    ("flange", ["example_pipe_flange.py"; "example_mounting_flange.py"]);
    ("pipe", ["example_pipe_flange.py"; "example_tube.py"]);
    ("gear", ["example_spur_gear.py"]);
    ("pulley", ["example_pulley.py"]);
    ("sprocket", ["example_spur_gear.py"]);
    ("shaft", ["example_shaft.py"]);
    ("bushing", ["example_bushing.py"]);
    ("bearing", ["example_bushing.py"]);
    ("knob", ["example_knob.py"]);
    ("boss", ["example_boss.py"; "example_standoff.py"]);
    ("standoff", ["example_standoff.py"]);
    ("rib", ["example_rib.py"]);
    ("gusset", ["example_gusset.py"]);
    ("counterbore", ["example_counterbore.py"; "example_custom_block.py"]);
    ("countersink", ["example_countersink.py"]);
    ("slot", ["example_slot.py"]);
    ("pocket", ["example_pocket.py"; "example_custom_block.py"]);
    ("tube", ["example_tube.py"]);
    ("cone", ["example_cone.py"]);
    ("torus", ["example_torus.py"]);
    ("wedge", ["example_wedge.py"]) ].

(** The elements of the set [matched_files], each once. *)
Definition matched_files (spec : string) : list string :=
  nodup string_dec
    (flat_map (fun kv => if contains (fst kv) (lower spec) then snd kv else [])
              SPEC_TYPE_EXAMPLES).

Inductive examples_log : Type :=
| LogNoMatch
| LogLoaded (filename : string)
| LogNotLoaded (filename e : string)
| LogInjected (loaded : nat).

Section Loader.

(** The order in which Python iterates over a set, given its elements;
    and the reading of one example file: its text, or the exception. *)
Variable set_order : list string -> list string.
Variable read_file : string -> string + string.

(** One turn of the loop over the chosen file names. *)
Definition load_one (st : string * nat * list examples_log) (filename : string)
  : string * nat * list examples_log :=
  let '(examples_text, loaded, logs) := st in
  match read_file filename with
  | inr content =>
      (examples_text ++ nl ++ "### " ++ filename ++ nl ++ "```python" ++ nl
       ++ content ++ nl ++ "```" ++ nl,
       S loaded,
       (logs ++ [LogLoaded filename])%list)
  | inl e => (examples_text, loaded, (logs ++ [LogNotLoaded filename e])%list)
  end.

(** [AgentPipeline._get_relevant_examples]: the text injected into the
    system prompt, and what was logged. *)
Definition _get_relevant_examples (spec : string) (max_examples : nat)
  : string * list examples_log :=
  match matched_files spec with
  | [] => ("", [LogNoMatch])
  | matched =>
      let '(examples_text, loaded, logs) :=
        fold_left load_one (firstn max_examples (set_order matched))
          (nl ++ "## RELEVANT EXAMPLES FOR YOUR SPEC:" ++ nl, 0, []) in
      if (loaded =? 0)%nat then ("", logs)
      else (examples_text, (logs ++ [LogInjected loaded])%list)
  end.

End Loader.

(** The files a log says were loaded. *)
Fixpoint loaded_files (logs : list examples_log) : list string :=
  match logs with
  | [] => []
  | LogLoaded filename :: logs' => filename :: loaded_files logs'
  | _ :: logs' => loaded_files logs'
  end.

End Examples.

(** Whether [s] is empty or starts with a character that is no white
    space. *)
Definition no_lead_space (s : string) : bool :=
  match s with
  | EmptyString => true
  | String c _ => negb (isspace c)
  end.

(** The scratch directories of the sandbox runs of a trace, and the
    directory a cleanup event is about. *)
Fixpoint sandbox_jobs (tr : list event) : list nat :=
  match tr with
  | [] => []
  | EvSandbox job _ :: tr' => job :: sandbox_jobs tr'
  | _ :: tr' => sandbox_jobs tr'
  end.

Definition cleanup_job (ev : event) : nat :=
  match ev with
  | EvRmtree job _ | EvAddTask job => job
  | _ => 0
  end.

(** The archives written, with their members. *)
Fixpoint archives (tr : list event) : list (nat * list string) :=
  match tr with
  | [] => []
  | EvZip job members :: tr' => (job, members) :: archives tr'
  | _ :: tr' => archives tr'
  end.

(** The scratch directories made, oldest first. *)
Fixpoint made_dirs (tr : list event) : list nat :=
  match tr with
  | [] => []
  | EvMkdir job :: tr' => job :: made_dirs tr'
  | _ :: tr' => made_dirs tr'
  end.

(** The members [write_zip] puts into the archive of a scratch directory. *)
Definition archive_members (env : Env) (work_dir : nat) : list string :=
  ((if file_exists env (work_dir, output_step) then ["render.step"] else [])
   ++ (if file_exists env (work_dir, output_stl) then ["render.stl"] else [])
   ++ (if file_exists env (work_dir, gen_py) then ["model_gen.py"] else []))%list.

(** A failure of the code generation call: the request to the model
    raised, or reading the token counts of its reply did. *)
Definition generation_failure (env : Env) (m : string) : Prop :=
  exists (n : nat) (fb : option string),
    generate_content env n fb = LLMFailed m
    \/ exists text, generate_content env n fb = LLMReplied text (Some m).

(** The immediate removals of the scratch directories [job], ...,
    [job + n - 1]. *)
Definition removals (job n : nat) : list event :=
  map (fun j => EvRmtree j true) (seq job n).

(** An exception raised while the executor made a scratch directory or
    wrote a script into it. *)
Definition setup_failure (env : Env) (e : exn) : Prop :=
  exists (j : nat) (code : string), setup_error (docker_run env j code) = Some e.

(** Whether a call of the executor got as far as making its directory. *)
Definition dir_made (o : process_outcome) : bool :=
  match o with
  | MkdirFailed _ => false
  | _ => true
  end.

(** The removals that running the background tasks of a trace performs:
    one call of [shutil.rmtree] for every task handed over. *)
Definition task_removals (added : list event) : list event :=
  flat_map (fun ev => match ev with
                      | EvAddTask job => [EvRmtree job false]
                      | _ => []
                      end) added.

(* ================================================================== *)
(** * Proof automation *)
(* ================================================================== *)

Ltac unfold_monad :=
  unfold when, read, log, emit, bind, try_except, raise, ret in *.

Ltac step_monad := unfold_monad; cbn [fst snd] in *.

Ltac case_split :=
  repeat (cbn in *;
          match goal with
          | |- context [match ?x with _ => _ end] =>
              lazymatch x with
              | context [match _ with _ => _ end] => fail
              | _ => destruct x eqn:?
              end
          end).

Ltac close_trace :=
  cbn; eexists; split;
  [ repeat rewrite <- app_assoc; cbn [app]; try reflexivity;
    try (rewrite app_nil_r; reflexivity)
  | cbn; repeat split; try reflexivity ].


(* ================================================================== *)
(** * Properties of the string operations *)
(* ================================================================== *)

Section StringFacts.

Lemma append_assoc (a b c : string) : (a ++ b) ++ c = a ++ (b ++ c).
Proof. induction a as [|x a IH]; cbn; [reflexivity|now rewrite IH]. Qed.

Lemma prefix_iff (p : string) :
  forall s, prefix p s = true <-> exists v, s = p ++ v.
Proof.
  induction p as [|a p IH]; intros s.
  - destruct s; cbn; split; eauto.
  - destruct s as [|b s]; cbn.
    + split; [discriminate|intros [v [=]]].
    + destruct (ascii_dec a b) as [->|Hne].
      * rewrite IH. split; intros [v Hv].
        -- exists v. now rewrite Hv.
        -- injection Hv as ->. eauto.
      * split; [discriminate|]. intros [v [= -> _]]. contradiction.
Qed.

Lemma contains_unfold (p s : string) :
  contains p s
  = prefix p s || match s with
                  | EmptyString => false
                  | String _ s' => contains p s'
                  end.
Proof. destruct s; reflexivity. Qed.

(** [p in s] exactly when [s] is some [u ++ p ++ v]. *)
Lemma contains_iff (p s : string) :
  contains p s = true <-> exists u v, s = u ++ p ++ v.
Proof.
  split.
  - induction s as [|c s IH]; rewrite contains_unfold.
    + rewrite orb_false_r. intro H. apply prefix_iff in H.
      destruct H as [v Hv]. exists "", v. exact Hv.
    + intro H. apply orb_true_iff in H. destruct H as [H|H].
      * apply prefix_iff in H. destruct H as [v Hv]. exists "", v. exact Hv.
      * destruct (IH H) as (u & v & ->). exists (String c u), v. reflexivity.
  - intros (u & v & ->). induction u as [|c u IH].
    + rewrite contains_unfold. apply orb_true_iff. left.
      apply prefix_iff. exists v. reflexivity.
    + cbn [append]. rewrite contains_unfold. apply orb_true_iff. now right.
Qed.

Lemma contains_empty (s : string) : contains "" s = true.
Proof. apply contains_iff. exists "", s. reflexivity. Qed.

Lemma prefix_of_app_sep (p : string) (c : ascii) :
  has_char c p = false ->
  forall a b v, p ++ v = a ++ String c b -> exists w, a = p ++ w.
Proof.
  induction p as [|x p IH]; intros Hc a b v E.
  - exists a. reflexivity.
  - cbn in Hc. apply orb_false_iff in Hc. destruct Hc as [Hx Hp].
    destruct a as [|y a]; cbn in E; injection E as -> E.
    + rewrite Ascii.eqb_refl in Hx. discriminate.
    + destruct (IH Hp a b v E) as [w ->]. exists w. reflexivity.
Qed.

(** An occurrence of [p] cannot lie across a character that [p] lacks. *)
Lemma contains_app_sep (p a b : string) (c : ascii) :
  has_char c p = false ->
  contains p (a ++ String c b) = true ->
  contains p a = true \/ contains p b = true.
Proof.
  intros Hc H. apply contains_iff in H. destruct H as (u & v & E).
  revert u E. induction a as [|x a IH]; intros u E.
  - destruct u as [|y u]; cbn in E.
    + destruct p as [|z p]; [left; apply contains_empty|].
      cbn in E. injection E as -> _. cbn in Hc.
      rewrite Ascii.eqb_refl in Hc. discriminate.
    + injection E as _ ->. right. apply contains_iff. eauto.
  - destruct u as [|y u].
    + cbn [append] in E. symmetry in E.
      change (String x (a ++ String c b)) with ((String x a) ++ String c b) in E.
      destruct (prefix_of_app_sep p c Hc (String x a) b v E) as [w ->].
      left. apply contains_iff. exists "", w. reflexivity.
    + cbn in E. injection E as -> E.
      destruct (IH u E) as [H|H]; [left|now right].
      apply contains_iff in H. destruct H as (u' & v' & ->).
      apply contains_iff. exists (String y u'), v'. reflexivity.
Qed.

Lemma contains_lstrip (p s : string) :
  contains p (lstrip s) = true -> contains p s = true.
Proof.
  induction s as [|c s IH]; cbn [lstrip]; [auto|].
  destruct (isspace c); [|auto].
  intro H. rewrite contains_unfold. apply orb_true_iff. right. auto.
Qed.

Lemma rstrip_prefix (s : string) : exists t, s = rstrip s ++ t.
Proof.
  induction s as [|c s [t IH]]; [exists ""; reflexivity|].
  cbn [rstrip]. destruct (rstrip s) as [|d r].
  - destruct (isspace c); [exists (String c s)|exists s]; reflexivity.
  - exists t. cbn. now rewrite IH at 1.
Qed.

Lemma contains_rstrip (p s : string) :
  contains p (rstrip s) = true -> contains p s = true.
Proof.
  intro H. apply contains_iff in H. destruct H as (u & v & E).
  destruct (rstrip_prefix s) as [t Ht]. rewrite E in Ht.
  apply contains_iff. exists u, (v ++ t). rewrite Ht.
  now rewrite !append_assoc.
Qed.

Lemma contains_strip (p s : string) :
  contains p (strip s) = true -> contains p s = true.
Proof. intro H. apply contains_lstrip, contains_rstrip, H. Qed.

End StringFacts.

Section ScanFacts.

(** The wrapper adds none of the patterns: a text that passes the scan
    gives a script that holds none of them. *)
Lemma final_code_clean (text p : string) :
  In p dangerous ->
  contains p text = false ->
  contains p (final_code text) = false.
Proof.
  intros Hin Hclean.
  destruct (contains p (final_code text)) eqn:H; [exfalso|reflexivity].
  unfold final_code in H.
  assert (Hh : contains p script_header_lines = false).
  { cbn in Hin. decompose [or] Hin; subst; try contradiction; reflexivity. }
  assert (Hf : contains p script_footer_lines = false).
  { cbn in Hin. decompose [or] Hin; subst; try contradiction; reflexivity. }
  assert (Hlf : has_char LF p = false).
  { cbn in Hin. decompose [or] Hin; subst; try contradiction; reflexivity. }
  unfold script_header, script_footer in H.
  change (nl ++ script_footer_lines) with (String LF script_footer_lines) in H.
  unfold nl in H.
  rewrite append_assoc in H. cbn [append] in H.
  apply (contains_app_sep p script_header_lines _ LF Hlf) in H.
  destruct H as [H|H]; [congruence|].
  apply (contains_app_sep p _ script_footer_lines LF Hlf) in H.
  destruct H as [H|H]; [|congruence].
  apply contains_strip in H. congruence.
Qed.

End ScanFacts.
(* ================================================================== *)
(** * Properties of the error classifier *)
(* ================================================================== *)

Section ClassifierFacts.

Lemma fold_keeps_last_hit (p : string -> bool) (lines : list string) :
  forall d : string,
    fold_left (fun acc line => if p line then line else acc) lines d
    = match filter p lines with
      | [] => d
      | hits => last_item hits
      end.
Proof.
  induction lines as [|x xs IH]; intro d; simpl.
  - reflexivity.
  - rewrite IH. destruct (p x); simpl.
    + destruct (filter p xs); reflexivity.
    + reflexivity.
Qed.

Lemma select_error_line_spec (stderr : string) :
  select_error_line stderr = selected_line_spec stderr.
Proof.
  unfold select_error_line, selected_line_spec.
  apply fold_keeps_last_hit.
Qed.

(** The chain of conditionals is the table read from the top. *)
Lemma parse_is_first_match (stderr : string) :
  _parse_freecad_error stderr
  = first_match (lower (select_error_line stderr)) (hint_generic stderr).
Proof.
  unfold _parse_freecad_error, first_match, rule_table.
  set (s := lower (select_error_line stderr)).
  cbn [find rule_matches rule_hint].
  destruct (contains "apply_draft failed" s || (contains "draft" s && contains "before" s));
    [reflexivity|].
  destruct (contains "null shape" s); [reflexivity|].
  destruct (contains "fuse_objects failed" s); [reflexivity|].
  destruct (contains "fillet" s && contains "too large" s); [reflexivity|].
  destruct (contains "not watertight" s); [reflexivity|].
  destruct (contains "empty" s); [reflexivity|].
  destruct (contains "makefillet" s); reflexivity.
Qed.

Lemma find_first_hit {A : Type} (f : A -> bool) (before after : list A) (x : A) :
  (forall y, In y before -> f y = false) ->
  f x = true ->
  find f (before ++ x :: after)%list = Some x.
Proof.
  induction before as [|b bs IH]; simpl; intros Hb Hx.
  - now rewrite Hx.
  - rewrite (Hb b (or_introl eq_refl)). apply IH; auto.
Qed.

Lemma find_no_hit {A : Type} (f : A -> bool) (l : list A) :
  (forall y, In y l -> f y = false) -> find f l = None.
Proof.
  induction l as [|b bs IH]; simpl; intro Hb; [reflexivity|].
  rewrite (Hb b (or_introl eq_refl)). apply IH; auto.
Qed.

Lemma find_in_matches {A : Type} (f : A -> bool) (l : list A) (x : A) :
  find f l = Some x -> In x l /\ f x = true.
Proof.
  induction l as [|b bs IH]; simpl; [discriminate|].
  destruct (f b) eqn:E.
  - intros [= <-]. auto.
  - intro H. destruct (IH H). auto.
Qed.

(** Distinct rules give distinct hints, and no rule gives the generic one. *)
Lemma rule_hints_differ (r r' : rule) (s stderr : string) :
  In r rule_table -> In r' rule_table ->
  (rule_hint r s = rule_hint r' s -> r = r')
  /\ rule_hint r s <> hint_generic stderr.
Proof.
  unfold rule_table, hint_generic. simpl In.
  intros Hr Hr'.
  repeat (destruct Hr as [<-|Hr]; [|]); try contradiction;
    (split; [|cbn; discriminate]);
    repeat (destruct Hr' as [<-|Hr']; [|]); try contradiction;
    cbn; intro H; try reflexivity; discriminate H.
Qed.

End ClassifierFacts.

(** Lower-cased text holds no capital letter, so [ValueError:] never
    occurs in it: the fillet hint always quotes the whole selected line. *)
Lemma lower_char_not_V (c : ascii) : lower_char c <> "V"%char.
Proof.
  destruct c as [[] [] [] [] [] [] [] []]; vm_compute; discriminate.
Qed.

Lemma lower_has_no_ValueError (s : string) :
  contains "ValueError:" (lower s) = false.
Proof.
  induction s as [|c s IH]; [reflexivity|].
  cbn [lower contains]. rewrite IH, orb_false_r.
  cbn [prefix].
  destruct (ascii_dec "V" (lower_char c)) as [E|]; [|reflexivity].
  exfalso. exact (lower_char_not_V c (eq_sym E)).
Qed.

Lemma hint_fillet_lower (s : string) :
  hint_fillet (lower s) = "FILLET ERROR: " ++ lower s ++ ". Reduce fillet radius.".
Proof.
  unfold hint_fillet. now rewrite lower_has_no_ValueError.
Qed.

Example parse_fillet_traceback :
  _parse_freecad_error
    ("Traceback" ++ nl ++ "ValueError: Fillet radius 9 too large" ++ nl ++ "done" ++ nl)
  = "FILLET ERROR: valueerror: fillet radius 9 too large. Reduce fillet radius.".
Proof. reflexivity. Qed.

Example parse_pattern_off_line :
  _parse_freecad_error ("null shape" ++ nl ++ "ok") = "ERROR: null shape" ++ nl ++ "ok".
Proof. reflexivity. Qed.

Example parse_validator_messages :
  _parse_freecad_error "Generated mesh is empty." = hint_empty
  /\ _parse_freecad_error "Generated mesh is not watertight (non-manifold)."
     = hint_non_manifold
  /\ _parse_freecad_error "Generated mesh has zero or negative volume."
     = "ERROR: Generated mesh has zero or negative volume.".
Proof. repeat split; reflexivity. Qed.

(** C5, as the claim words it, fails: the rules do not run on the whole
    lower-cased text.  Both patterns occur in this two-line text; the
    table read on the whole text stops at the watertight rule, the code
    reads only the last line and answers with the empty-result hint. *)
Lemma whole_text_first_match_fails :
  let text := "not watertight" ++ nl ++ "empty" in
  classify_whole_text text = hint_non_manifold
  /\ _parse_freecad_error text = hint_empty
  /\ hint_non_manifold <> hint_empty.
Proof. repeat split; try reflexivity. discriminate. Qed.

(** C5 (amended): the classifier is a function of its input text; its
    rules are read in table order on the lower-cased selected line, and
    the first rule that matches that line gives the hint whatever later
    rules match; when no rule matches the line the result is the generic
    hint, [ERROR: ] followed by the first 300 characters of the original
    text. *)
Theorem classifier_first_match_on_selected_line :
  (forall t1 t2 : string,
      t1 = t2 -> _parse_freecad_error t1 = _parse_freecad_error t2)
  /\ (forall (stderr : string) (before after : list rule) (r : rule),
         rule_table = (before ++ r :: after)%list ->
         (forall r', In r' before ->
                     rule_matches r' (lower (select_error_line stderr)) = false) ->
         rule_matches r (lower (select_error_line stderr)) = true ->
         _parse_freecad_error stderr
         = rule_hint r (lower (select_error_line stderr)))
  /\ (forall stderr : string,
         (forall r, In r rule_table ->
                    rule_matches r (lower (select_error_line stderr)) = false) ->
         _parse_freecad_error stderr = "ERROR: " ++ take 300 stderr).
Proof.
  split; [intros t1 t2 ->; reflexivity|]. split.
  - intros stderr before after r Htab Hbefore Hr.
    rewrite parse_is_first_match. unfold first_match. rewrite Htab.
    now rewrite (find_first_hit _ before after r Hbefore Hr).
  - intros stderr Hnone.
    rewrite parse_is_first_match. unfold first_match.
    now rewrite (find_no_hit _ rule_table Hnone).
Qed.

Lemma classifier_first_match_on_selected_line_witness :
  _parse_freecad_error ("warning: fillet too large; result not watertight, empty")
  = hint_fillet "warning: fillet too large; result not watertight, empty"
  /\ _parse_freecad_error "Segmentation fault" = "ERROR: Segmentation fault".
Proof.
  split.
  - apply (proj1 (proj2 classifier_first_match_on_selected_line)
             "warning: fillet too large; result not watertight, empty"
             (firstn 3 rule_table) (skipn 4 rule_table) (nth 3 rule_table (mkRule (fun _ => false) (fun s => s)))).
    + reflexivity.
    + intros r' H. simpl in H.
      destruct H as [<-|[<-|[<-|[]]]]; reflexivity.
    + reflexivity.
  - apply (proj2 (proj2 classifier_first_match_on_selected_line) "Segmentation fault").
    intros r H. simpl in H.
    destruct H as [<-|[<-|[<-|[<-|[<-|[<-|[<-|[]]]]]]]]; reflexivity.
Defined.

(** C10: the rules are matched against one line, lower-cased: the last
    line of the (stripped) text, or the last line containing [ValueError:]
    when there is one.  A rule whose pattern is not on that line does not
    fire, wherever else the pattern occurs, and when no rule matches the
    line the result is [ERROR: ] followed by the first 300 characters of
    the whole original text. *)
Theorem classifier_reads_selected_line : forall stderr : string,
  let lines := split nl (strip stderr) in
  let line :=
    match filter (contains "ValueError:") lines with
    | [] => last_item lines
    | hits => last_item hits
    end in
  select_error_line stderr = line
  /\ _parse_freecad_error stderr
     = first_match (lower line) ("ERROR: " ++ take 300 stderr)
  /\ (forall r : rule,
         In r rule_table ->
         rule_matches r (lower line) = false ->
         _parse_freecad_error stderr <> rule_hint r (lower line))
  /\ (forallb (fun r => negb (rule_matches r (lower line))) rule_table = true ->
      _parse_freecad_error stderr = "ERROR: " ++ take 300 stderr).
Proof.
  intros stderr lines line.
  assert (Hsel : select_error_line stderr = line)
    by apply select_error_line_spec.
  assert (Hparse : _parse_freecad_error stderr
                   = first_match (lower line) (hint_generic stderr))
    by (rewrite <- Hsel; apply parse_is_first_match).
  split; [exact Hsel|]. split; [exact Hparse|]. split.
  - intros r Hin Hoff. rewrite Hparse. unfold first_match.
    destruct (find (fun r0 => rule_matches r0 (lower line)) rule_table) as [r'|] eqn:F.
    + apply find_in_matches in F. destruct F as [Hin' Hon].
      intro Heq.
      destruct (rule_hints_differ r' r (lower line) stderr Hin' Hin) as [Hinj _].
      apply Hinj in Heq. subst r'. congruence.
    + intro Heq. symmetry in Heq.
      now destruct (rule_hints_differ r r (lower line) stderr Hin Hin) as [_ Hgen].
  - intro Hall. rewrite Hparse. unfold first_match.
    rewrite find_no_hit; [reflexivity|].
    intros r Hin. rewrite forallb_forall in Hall.
    specialize (Hall r Hin). now destruct (rule_matches r (lower line)).
Qed.

Lemma classifier_reads_selected_line_witness :
  _parse_freecad_error
    ("ValueError: null shape" ++ nl ++ "makefillet: empty" ++ nl ++ "exit")
  = hint_null_shape
  /\ _parse_freecad_error ("empty null shape" ++ nl ++ "exit status 1" ++ nl)
     = "ERROR: empty null shape" ++ nl ++ "exit status 1" ++ nl.
Proof.
  split.
  - exact (proj1 (proj2 (classifier_reads_selected_line
             ("ValueError: null shape" ++ nl ++ "makefillet: empty" ++ nl ++ "exit")))).
  - apply (proj2 (proj2 (proj2 (classifier_reads_selected_line
             ("empty null shape" ++ nl ++ "exit status 1" ++ nl))))).
    reflexivity.
Defined.

(* ================================================================== *)
(** * Properties of the mesh validator *)
(* ================================================================== *)

Section ValidatorFacts.

Variable env : Env.

Lemma validate_mesh_absent (p : path) (w : World) :
  file_exists env p = false -> validate_mesh env p w = (Return tt, w).
Proof. intro H. unfold validate_mesh. now rewrite H. Qed.

Lemma validate_mesh_load_error (p : path) (w : World) (e : string) :
  file_exists env p = true ->
  trimesh_load env p = inl e ->
  validate_mesh env p w = (Return tt, record (EvLog (LogMeshWarning e)) w).
Proof.
  intros Hex Hload. unfold validate_mesh, mesh_checks. rewrite Hex.
  step_monad. now rewrite Hload.
Qed.

(** Whatever the mesh library does, nothing but a geometry failure leaves
    the validator, and one does only with a file and a loaded mesh. *)
Lemma validate_mesh_raise_inv (p : path) (w w' : World) (e : exn) :
  validate_mesh env p w = (Raise e, w') ->
  is_geometry_error e = true
  /\ file_exists env p = true
  /\ exists mesh, trimesh_load env p = inr mesh.
Proof.
  unfold validate_mesh, mesh_checks.
  destruct (file_exists env p); cbn [negb]; [|discriminate].
  step_monad.
  destruct (trimesh_load env p) as [le|mesh]; [discriminate|].
  destruct (is_empty mesh) as [?|[]]; cbn; try discriminate;
    try (intros [= <- <-]; now eauto).
  destruct (is_watertight mesh) as [?|[]]; cbn; try discriminate;
    try (intros [= <- <-]; now eauto).
  destruct (volume mesh) as [?|v]; cbn; try discriminate.
  destruct (PrimFloat.leb v 0); cbn; try (intros [= <- <-]; now eauto).
  destruct (faces mesh) as [?|[|n]]; cbn; try discriminate;
    try (intros [= <- <-]; now eauto).
Qed.

Lemma validate_mesh_readable (p : path) (w : World) (mesh : Trimesh)
    (e wt : bool) (v : float) (n : nat) :
  file_exists env p = true ->
  trimesh_load env p = inr mesh ->
  is_empty mesh = inr e -> is_watertight mesh = inr wt ->
  volume mesh = inr v -> faces mesh = inr n ->
  validate_mesh env p w
  = if e then (Raise (GeometryError "Generated mesh is empty."), w)
    else if negb wt
    then (Raise (GeometryError "Generated mesh is not watertight (non-manifold)."), w)
    else if PrimFloat.leb v 0
    then (Raise (GeometryError "Generated mesh has zero or negative volume."), w)
    else if (n =? 0)%nat
    then (Raise (GeometryError "Generated mesh has no faces."), w)
    else (Return tt, w).
Proof.
  intros Hex Hload He Hwt Hv Hn. unfold validate_mesh, mesh_checks.
  rewrite Hex. step_monad. rewrite Hload, He.
  destruct e; [reflexivity|]. rewrite Hwt.
  destruct wt; cbn [negb]; [|reflexivity]. rewrite Hv.
  destruct (PrimFloat.leb v 0); [reflexivity|]. rewrite Hn.
  destruct (n =? 0)%nat; reflexivity.
Qed.

End ValidatorFacts.

(** C6: the validator returns without effect when the file is absent;
    when loading the mesh fails it logs a warning and returns; and for a
    loaded mesh whose properties can be read it raises a geometry failure
    if and only if the mesh is empty (the library's flag is set, or it has
    no face), is not watertight, or has volume at most zero.  No other
    exception ever leaves it, and none does without the file and a loaded
    mesh. *)
Theorem validate_mesh_raises_iff_defect :
  forall (env : Env) (stl_path : path) (w : World),
    (file_exists env stl_path = false ->
     validate_mesh env stl_path w = (Return tt, w))
    /\ (forall e : string,
           file_exists env stl_path = true ->
           trimesh_load env stl_path = inl e ->
           validate_mesh env stl_path w
           = (Return tt, record (EvLog (LogMeshWarning e)) w))
    /\ (forall (e : exn) (w' : World),
           validate_mesh env stl_path w = (Raise e, w') ->
           is_geometry_error e = true
           /\ file_exists env stl_path = true
           /\ exists mesh, trimesh_load env stl_path = inr mesh)
    /\ (forall (mesh : Trimesh) (empty watertight : bool) (vol : float) (n : nat),
           file_exists env stl_path = true ->
           trimesh_load env stl_path = inr mesh ->
           is_empty mesh = inr empty ->
           is_watertight mesh = inr watertight ->
           volume mesh = inr vol ->
           faces mesh = inr n ->
           ((exists msg, validate_mesh env stl_path w = (Raise (GeometryError msg), w))
            <-> ((empty = true \/ n = 0)
                 \/ watertight = false
                 \/ PrimFloat.leb vol 0 = true))).
Proof.
  intros env p w. split; [apply validate_mesh_absent|].
  split; [intros; now apply validate_mesh_load_error|].
  split; [intros e w'; apply validate_mesh_raise_inv|].
  intros mesh e wt v n Hex Hload He Hwt Hv Hn.
  rewrite (validate_mesh_readable env p w mesh e wt v n Hex Hload He Hwt Hv Hn).
  destruct e; [split; eauto|].
  destruct wt; cbn [negb]; [|split; eauto].
  destruct (PrimFloat.leb v 0); [split; eauto|].
  destruct n as [|n]; cbn [Nat.eqb]; [split; eauto|].
  split.
  - intros [msg H]. discriminate H.
  - intros [[H|H]|[H|H]]; discriminate H.
Qed.

Lemma validate_mesh_raises_iff_defect_witness :
  exists msg : string,
    validate_mesh Samples.flat_env (0, output_stl) (fresh 1 1)
    = (Raise (GeometryError msg), fresh 1 1).
Proof.
  apply (proj2 (proj2 (proj2 (validate_mesh_raises_iff_defect Samples.flat_env
                                (0, output_stl) (fresh 1 1))))
           Samples.flat_sheet false true 0%float 2
           eq_refl eq_refl eq_refl eq_refl eq_refl eq_refl).
  right. right. reflexivity.
Defined.

Example validate_mesh_zero_volume :
  validate_mesh Samples.flat_env (0, output_stl) (fresh 1 1)
  = (Raise (GeometryError "Generated mesh has zero or negative volume."), fresh 1 1).
Proof. reflexivity. Qed.

(* ================================================================== *)
(** * Properties of the sandbox executor and the packager *)
(* ================================================================== *)

Section PackagerFacts.

Variable env : Env.

Lemma package_spec (stdout stderr : string) (code : Z) (work_dir : nat)
    (hdrs : option (list (string * string))) (fmt : string) (w : World) :
  exists evs,
    trace (snd (package env stdout stderr code work_dir hdrs fmt w))
    = (trace w ++ evs)%list
    /\ next_job (snd (package env stdout stderr code work_dir hdrs fmt w)) = next_job w
    /\ next_gen (snd (package env stdout stderr code work_dir hdrs fmt w)) = next_gen w
    /\ quiet evs
    /\ cleanup_events evs
       = if is_return (fst (package env stdout stderr code work_dir hdrs fmt w))
         then [EvAddTask work_dir] else [].
Proof.
  unfold package, write_zip, validate_mesh, mesh_checks, res_exists, quiet.
  unfold_monad.
  case_split; close_trace.
Qed.

End PackagerFacts.

Section ExecutorFacts.

Variable env : Env.

Lemma run_docker_execution_spec (script : string) (timeout : nat) (w : World) :
  _run_docker_execution env script timeout w
  = (match setup_error (docker_run env (next_job w) script) with
     | Some e => Raise e
     | None =>
         Return (sandbox_result timeout (docker_run env (next_job w) script),
                 next_job w)
     end,
     mkWorld (S (next_job w)) (next_gen w)
       (trace w ++ EvSandbox (next_job w) script
              :: executor_events timeout (next_job w)
                   (docker_run env (next_job w) script))%list).
Proof.
  unfold _run_docker_execution, sandbox_result, sandbox_log, executor_events,
    setup_error.
  destruct (docker_run env (next_job w) script); unfold_monad; cbn [trace next_job next_gen];
    rewrite <- ?app_assoc; reflexivity.
Qed.

Lemma package_nonzero (stdout stderr : string) (code : Z) (work_dir : nat)
    (hdrs : option (list (string * string))) (fmt : string) (w : World) :
  code <> 0%Z ->
  package env stdout stderr code work_dir hdrs fmt w
  = (Raise (GeometryError ("FreeCAD Error: " ++ stderr)),
     record (EvLog (LogFreecadFailed stdout stderr)) w).
Proof.
  intro H. unfold package. apply Z.eqb_neq in H. rewrite H.
  reflexivity.
Qed.

Lemma package_reported (stdout stderr : string) (code : Z) (work_dir : nat)
    (hdrs : option (list (string * string))) (fmt : string) (w : World) (e : exn) :
  fst (package env stdout stderr code work_dir hdrs fmt w) = Raise e ->
  is_reported e = true \/ exists msg, e = OtherException msg.
Proof.
  unfold package, write_zip, validate_mesh, mesh_checks, res_exists.
  unfold_monad.
  case_split; intros [= <-]; eauto.
Qed.

End ExecutorFacts.

Section TraceFacts.

Lemma sandbox_scripts_app (a b : list event) :
  sandbox_scripts (a ++ b) = (sandbox_scripts a ++ sandbox_scripts b)%list.
Proof.
  induction a as [|[] a IH]; cbn; rewrite ?IH; reflexivity.
Qed.

Lemma generation_feedbacks_app (a b : list event) :
  generation_feedbacks (a ++ b)
  = (generation_feedbacks a ++ generation_feedbacks b)%list.
Proof.
  induction a as [|[] a IH]; cbn; rewrite ?IH; reflexivity.
Qed.

Lemma caught_errors_app (a b : list event) :
  caught_errors (a ++ b) = (caught_errors a ++ caught_errors b)%list.
Proof.
  induction a as [|[[]| | | | | |] a IH]; cbn; rewrite ?IH; reflexivity.
Qed.

Lemma cleanup_events_app (a b : list event) :
  cleanup_events (a ++ b) = (cleanup_events a ++ cleanup_events b)%list.
Proof.
  induction a as [|[] a IH]; cbn; rewrite ?IH; reflexivity.
Qed.

Lemma quiet_app (a b : list event) : quiet a -> quiet b -> quiet (a ++ b).
Proof.
  unfold quiet. intros (A1 & A2 & A3) (B1 & B2 & B3).
  rewrite sandbox_scripts_app, generation_feedbacks_app, caught_errors_app,
    A1, A2, A3, B1, B2, B3.
  auto.
Qed.

Lemma quiet_sandbox_log (t : nat) (o : process_outcome) : quiet (sandbox_log t o).
Proof. destruct o; cbn; unfold quiet; auto. Qed.

Lemma cleanup_sandbox_log (t : nat) (o : process_outcome) :
  cleanup_events (sandbox_log t o) = [].
Proof. destruct o; reflexivity. Qed.

Lemma quiet_executor_events (t job : nat) (o : process_outcome) :
  quiet (executor_events t job o).
Proof. destruct o; cbn; unfold quiet; auto. Qed.

Lemma cleanup_executor_events (t job : nat) (o : process_outcome) :
  cleanup_events (executor_events t job o) = [].
Proof. destruct o; reflexivity. Qed.

End TraceFacts.

Section GenerationFacts.

Variable env : Env.

(** [_run_freecad_generation] in one equation: the executor, which may
    raise before the run; then the packager, and on an exception of the
    packager the immediate removal. *)
Lemma run_freecad_generation_eq (script : string)
    (hdrs : option (list (string * string))) (fmt : string) (w : World) :
  let j := next_job w in
  let o := docker_run env j script in
  let w1 := mkWorld (S j) (next_gen w)
              (trace w ++ EvSandbox j script :: executor_events 30 j o)%list in
  _run_freecad_generation env script hdrs fmt w
  = match setup_error o with
    | Some e => (Raise e, w1)
    | None =>
        match package env (fst (fst (sandbox_result 30 o)))
                (snd (fst (sandbox_result 30 o))) (snd (sandbox_result 30 o))
                j hdrs fmt w1 with
        | (Return a, w2) => (Return a, w2)
        | (Raise e, w2) =>
            (Raise (if is_reported e then e else HTTPException 500 (exn_str e)),
             record (EvRmtree j true) w2)
        end
    end.
Proof.
  intros j o w1.
  unfold _run_freecad_generation. unfold bind at 1.
  rewrite run_docker_execution_spec. fold j. fold o. fold w1.
  destruct (setup_error o); [reflexivity|].
  destruct (sandbox_result 30 o) as [[out err] code].
  cbn [fst snd]. unfold try_except.
  destruct (package env out err code j hdrs fmt w1) as [[a|e] w2]; [reflexivity|].
  unfold shutil_rmtree. unfold_monad. cbn.
  destruct (rmtree_error env j); destruct e; reflexivity.
Qed.

(** One call of [_run_freecad_generation]: one call of the executor, then
    events of the packager, and, when the executor returned, exactly one
    cleanup arrangement. *)
Lemma run_freecad_generation_spec (script : string)
    (hdrs : option (list (string * string))) (fmt : string) (w : World)
    (r : result FileResponse) (w' : World) :
  _run_freecad_generation env script hdrs fmt w = (r, w') ->
  let j := next_job w in
  exists evs,
    trace w' = (trace w ++ EvSandbox j script :: evs)%list
    /\ next_job w' = S j
    /\ next_gen w' = next_gen w
    /\ quiet evs
    /\ cleanup_events evs
       = match setup_error (docker_run env j script) with
         | Some _ => []
         | None => [if is_return r then EvAddTask j else EvRmtree j true]
         end
    /\ (forall e, r = Raise e ->
                  match setup_error (docker_run env j script) with
                  | Some e' => e = e'
                  | None => is_reported e = true
                  end)
    /\ (snd (sandbox_result 30 (docker_run env j script)) <> 0%Z ->
        r = Raise (GeometryError
                     ("FreeCAD Error: "
                      ++ snd (fst (sandbox_result 30 (docker_run env j script)))))).
Proof.
  intros E j. rewrite run_freecad_generation_eq in E. cbv zeta in E. fold j in E.
  set (o := docker_run env j script) in *.
  destruct (setup_error o) as [e0|] eqn:Hsetup.
  { inversion E; subst r w'; clear E.
    exists (executor_events 30 j o). cbn [trace next_job next_gen].
    split; [reflexivity|]. split; [reflexivity|]. split; [reflexivity|].
    split; [apply quiet_executor_events|].
    split; [apply cleanup_executor_events|].
    split; [intros e [= <-]; reflexivity|].
    intro Hne. exfalso. apply Hne. destruct o; try discriminate Hsetup; reflexivity. }
  destruct (sandbox_result 30 o) as [[out err] code].
  cbn [fst snd] in *.
  set (w1 := mkWorld (S j) (next_gen w) _) in E.
  destruct (package_spec env out err code j hdrs fmt w1)
    as (evs & Htr & Hj & Hg & Hq & Hc).
  pose proof (package_reported env out err code j hdrs fmt w1) as Hrep.
  pose proof (package_nonzero env out err code j hdrs fmt w1) as Hnz.
  destruct (package env out err code j hdrs fmt w1) as [r0 w2] eqn:P.
  cbn [fst snd] in *.
  assert (Hpre : trace w2
                 = (trace w ++ EvSandbox j script :: executor_events 30 j o ++ evs)%list).
  { rewrite Htr. subst w1. cbn [trace]. rewrite <- app_assoc. reflexivity. }
  destruct r0 as [resp|e]; inversion E; subst r w'; clear E.
  - exists (executor_events 30 j o ++ evs)%list. cbn [is_return] in *.
    split; [exact Hpre|]. split; [exact Hj|]. split; [exact Hg|].
    split; [apply quiet_app; [apply quiet_executor_events|assumption]|].
    split; [rewrite cleanup_events_app, cleanup_executor_events, Hc; reflexivity|].
    split; [intros e [=]|].
    intro Hne. specialize (Hnz Hne). discriminate Hnz.
  - exists (executor_events 30 j o ++ evs ++ [EvRmtree j true])%list.
    cbn [is_return record trace next_job next_gen] in *.
    split.
    { rewrite Hpre, <- app_assoc. cbn [app]. rewrite <- app_assoc. reflexivity. }
    split; [exact Hj|]. split; [exact Hg|].
    split.
    { apply quiet_app; [apply quiet_executor_events|].
      apply quiet_app; [assumption|]. unfold quiet; auto. }
    split.
    { rewrite !cleanup_events_app, cleanup_executor_events, Hc. reflexivity. }
    split.
    { intros e' [= <-]. destruct (is_reported e) eqn:Hr; [exact Hr|reflexivity]. }
    intro Hne. specialize (Hnz Hne). inversion Hnz. reflexivity.
Qed.

(** When the directory or the script cannot be made, the call ends there:
    the exception is the result, and nothing is arranged. *)
Lemma run_freecad_generation_setup (script : string)
    (hdrs : option (list (string * string))) (fmt : string) (w : World) (e : exn) :
  setup_error (docker_run env (next_job w) script) = Some e ->
  _run_freecad_generation env script hdrs fmt w
  = (Raise e,
     mkWorld (S (next_job w)) (next_gen w)
       (trace w ++ EvSandbox (next_job w) script
              :: executor_events 30 (next_job w)
                   (docker_run env (next_job w) script))%list).
Proof.
  intro H. rewrite run_freecad_generation_eq. cbv zeta. rewrite H. reflexivity.
Qed.

End GenerationFacts.

(* ================================================================== *)
(** * Properties of one attempt and of the retry loop *)
(* ================================================================== *)

Section AttemptFacts.

Variable env : Env.
Variables (format : string) (previous_code constraints : option string).

Lemma attempt_pre_quiet (attempt : nat) (feedback_msg : option string) :
  sandbox_scripts (attempt_pre env constraints attempt feedback_msg) = []
  /\ generation_feedbacks (attempt_pre env constraints attempt feedback_msg) = []
  /\ caught_errors (attempt_pre env constraints attempt feedback_msg) = []
  /\ cleanup_events (attempt_pre env constraints attempt feedback_msg) = []
  /\ sandbox_jobs (attempt_pre env constraints attempt feedback_msg) = []
  /\ archives (attempt_pre env constraints attempt feedback_msg) = []
  /\ made_dirs (attempt_pre env constraints attempt feedback_msg) = [].
Proof.
  unfold attempt_pre, constraints_log, retry_log.
  destruct feedback_msg as [[|c m]|]; destruct constraints as [[|d t]|];
    try destruct (json_loads env (String d t)); cbn; auto 10.
Qed.

Lemma constraints_error_foreign (e : exn) :
  constraints_error env constraints = Some e ->
  is_reported e = false.
Proof.
  unfold constraints_error.
  destruct (constraints_outcome env constraints) as [| |[m|m]]; try discriminate;
    intros [= <-]; reflexivity.
Qed.

(** One iteration in one equation. *)
Lemma attempt_body_eq (attempt : nat) (feedback_msg : option string) (w : World) :
  let fb := chosen_feedback previous_code attempt feedback_msg in
  let pre := attempt_pre env constraints attempt feedback_msg in
  let w0 := mkWorld (next_job w) (S (next_gen w))
              (trace w ++ pre ++ [EvGenerate fb])%list in
  attempt_body env format previous_code constraints attempt feedback_msg w
  = match constraints_error env constraints with
    | Some e =>
        (Raise e, mkWorld (next_job w) (next_gen w) (trace w ++ pre)%list)
    | None =>
        match generate_content env (next_gen w) fb with
        | LLMFailed e => (Raise (OtherException e), w0)
        | LLMReplied text usage_error =>
            match postprocess text with
            | inl pattern => (Raise (blocked_error pattern), w0)
            | inr code =>
                match usage_error with
                | Some e => (Raise (OtherException e), w0)
                | None =>
                    _run_freecad_generation env code (Some (retry_headers attempt))
                                            format w0
                end
            end
        end
    end.
Proof.
  intros fb pre w0. subst fb pre w0.
  unfold attempt_body, agent_pipeline_run, chosen_feedback, retry_headers,
    attempt_pre, retry_log, constraints_log, constraints_error,
    constraints_outcome, blocked_error.
  unfold_monad.
  destruct feedback_msg as [[|c m]|]; destruct constraints as [[|d t]|];
    try destruct (json_loads env (String d t)) as [| |e0];
    cbn [next_job next_gen trace fst snd];
    rewrite <- ?app_assoc; cbn [app];
    try reflexivity;
    destruct (generate_content env (next_gen w) _) as [e|text [ue|]];
    try reflexivity;
    destruct (postprocess text); reflexivity.
Qed.

(** An iteration whose constraints cannot be parsed ends before the
    generation call, and not with a geometry failure. *)
Lemma attempt_body_constraints (attempt : nat) (feedback_msg : option string)
    (w : World) (e : exn) :
  constraints_error env constraints = Some e ->
  attempt_body env format previous_code constraints attempt feedback_msg w
  = (Raise e,
     mkWorld (next_job w) (next_gen w)
       (trace w ++ attempt_pre env constraints attempt feedback_msg)%list).
Proof.
  intro H. rewrite attempt_body_eq. cbv zeta. rewrite H. reflexivity.
Qed.

Lemma attempt_body_constraints_inv (attempt : nat) (feedback_msg : option string)
    (w w' : World) (r : result FileResponse) (e : exn) :
  constraints_error env constraints = Some e ->
  attempt_body env format previous_code constraints attempt feedback_msg w = (r, w') ->
  r = Raise e
  /\ is_reported e = false
  /\ trace w' = (trace w ++ attempt_pre env constraints attempt feedback_msg)%list
  /\ next_job w' = next_job w
  /\ next_gen w' = next_gen w.
Proof.
  intros C. rewrite (attempt_body_constraints _ _ _ e C). intros [= <- <-].
  split; [reflexivity|]. split; [exact (constraints_error_foreign e C)|].
  cbn. auto.
Qed.

Lemma attempt_body_geometry (attempt : nat) (feedback_msg : option string)
    (w w' : World) (msg : string) :
  attempt_body env format previous_code constraints attempt feedback_msg w
  = (Raise (GeometryError msg), w') ->
  constraints_error env constraints = None.
Proof.
  destruct (constraints_error env constraints) as [e|] eqn:C; [|reflexivity].
  rewrite (attempt_body_constraints _ _ _ e C). intros [= -> _].
  apply constraints_error_foreign in C. discriminate C.
Qed.

Lemma attempt_body_spec (attempt : nat) (feedback_msg : option string)
    (w w' : World) (r : result FileResponse) :
  constraints_error env constraints = None ->
  attempt_body env format previous_code constraints attempt feedback_msg w = (r, w') ->
  let fb := chosen_feedback previous_code attempt feedback_msg in
  exists evs dj,
    trace w' = (trace w ++ evs)%list
    /\ next_gen w' = S (next_gen w)
    /\ next_job w' = next_job w + dj
    /\ generation_feedbacks evs = [fb]
    /\ caught_errors evs = []
    /\ attempt_post env (generate_content env (next_gen w) fb) (next_job w) r evs dj.
Proof.
  intros C E fb. rewrite attempt_body_eq in E. cbv zeta in E. fold fb in E.
  rewrite C in E.
  destruct (attempt_pre_quiet attempt feedback_msg) as (Hs1 & Hf1 & He1 & Hc1 & _).
  set (pre := (attempt_pre env constraints attempt feedback_msg ++ [EvGenerate fb])%list) in *.
  assert (Hs0 : sandbox_scripts pre = []).
  { subst pre. rewrite sandbox_scripts_app, Hs1. reflexivity. }
  assert (Hf0 : generation_feedbacks pre = [fb]).
  { subst pre. rewrite generation_feedbacks_app, Hf1. reflexivity. }
  assert (He0 : caught_errors pre = []).
  { subst pre. rewrite caught_errors_app, He1. reflexivity. }
  assert (Hc0 : cleanup_events pre = []).
  { subst pre. rewrite cleanup_events_app, Hc1. reflexivity. }
  unfold attempt_post.
  destruct (generate_content env (next_gen w) fb) as [e|text ue].
  - inversion E; subst r w'; clear E.
    exists pre, 0. cbn [trace next_job next_gen].
    repeat split; auto.
  - destruct (postprocess text) as [pattern|code].
    + inversion E; subst r w'; clear E.
      exists pre, 0. cbn [trace next_job next_gen].
      repeat split; auto.
    + destruct ue as [e|].
      * inversion E; subst r w'; clear E.
        exists pre, 0. cbn [trace next_job next_gen].
        repeat split; auto.
      * apply run_freecad_generation_spec in E. cbn [next_job next_gen trace] in E.
        destruct E as (evs & Htr & Hj & Hg & (Hs & Hf & He) & Hc & Hrep & Hnz).
        exists (pre ++ EvSandbox (next_job w) code :: evs)%list, 1.
        rewrite Htr, <- !app_assoc.
        rewrite sandbox_scripts_app, generation_feedbacks_app, caught_errors_app,
          cleanup_events_app, Hs0, Hf0, He0, Hc0.
        cbn. rewrite Hs, Hf, He, Hc, Hj, Hg.
        repeat split; auto; lia.
Qed.

End AttemptFacts.

Section LoopFacts.

Variable env : Env.
Variables (format : string) (previous_code constraints : option string).
Hypothesis Hparse : constraints_error env constraints = None.

(** One iteration of the loop in one equation. *)
Lemma retry_loop_cons (attempt : nat) (rest : list nat)
    (last_error feedback_msg : option string) (w : World) :
  retry_loop env format previous_code constraints (attempt :: rest) last_error feedback_msg w
  = match attempt_body env format previous_code constraints attempt feedback_msg w with
    | (Return resp, w1) => (Return resp, w1)
    | (Raise (GeometryError msg), w1) =>
        if (attempt <? 2)%nat
        then retry_loop env format previous_code constraints rest (Some msg)
               (Some (_parse_freecad_error msg))
               (record (EvLog (LogAttemptFailed attempt msg)) w1)
        else (Raise (exhausted msg),
              record (EvLog (LogAttemptFailed attempt msg)) w1)
    | (Raise e, w1) => (Raise e, w1)
    end.
Proof.
  cbn [retry_loop]. unfold try_except.
  destruct (attempt_body env format previous_code constraints attempt feedback_msg w)
    as [[resp|e] w1]; [reflexivity|].
  destruct e; try reflexivity.
  unfold_monad. destruct (attempt <? 2)%nat; reflexivity.
Qed.

(** Every run of the function is a run of the relation. *)
Lemma retry_loop_run (attempts : list nat) :
  forall (last_error feedback_msg : option string) (w w' : World)
         (r : result FileResponse),
    retry_loop env format previous_code constraints attempts last_error feedback_msg w = (r, w') ->
    loop_run env format previous_code constraints attempts last_error feedback_msg w r w'.
Proof.
  induction attempts as [|a rest IH]; intros le fm w w' r E.
  - cbn in E. unfold after_loop, raise in E. inversion E. constructor.
  - rewrite retry_loop_cons in E.
    destruct (attempt_body env format previous_code constraints a fm w) as [[resp|e] w1] eqn:B.
    + inversion E; subst. apply loop_stop; [assumption|]. intros msg [=].
    + destruct e as [msg| | |];
        try (inversion E; subst; apply loop_stop; [assumption|]; intros m [=]).
      destruct (a <? 2)%nat eqn:L.
      * apply Nat.ltb_lt in L. eapply loop_retry; eauto.
      * apply Nat.ltb_ge in L. inversion E; subst.
        eapply loop_exhausted; eauto.
Qed.

Lemma attempt_post_runs (reply : llm_outcome) (j : nat)
    (r : result FileResponse) (evs : list event) (dj : nat) :
  attempt_post env reply j r evs dj ->
  length (sandbox_scripts evs) = dj /\ dj <= 1
  /\ (is_return r = true -> dj = 1)
  /\ (forall msg, r = Raise (GeometryError msg) -> dj = 1).
Proof.
  unfold attempt_post.
  destruct reply as [e|text [e|]]; [| destruct (postprocess text)..].
  1-4: intros (-> & -> & _ & ->); cbn; repeat split; auto; discriminate.
  intros (-> & -> & _). cbn. repeat split; auto.
Qed.

End LoopFacts.

Section LoopProperties.

Variable env : Env.
Variables (format : string) (previous_code constraints : option string).
Hypothesis Hparse : constraints_error env constraints = None.

Lemma record_trace (ev : event) (w : World) :
  trace (record ev w) = (trace w ++ [ev])%list
  /\ next_job (record ev w) = next_job w
  /\ next_gen (record ev w) = next_gen w.
Proof. auto. Qed.

(** The loop starts the sandbox at most once per attempt it may make. *)
Lemma loop_run_sandbox_bound (attempts : list nat)
    (last_error feedback_msg : option string) (w w' : World)
    (r : result FileResponse) :
  loop_run env format previous_code constraints attempts last_error feedback_msg w r w' ->
  exists evs,
    trace w' = (trace w ++ evs)%list
    /\ length (sandbox_scripts evs) <= length attempts.
Proof.
  induction 1 as [le fm w|a rest le fm w w1 r B _|a rest le fm w w1 w' msg r B _ _ IH
                  |a rest le fm w w1 msg B _].
  - exists []. rewrite app_nil_r. cbn. auto.
  - apply attempt_body_spec in B;
      [|first [assumption | eapply attempt_body_geometry; eassumption]].
    destruct B as (evs & dj & Htr & _ & _ & _ & _ & Hpost).
    apply attempt_post_runs in Hpost. destruct Hpost as (Hlen & Hle & _).
    exists evs. split; [assumption|]. cbn [length]. lia.
  - apply attempt_body_spec in B;
      [|first [assumption | eapply attempt_body_geometry; eassumption]].
    destruct B as (evs & dj & Htr & _ & _ & _ & _ & Hpost).
    apply attempt_post_runs in Hpost. destruct Hpost as (Hlen & Hle & _).
    destruct IH as (evs2 & Htr2 & Hlen2).
    exists (evs ++ EvLog (LogAttemptFailed a msg) :: evs2)%list.
    split.
    + rewrite Htr2. cbn [record trace]. rewrite Htr, <- !app_assoc. reflexivity.
    + rewrite sandbox_scripts_app. cbn [sandbox_scripts].
      rewrite length_app. cbn [length]. lia.
  - apply attempt_body_spec in B;
      [|first [assumption | eapply attempt_body_geometry; eassumption]].
    destruct B as (evs & dj & Htr & _ & _ & _ & _ & Hpost).
    apply attempt_post_runs in Hpost. destruct Hpost as (Hlen & Hle & _).
    exists (evs ++ [EvLog (LogAttemptFailed a msg)])%list.
    split.
    + cbn [record trace]. rewrite Htr, <- !app_assoc. reflexivity.
    + rewrite sandbox_scripts_app. cbn [sandbox_scripts].
      rewrite length_app. cbn [length]. lia.
Qed.

(** The feedback of every generation call after the first is the hint
    classified from the failure caught just before it. *)
Lemma loop_run_feedback (attempts : list nat)
    (last_error feedback_msg : option string) (w w' : World)
    (r : result FileResponse) :
  loop_run env format previous_code constraints attempts last_error feedback_msg w r w' ->
  (forall a, In a (tl attempts) -> a <> 0) ->
  exists evs,
    trace w' = (trace w ++ evs)%list
    /\ generation_feedbacks evs
       = match attempts with
         | [] => []
         | a :: _ => chosen_feedback previous_code a feedback_msg
                     :: tl (generation_feedbacks evs)
         end
    /\ (forall n fb,
           nth_error (generation_feedbacks evs) (S n) = Some fb ->
           exists a msg,
             nth_error attempts n = Some a
             /\ nth_error (caught_errors evs) n = Some (a, msg)
             /\ fb = Some (_parse_freecad_error msg)).
Proof.
  induction 1 as [le fm w|a rest le fm w w1 r B _|a rest le fm w w1 w' msg r B _ _ IH
                  |a rest le fm w w1 msg B _]; intro Hnz.
  - exists []. rewrite app_nil_r. cbn. repeat split; auto.
    intros [|n] fb [=].
  - apply attempt_body_spec in B;
      [|first [assumption | eapply attempt_body_geometry; eassumption]].
    destruct B as (evs & dj & Htr & _ & _ & Hfb & Herr & _).
    exists evs. rewrite Hfb. repeat split; auto.
    intros [|n] fb [=].
  - apply attempt_body_spec in B;
      [|first [assumption | eapply attempt_body_geometry; eassumption]].
    destruct B as (evs & dj & Htr & _ & _ & Hfb & Herr & _).
    destruct IH as (evs2 & Htr2 & Hhd2 & Hnext2).
    { intros a' Hin. apply Hnz. cbn [tl]. destruct rest; [contradiction|].
      right. exact Hin. }
    exists (evs ++ EvLog (LogAttemptFailed a msg) :: evs2)%list.
    split.
    { rewrite Htr2. cbn [record trace]. rewrite Htr, <- !app_assoc. reflexivity. }
    rewrite generation_feedbacks_app, caught_errors_app, Hfb, Herr.
    cbn [generation_feedbacks caught_errors app tl].
    split; [reflexivity|].
    intros [|n] fb Hn; cbn [nth_error nth] in *.
    + exists a, msg. split; [reflexivity|]. split; [reflexivity|].
      rewrite Hhd2 in Hn. destruct rest as [|a' rest']; [discriminate Hn|].
      cbn [nth_error] in Hn. injection Hn as <-.
      unfold chosen_feedback.
      assert (Ha' : a' <> 0) by (apply Hnz; left; reflexivity).
      apply Nat.eqb_neq in Ha'. rewrite Ha', andb_false_r. reflexivity.
    + destruct (Hnext2 n fb) as (a' & msg' & Ha' & Hmsg & ->).
      { rewrite Hhd2 in Hn |- *. destruct rest; [destruct n; discriminate Hn|].
        exact Hn. }
      exists a', msg'. auto.
  - apply attempt_body_spec in B;
      [|first [assumption | eapply attempt_body_geometry; eassumption]].
    destruct B as (evs & dj & Htr & _ & _ & Hfb & Herr & _).
    exists (evs ++ [EvLog (LogAttemptFailed a msg)])%list.
    split.
    { cbn [record trace]. rewrite Htr, <- !app_assoc. reflexivity. }
    rewrite generation_feedbacks_app, caught_errors_app, Hfb, Herr.
    cbn. split; [reflexivity|].
    intros [|n] fb [=].
Qed.

End LoopProperties.

Section SecurityFacts.

Variable env : Env.
Variables (format : string) (previous_code constraints : option string).
Hypothesis Hparse : constraints_error env constraints = None.

Lemma postprocess_blocked (reply pattern : string) :
  In pattern dangerous ->
  contains pattern (ensure_function (extract_code reply)) = true ->
  exists p, In p dangerous /\ postprocess reply = inl p.
Proof.
  intros Hin Hc. unfold postprocess, blocked_pattern.
  destruct (find (fun p => contains p (ensure_function (extract_code reply))) dangerous)
    as [p|] eqn:F.
  - apply find_in_matches in F. exists p. tauto.
  - exfalso. eapply find_none in F; [|exact Hin]. cbn beta in F. congruence.
Qed.

Lemma postprocess_clean (reply code : string) :
  postprocess reply = inr code ->
  exists text,
    code = final_code text
    /\ forall p, In p dangerous -> contains p text = false.
Proof.
  unfold postprocess, blocked_pattern.
  destruct (find (fun p => contains p (ensure_function (extract_code reply))) dangerous)
    as [p|] eqn:F; [discriminate|].
  intros [= <-]. eexists. split; [reflexivity|].
  intros p Hin. exact (find_none _ _ F p Hin).
Qed.

(** A reply stopped by the scan ends the loop at once: the result is the
    security error, and the sandbox has run only for the attempts before. *)
Lemma loop_run_blocked (attempts : list nat)
    (last_error feedback_msg : option string) (w w' : World)
    (r : result FileResponse) :
  loop_run env format previous_code constraints attempts last_error feedback_msg w r w' ->
  exists evs,
    trace w' = (trace w ++ evs)%list
    /\ forall n fb text usage_error pattern,
         nth_error (generation_feedbacks evs) n = Some fb ->
         generate_content env (next_gen w + n) fb = LLMReplied text usage_error ->
         postprocess text = inl pattern ->
         r = Raise (blocked_error pattern)
         /\ length (sandbox_scripts evs) = n
         /\ length (generation_feedbacks evs) = S n.
Proof.
  induction 1 as [le fm w|a rest le fm w w1 r B Hng|a rest le fm w w1 w' msg r B _ _ IH
                  |a rest le fm w w1 msg B _].
  - exists []. rewrite app_nil_r. split; [reflexivity|].
    intros [|n] fb text ue p [=].
  - apply attempt_body_spec in B;
      [|first [assumption | eapply attempt_body_geometry; eassumption]].
    destruct B as (evs & dj & Htr & _ & _ & Hfb & _ & Hpost).
    exists evs. split; [assumption|]. rewrite Hfb.
    intros [|[|n]] fb text ue p [=] Hgen Hpp. subst fb.
    rewrite Nat.add_0_r in Hgen. unfold attempt_post in Hpost.
    rewrite Hgen, Hpp in Hpost. destruct Hpost as (-> & -> & _). auto.
  - apply attempt_body_spec in B;
      [|first [assumption | eapply attempt_body_geometry; eassumption]].
    destruct B as (evs & dj & Htr & Hg & _ & Hfb & _ & Hpost).
    destruct IH as (evs2 & Htr2 & Hblk).
    exists (evs ++ EvLog (LogAttemptFailed a msg) :: evs2)%list.
    split.
    { rewrite Htr2. cbn [record trace]. rewrite Htr, <- !app_assoc. reflexivity. }
    rewrite generation_feedbacks_app, sandbox_scripts_app, Hfb.
    cbn [generation_feedbacks sandbox_scripts app].
    intros [|n] fb text ue p Hn Hgen Hpp; cbn [nth_error] in Hn.
    + injection Hn as <-. rewrite Nat.add_0_r in Hgen. unfold attempt_post in Hpost.
      rewrite Hgen, Hpp in Hpost. destruct Hpost as (Hr & _). discriminate Hr.
    + destruct (Hblk n fb text ue p Hn) as (-> & Hlen & Hlen'); auto.
      { cbn [record next_gen]. rewrite Hg. rewrite <- Hgen. f_equal. lia. }
      apply attempt_post_runs in Hpost.
      destruct Hpost as (Hl & _ & _ & Hgeo). rewrite (Hgeo msg eq_refl) in Hl.
      rewrite length_app, Hl. cbn [length]. rewrite Hlen, Hlen'. auto.
  - apply attempt_body_spec in B;
      [|first [assumption | eapply attempt_body_geometry; eassumption]].
    destruct B as (evs & dj & Htr & Hg & _ & Hfb & _ & Hpost).
    exists (evs ++ [EvLog (LogAttemptFailed a msg)])%list.
    split.
    { cbn [record trace]. rewrite Htr, <- !app_assoc. reflexivity. }
    rewrite generation_feedbacks_app, sandbox_scripts_app, Hfb.
    cbn [generation_feedbacks sandbox_scripts app].
    intros [|[|n]] fb text ue p [=] Hgen Hpp. subst fb.
    rewrite Nat.add_0_r in Hgen. unfold attempt_post in Hpost.
    rewrite Hgen, Hpp in Hpost. destruct Hpost as (Hr & _). discriminate Hr.
Qed.

(** Every script the loop hands to the sandbox has passed the scan. *)
Lemma loop_run_scripts_clean (attempts : list nat)
    (last_error feedback_msg : option string) (w w' : World)
    (r : result FileResponse) :
  loop_run env format previous_code constraints attempts last_error feedback_msg w r w' ->
  exists evs,
    trace w' = (trace w ++ evs)%list
    /\ forall script,
         In script (sandbox_scripts evs) ->
         exists text,
           script = final_code text
           /\ forall p, In p dangerous -> contains p text = false.
Proof.
  assert (Hone : forall reply j r0 evs dj script,
             attempt_post env reply j r0 evs dj ->
             In script (sandbox_scripts evs) ->
             exists text,
               script = final_code text
               /\ forall p, In p dangerous -> contains p text = false).
  { intros reply j r0 evs dj script Hpost Hin. unfold attempt_post in Hpost.
    destruct reply as [e|text ue].
    - destruct Hpost as (_ & Hs & _). rewrite Hs in Hin. contradiction.
    - destruct (postprocess text) as [p|code] eqn:Hpp.
      + destruct Hpost as (_ & Hs & _). rewrite Hs in Hin. contradiction.
      + destruct ue as [e|].
        * destruct Hpost as (_ & Hs & _). rewrite Hs in Hin. contradiction.
        * destruct Hpost as (Hs & _). rewrite Hs in Hin.
          destruct Hin as [<-|[]]. exact (postprocess_clean _ _ Hpp). }
  induction 1 as [le fm w|a rest le fm w w1 r B Hng|a rest le fm w w1 w' msg r B _ _ IH
                  |a rest le fm w w1 msg B _].
  - exists []. rewrite app_nil_r. split; [reflexivity|]. intros s [].
  - apply attempt_body_spec in B;
      [|first [assumption | eapply attempt_body_geometry; eassumption]].
    destruct B as (evs & dj & Htr & _ & _ & _ & _ & Hpost).
    exists evs. split; [assumption|]. intros s Hin. eauto.
  - apply attempt_body_spec in B;
      [|first [assumption | eapply attempt_body_geometry; eassumption]].
    destruct B as (evs & dj & Htr & _ & _ & _ & _ & Hpost).
    destruct IH as (evs2 & Htr2 & Hclean).
    exists (evs ++ EvLog (LogAttemptFailed a msg) :: evs2)%list.
    split.
    { rewrite Htr2. cbn [record trace]. rewrite Htr, <- !app_assoc. reflexivity. }
    rewrite sandbox_scripts_app. cbn [sandbox_scripts].
    intros s Hin. apply in_app_or in Hin. destruct Hin; eauto.
  - apply attempt_body_spec in B;
      [|first [assumption | eapply attempt_body_geometry; eassumption]].
    destruct B as (evs & dj & Htr & _ & _ & _ & _ & Hpost).
    exists (evs ++ [EvLog (LogAttemptFailed a msg)])%list.
    split.
    { cbn [record trace]. rewrite Htr, <- !app_assoc. reflexivity. }
    rewrite sandbox_scripts_app. cbn [sandbox_scripts]. rewrite app_nil_r.
    intros s Hin. eauto.
Qed.

End SecurityFacts.

(* ================================================================== *)
(** * The retry controller *)
(* ================================================================== *)

Section EndpointCases.

Variable env : Env.
Variables (format : string) (previous_code constraints : option string).

(** Constraints that make the parser raise end the loop in its first
    iteration, before anything is generated or run. *)
Lemma retry_loop_constraints (attempt : nat) (rest : list nat)
    (last_error feedback_msg : option string) (w : World) (e : exn) :
  constraints_error env constraints = Some e ->
  retry_loop env format previous_code constraints (attempt :: rest)
    last_error feedback_msg w
  = (Raise e,
     mkWorld (next_job w) (next_gen w)
       (trace w ++ attempt_pre env constraints attempt feedback_msg)%list).
Proof.
  intro C. rewrite retry_loop_cons, (attempt_body_constraints _ _ _ _ _ _ _ e C).
  pose proof (constraints_error_foreign _ _ e C) as F.
  destruct e; try discriminate F; reflexivity.
Qed.

(** The ways [/generate] can run: it stops before the loop; or the
    constraints cannot be parsed and the first iteration ends the request;
    or the loop runs over the attempts 0, 1 and 2. *)
Lemma generate_from_text_cases (prompt : string) (gemini_api_key : option string)
    (w w' : World) (r : result FileResponse) :
  generate_from_text env prompt format previous_code constraints gemini_api_key w = (r, w') ->
  (sandbox_scripts (trace w') = sandbox_scripts (trace w)
   /\ generation_feedbacks (trace w') = generation_feedbacks (trace w)
   /\ exists detail, r = Raise (HTTPException 400 detail))
  \/ (truthy gemini_api_key = true
      /\ pipeline_init_error env = None
      /\ exists e,
           constraints_error env constraints = Some e
           /\ r = Raise e
           /\ w' = mkWorld (next_job w) (next_gen w)
                      (trace w ++ attempt_pre env constraints 0 None)%list)
  \/ (truthy gemini_api_key = true
      /\ pipeline_init_error env = None
      /\ constraints_error env constraints = None
      /\ loop_run env format previous_code constraints [0; 1; 2] None None w r w').
Proof.
  unfold generate_from_text.
  destruct (truthy gemini_api_key); cbn [negb].
  - destruct (pipeline_init_error env) as [e|].
    + unfold_monad. intros [= <- <-]. left. cbn [trace].
      rewrite sandbox_scripts_app, generation_feedbacks_app. cbn.
      rewrite !app_nil_r. eauto.
    + intro E. right. cbn [seq] in E.
      destruct (constraints_error env constraints) as [e|] eqn:C.
      * left. rewrite (retry_loop_constraints _ _ _ _ _ e C) in E.
        injection E as <- <-. eauto 6.
      * right. apply retry_loop_run in E. auto.
  - unfold raise. intros [= <- <-]. left. eauto.
Qed.

End EndpointCases.

Section ControllerFacts.

Variable env : Env.
Variables (format : string) (previous_code constraints : option string).
Hypothesis Hparse : constraints_error env constraints = None.

(** A non-zero exit code of the sandbox, whatever its value, makes the
    attempt fail recoverably, and the loop goes on while attempts remain. *)
Lemma nonzero_exit_is_retried (attempt : nat) (rest : list nat)
    (last_error feedback_msg : option string) (w : World) (text code : string) :
  generate_content env (next_gen w)
    (chosen_feedback previous_code attempt feedback_msg) = LLMReplied text None ->
  postprocess text = inr code ->
  snd (sandbox_result 30 (docker_run env (next_job w) code)) <> 0%Z ->
  let msg := "FreeCAD Error: "
             ++ snd (fst (sandbox_result 30 (docker_run env (next_job w) code))) in
  exists w1,
    attempt_body env format previous_code constraints attempt feedback_msg w
    = (Raise (GeometryError msg), w1)
    /\ sandbox_scripts (trace w1) = (sandbox_scripts (trace w) ++ [code])%list
    /\ retry_loop env format previous_code constraints (attempt :: rest) last_error feedback_msg w
       = if (attempt <? 2)%nat
         then retry_loop env format previous_code constraints rest (Some msg)
                (Some (_parse_freecad_error msg))
                (record (EvLog (LogAttemptFailed attempt msg)) w1)
         else (Raise (exhausted msg),
               record (EvLog (LogAttemptFailed attempt msg)) w1).
Proof.
  intros Hgen Hpp Hnz msg.
  destruct (attempt_body env format previous_code constraints attempt feedback_msg w)
    as [r w1] eqn:B.
  pose proof (attempt_body_spec env format previous_code constraints attempt
                feedback_msg w w1 r Hparse B)
    as (evs & dj & Htr & _ & _ & _ & _ & Hpost).
  unfold attempt_post in Hpost. rewrite Hgen, Hpp in Hpost.
  destruct Hpost as (Hs & _ & _ & _ & Hr).
  specialize (Hr Hnz). fold msg in Hr. subst r.
  exists w1. split; [reflexivity|]. split.
  - rewrite Htr, sandbox_scripts_app, Hs. reflexivity.
  - rewrite retry_loop_cons, B. reflexivity.
Qed.

End ControllerFacts.

(* ================================================================== *)
(** * The packager: requested format and cleanup *)
(* ================================================================== *)

Section PackagingFacts.

Variable env : Env.

(** The validator reads the world only to append its warning. *)
Lemma validate_mesh_frame (p : path) (w w0 : World) :
  fst (validate_mesh env p w) = fst (validate_mesh env p w0)
  /\ next_job (snd (validate_mesh env p w)) = next_job w
  /\ next_gen (snd (validate_mesh env p w)) = next_gen w.
Proof.
  unfold validate_mesh, mesh_checks. unfold_monad.
  case_split; auto.
Qed.

(** Format [step], a successful run, no geometry-exchange file. *)
Lemma package_step_without_step_file (stdout stderr : string) (work_dir : nat)
    (hdrs : option (list (string * string))) (w : World) :
  file_exists env (work_dir, output_step) = false ->
  fst (package env stdout stderr 0 work_dir hdrs "step" w)
  = if file_exists env (work_dir, output_stl)
    then match fst (validate_mesh env (work_dir, output_stl) w) with
         | Return _ =>
             Return (mkResponse (work_dir, output_stl) "render.step"
                       "application/octet-stream"
                       (match hdrs with Some h => h | None => [] end))
         | Raise e => Raise e
         end
    else Raise (HTTPException 500 "Output file missing from container").
Proof.
  intro Hstep. unfold package, res_exists. unfold_monad.
  cbn [Z.eqb negb in_list existsb String.eqb Ascii.eqb Bool.eqb orb andb].
  rewrite Hstep. cbn [andb fst snd].
  destruct (file_exists env (work_dir, output_stl)) eqn:Hstl; cbn [negb].
  - destruct (validate_mesh env (work_dir, output_stl) w) as [[[]|e] w1];
      cbn [fst snd]; rewrite ?Hstl; reflexivity.
  - rewrite ?Hstl. reflexivity.
Qed.

Lemma run_freecad_generation_rmtree_indep (rm : nat -> option string)
    (script : string) (hdrs : option (list (string * string))) (fmt : string)
    (w : World) :
  _run_freecad_generation (with_rmtree_error rm env) script hdrs fmt w
  = _run_freecad_generation env script hdrs fmt w.
Proof.
  rewrite !run_freecad_generation_eq. reflexivity.
Qed.

Lemma cleanup_workdir_returns (work_dir : nat) (w : World) :
  fst (cleanup_workdir env work_dir w) = Return tt.
Proof.
  unfold cleanup_workdir, shutil_rmtree. unfold_monad. cbn.
  destruct (rmtree_error env work_dir); reflexivity.
Qed.

End PackagingFacts.

(** C2, as the claim words it, fails: with format [step], exit code 0
    and no [output.step], a valid [output.stl] is delivered under the name
    [render.step], by [/generate] and by [/render] alike. *)
Lemma step_request_is_served_the_mesh_file :
  file_exists Samples.stl_only_env (0, output_step) = false
  /\ docker_run Samples.stl_only_env 0 Samples.cube_script = Completed "ok" "" 0%Z
  /\ fst (generate_from_text Samples.stl_only_env "a cube" "step" None None
            (Some "key") (fresh 0 0))
     = Return (mkResponse (0, output_stl) "render.step"
                 "application/octet-stream" [])
  /\ fst (render_from_script Samples.stl_only_env Samples.cube_script "step"
            (fresh 0 0))
     = Return (mkResponse (0, output_stl) "render.step"
                 "application/octet-stream" []).
Proof. vm_compute. repeat split. Qed.

(** C2 (amended): for format [step] and a sandbox run with exit code 0
    that left no geometry-exchange file, the request fails with status
    500, [Output file missing from container], when the mesh file is
    missing too; when the mesh file exists the packager falls back to it:
    a geometry failure of the validator is raised, and otherwise
    [output.stl] is delivered under the file name [render.step]. *)
Theorem step_request_falls_back_to_mesh_file :
  forall (env : Env) (script : string) (hdrs : option (list (string * string)))
         (w : World) (stdout stderr : string),
    docker_run env (next_job w) script = Completed stdout stderr 0%Z ->
    file_exists env (next_job w, output_step) = false ->
    fst (_run_freecad_generation env script hdrs "step" w)
    = if file_exists env (next_job w, output_stl)
      then match fst (validate_mesh env (next_job w, output_stl) w) with
           | Return _ =>
               Return (mkResponse (next_job w, output_stl) "render.step"
                         "application/octet-stream"
                         (match hdrs with Some h => h | None => [] end))
           | Raise e => Raise e
           end
      else Raise (HTTPException 500 "Output file missing from container").
Proof.
  intros env script hdrs w out err Hrun Hstep.
  rewrite run_freecad_generation_eq. cbv zeta. rewrite Hrun.
  cbn [setup_error sandbox_result sandbox_log executor_events fst snd].
  set (w1 := mkWorld _ _ _).
  pose proof (package_step_without_step_file env out err (next_job w) hdrs w1 Hstep) as P.
  rewrite (proj1 (validate_mesh_frame env (next_job w, output_stl) w1 w)) in P.
  pose proof (validate_mesh_raise_inv env (next_job w, output_stl) w) as Hinv.
  destruct (package env out err 0 (next_job w) hdrs "step" w1) as [[resp|e] w2];
    cbn [fst] in *.
  - exact P.
  - destruct (file_exists env (next_job w, output_stl)).
    + destruct (validate_mesh env (next_job w, output_stl) w) as [[[]|e'] w3];
        cbn [fst] in *; [discriminate P|].
      injection P as ->.
      destruct (Hinv w3 e' eq_refl) as (Hgeo & _).
      destruct e'; try discriminate Hgeo. reflexivity.
    + injection P as ->. reflexivity.
Qed.

Lemma step_request_falls_back_to_mesh_file_witness :
  fst (_run_freecad_generation Samples.no_output_env Samples.cube_script None
         "step" (fresh 0 0))
  = Raise (HTTPException 500 "Output file missing from container")
  /\ fst (_run_freecad_generation Samples.stl_only_env Samples.cube_script None
            "step" (fresh 0 0))
     = Return (mkResponse (0, output_stl) "render.step"
                 "application/octet-stream" []).
Proof.
  split.
  - exact (step_request_falls_back_to_mesh_file Samples.no_output_env
             Samples.cube_script None (fresh 0 0) "ok" "" eq_refl eq_refl).
  - exact (step_request_falls_back_to_mesh_file Samples.stl_only_env
             Samples.cube_script None (fresh 0 0) "ok" "" eq_refl eq_refl).
Defined.

(** C9: the removal is not arranged on every exit path.  The executor
    makes the scratch directory and writes the script before the [try] of
    the step begins: when the script cannot be written (here the file
    system is full) the exception leaves the step at once, the directory
    that was made is neither removed nor handed to a background task, and
    the tasks that run after the request remove nothing. *)
Lemma scratch_directory_left_when_script_is_not_written :
  docker_run Samples.full_disk_env 0 Samples.cube_script
  = WriteFailed (LibException "[Errno 28] No space left on device")
  /\ render_from_script Samples.full_disk_env Samples.cube_script "stl" (fresh 0 0)
     = (Raise (OtherException "[Errno 28] No space left on device"),
        mkWorld 1 0 [EvSandbox 0 Samples.cube_script; EvMkdir 0])
  /\ cleanup_events [EvSandbox 0 Samples.cube_script; EvMkdir 0] = []
  /\ run_background_tasks Samples.full_disk_env
       [EvSandbox 0 Samples.cube_script; EvMkdir 0]
       (mkWorld 1 0 [EvSandbox 0 Samples.cube_script; EvMkdir 0])
     = (Return tt, mkWorld 1 0 [EvSandbox 0 Samples.cube_script; EvMkdir 0]).
Proof. vm_compute. repeat split. Qed.

Example cleanup_failure_is_not_reported :
  fst (render_from_script Samples.stuck_rmtree_env "gen()" "stl" (fresh 0 0))
  = Raise (GeometryError "FreeCAD Error: boom")
  /\ cleanup_events
       (trace (snd (render_from_script Samples.stuck_rmtree_env "gen()" "stl"
                      (fresh 0 0))))
     = [EvRmtree 0 true]
  /\ cleanup_workdir Samples.stuck_rmtree_env 0 (fresh 1 0)
     = (Return tt,
        mkWorld 1 0
          [EvRmtree 0 false;
           EvLog (LogCleanupFailed 0 "[Errno 16] Device or resource busy")]).
Proof. vm_compute. repeat split. Qed.

Section SuccessFacts.

Variable env : Env.

(** Exit code 0, a mesh that passes validation and the result file in
    place: the packager returns a response. *)
Lemma package_returns (stdout stderr : string) (work_dir : nat)
    (hdrs : option (list (string * string))) (fmt : string) (w : World) :
  (file_exists env (work_dir, output_stl) = true ->
   fst (validate_mesh env (work_dir, output_stl) w) = Return tt) ->
  result_file_present env work_dir fmt = true ->
  exists resp w',
    package env stdout stderr 0 work_dir hdrs fmt w = (Return resp, w').
Proof.
  intros Hval Hres. unfold package, write_zip, res_exists. unfold_monad.
  unfold result_file_present in Hres.
  cbn [Z.eqb negb fst snd].
  destruct (file_exists env (work_dir, output_stl)) eqn:Hstl.
  - specialize (Hval eq_refl).
    destruct (validate_mesh env (work_dir, output_stl) w) as [[[]|e] w1];
      cbn [fst] in Hval; [|discriminate Hval].
    destruct (in_list fmt ["zip"; "both"]).
    + destruct (zip_error env work_dir); [discriminate Hres|].
      cbn. eauto.
    + cbn [fst snd] in *.
      destruct (String.eqb fmt "step" && file_exists env (work_dir, output_step));
        cbn [snd]; rewrite Hres; cbn; eauto.
  - destruct (in_list fmt ["zip"; "both"]).
    + destruct (zip_error env work_dir); [discriminate Hres|].
      cbn. eauto.
    + cbn [fst snd] in *.
      destruct (String.eqb fmt "step" && file_exists env (work_dir, output_step));
        cbn [snd]; rewrite Hres; cbn; eauto.
Qed.

Lemma attempt_body_returns (format : string)
    (previous_code constraints feedback_msg : option string)
    (attempt : nat) (w : World) (text code stdout stderr : string) :
  constraints_error env constraints = None ->
  generate_content env (next_gen w)
    (chosen_feedback previous_code attempt feedback_msg) = LLMReplied text None ->
  postprocess text = inr code ->
  docker_run env (next_job w) code = Completed stdout stderr 0%Z ->
  (file_exists env (next_job w, output_stl) = true ->
   fst (validate_mesh env (next_job w, output_stl) w) = Return tt) ->
  result_file_present env (next_job w) format = true ->
  exists resp w',
    attempt_body env format previous_code constraints attempt feedback_msg w = (Return resp, w').
Proof.
  intros Hparse Hgen Hpp Hrun Hval Hres.
  rewrite attempt_body_eq. cbv zeta. rewrite Hparse, Hgen, Hpp.
  rewrite run_freecad_generation_eq. cbv zeta. cbn [next_job next_gen trace].
  rewrite Hrun. cbn [setup_error sandbox_result sandbox_log executor_events fst snd].
  set (w1 := mkWorld _ _ _).
  destruct (package_returns stdout stderr (next_job w) (Some (retry_headers attempt))
              format w1) as (resp & w' & ->); eauto.
  intro Hstl.
  rewrite (proj1 (validate_mesh_frame env (next_job w, output_stl) w1 w)). auto.
Qed.

End SuccessFacts.

(* ================================================================== *)
(** * Claims about the retry controller *)
(* ================================================================== *)

(** C1: the code does not treat a timeout as fatal.  With a sandbox
    that exceeds the time limit on every attempt, the executor is called
    three times with the generated script and the request ends only when
    the attempts are used up, with status 400.  The exit code 124 that the
    executor returns for a timeout is read nowhere. *)
Lemma timeout_does_not_stop_the_retries :
  docker_run Samples.timeout_env 0 Samples.cube_script = TimedOut
  /\ sandbox_scripts
       (trace (snd (generate_from_text Samples.timeout_env "a cube" "stl" None None
                      (Some "key") (fresh 0 0))))
     = [Samples.cube_script; Samples.cube_script; Samples.cube_script]
  /\ fst (generate_from_text Samples.timeout_env "a cube" "stl" None None
            (Some "key") (fresh 0 0))
     = Raise (HTTPException 400
                "Generation failed after 3 attempts: FreeCAD Error: TIMEOUT: Execution exceeded 30s limit").
Proof. vm_compute. repeat split. Qed.

(** The timeout path at every attempt ordinal: a timed-out run is
    reported with exit code 124 and handled like every other non-zero exit
    code.  The attempt raises the geometry failure
    [FreeCAD Error: TIMEOUT: Execution exceeded 30s limit]; on attempts 0
    and 1 the loop goes on to the remaining attempts with the classified
    text as feedback, and on a later attempt the request ends with status
    400, [Generation failed after 3 attempts]. *)
Theorem timeout_is_retried_like_any_failure :
  forall (env : Env) (format : string) (previous_code constraints : option string)
         (attempt : nat) (rest : list nat)
         (last_error feedback_msg : option string) (w : World)
         (text code : string),
    constraints_error env constraints = None ->
    generate_content env (next_gen w)
      (chosen_feedback previous_code attempt feedback_msg) = LLMReplied text None ->
    postprocess text = inr code ->
    docker_run env (next_job w) code = TimedOut ->
    fst (_run_docker_execution env code 30 w)
    = Return ("", "TIMEOUT: Execution exceeded 30s limit", 124%Z, next_job w)
    /\ exists w1,
         attempt_body env format previous_code constraints attempt feedback_msg w
         = (Raise (GeometryError
                     "FreeCAD Error: TIMEOUT: Execution exceeded 30s limit"), w1)
         /\ sandbox_scripts (trace w1) = (sandbox_scripts (trace w) ++ [code])%list
         /\ retry_loop env format previous_code constraints (attempt :: rest) last_error
              feedback_msg w
            = if (attempt <? 2)%nat
              then retry_loop env format previous_code constraints rest
                     (Some "FreeCAD Error: TIMEOUT: Execution exceeded 30s limit")
                     (Some "ERROR: FreeCAD Error: TIMEOUT: Execution exceeded 30s limit")
                     (record (EvLog (LogAttemptFailed attempt
                                "FreeCAD Error: TIMEOUT: Execution exceeded 30s limit")) w1)
              else (Raise (HTTPException 400
                             "Generation failed after 3 attempts: FreeCAD Error: TIMEOUT: Execution exceeded 30s limit"),
                    record (EvLog (LogAttemptFailed attempt
                              "FreeCAD Error: TIMEOUT: Execution exceeded 30s limit")) w1).
Proof.
  intros env format pc cs a rest le fm w text code Hparse Hgen Hpp Hrun. split.
  - rewrite run_docker_execution_spec, Hrun. reflexivity.
  - pose proof (nonzero_exit_is_retried env format pc cs Hparse a rest le fm w text code
                  Hgen Hpp) as H.
    rewrite Hrun in H. exact (H ltac:(discriminate)).
Qed.

Lemma timeout_is_retried_like_any_failure_witness :
  exists w1,
    attempt_body Samples.timeout_env "stl" None None 1
      (Some "ERROR: FreeCAD Error: TIMEOUT: Execution exceeded 30s limit")
      (fresh 1 1)
    = (Raise (GeometryError "FreeCAD Error: TIMEOUT: Execution exceeded 30s limit"),
       w1).
Proof.
  destruct (timeout_is_retried_like_any_failure Samples.timeout_env "stl" None None 1
              [2] None
              (Some "ERROR: FreeCAD Error: TIMEOUT: Execution exceeded 30s limit")
              (fresh 1 1) Samples.cube_reply Samples.cube_script
              eq_refl eq_refl eq_refl eq_refl) as (_ & w1 & H & _).
  exists w1. exact H.
Defined.

(** C3: the code does not treat a launch error as fatal.  When
    launching the container raises on every attempt (here the [docker]
    program is missing), the executor logs [Docker execution error],
    returns exit code 1, and is called three times; the request ends with
    status 400 and a text that calls the failure a FreeCAD error. *)
Lemma launch_error_does_not_stop_the_retries :
  docker_run Samples.launch_env 0 Samples.cube_script
  = LaunchFailed "[Errno 2] No such file or directory: 'docker'"
  /\ sandbox_scripts
       (trace (snd (generate_from_text Samples.launch_env "a cube" "stl" None None
                      (Some "key") (fresh 0 0))))
     = [Samples.cube_script; Samples.cube_script; Samples.cube_script]
  /\ fst (generate_from_text Samples.launch_env "a cube" "stl" None None
            (Some "key") (fresh 0 0))
     = Raise (HTTPException 400
                "Generation failed after 3 attempts: FreeCAD Error: [Errno 2] No such file or directory: 'docker'").
Proof. vm_compute. repeat split. Qed.

(** The launch-error path at every attempt ordinal: when launching the
    container raises, the executor returns an ordinary result with exit
    code 1 and the exception text as its error stream, so the attempt
    raises the geometry failure [FreeCAD Error: ] followed by that text;
    on attempts 0 and 1 the loop goes on to the remaining attempts with
    the classified text as feedback, and on a later attempt the request
    ends with status 400, [Generation failed after 3 attempts]. *)
Theorem launch_error_is_retried_like_any_failure :
  forall (env : Env) (format : string) (previous_code constraints : option string)
         (attempt : nat) (rest : list nat)
         (last_error feedback_msg : option string) (w : World)
         (text code e : string),
    constraints_error env constraints = None ->
    generate_content env (next_gen w)
      (chosen_feedback previous_code attempt feedback_msg) = LLMReplied text None ->
    postprocess text = inr code ->
    docker_run env (next_job w) code = LaunchFailed e ->
    fst (_run_docker_execution env code 30 w) = Return ("", e, 1%Z, next_job w)
    /\ exists w1,
         attempt_body env format previous_code constraints attempt feedback_msg w
         = (Raise (GeometryError ("FreeCAD Error: " ++ e)), w1)
         /\ sandbox_scripts (trace w1) = (sandbox_scripts (trace w) ++ [code])%list
         /\ retry_loop env format previous_code constraints (attempt :: rest) last_error
              feedback_msg w
            = if (attempt <? 2)%nat
              then retry_loop env format previous_code constraints rest
                     (Some ("FreeCAD Error: " ++ e))
                     (Some (_parse_freecad_error ("FreeCAD Error: " ++ e)))
                     (record (EvLog (LogAttemptFailed attempt
                                       ("FreeCAD Error: " ++ e))) w1)
              else (Raise (HTTPException 400
                             ("Generation failed after 3 attempts: "
                              ++ "FreeCAD Error: " ++ e)),
                    record (EvLog (LogAttemptFailed attempt
                                     ("FreeCAD Error: " ++ e))) w1).
Proof.
  intros env format pc cs a rest le fm w text code e Hparse Hgen Hpp Hrun. split.
  - rewrite run_docker_execution_spec, Hrun. reflexivity.
  - pose proof (nonzero_exit_is_retried env format pc cs Hparse a rest le fm w text code
                  Hgen Hpp) as H.
    rewrite Hrun in H. exact (H ltac:(discriminate)).
Qed.

Lemma launch_error_is_retried_like_any_failure_witness :
  exists w1,
    attempt_body Samples.launch_env "stl" None None 0 None (fresh 0 0)
    = (Raise (GeometryError
                "FreeCAD Error: [Errno 2] No such file or directory: 'docker'"),
       w1).
Proof.
  destruct (launch_error_is_retried_like_any_failure Samples.launch_env "stl" None None
              0 [1; 2] None None (fresh 0 0) Samples.cube_reply Samples.cube_script
              "[Errno 2] No such file or directory: 'docker'"
              eq_refl eq_refl eq_refl eq_refl) as (_ & w1 & H & _).
  exists w1. exact H.
Defined.

(** C4: a [/generate] request starts the sandbox at most three times, and
    exactly once when the first attempt succeeds: when its iteration
    returns a response, which it does when parsing the constraints does
    not raise, the run ends with exit code 0, the mesh passes validation
    and the requested result file is present.  Every call of the executor
    counts, also one that raises before the container is run. *)
Theorem sandbox_started_at_most_three_times :
  forall (env : Env) (prompt format : string)
         (previous_code constraints gemini_api_key : option string) (job gen : nat),
    let run := generate_from_text env prompt format previous_code constraints gemini_api_key
                 (fresh job gen) in
    length (sandbox_scripts (trace (snd run))) <= 3
    /\ (forall (resp : FileResponse) (w1 : World),
           truthy gemini_api_key = true ->
           pipeline_init_error env = None ->
           attempt_body env format previous_code constraints 0 None (fresh job gen)
           = (Return resp, w1) ->
           run = (Return resp, w1)
           /\ length (sandbox_scripts (trace w1)) = 1)
    /\ (forall text code stdout stderr : string,
           truthy gemini_api_key = true ->
           pipeline_init_error env = None ->
           constraints_error env constraints = None ->
           generate_content env gen
             (if truthy previous_code then previous_code else None)
           = LLMReplied text None ->
           postprocess text = inr code ->
           docker_run env job code = Completed stdout stderr 0%Z ->
           (file_exists env (job, output_stl) = true ->
            fst (validate_mesh env (job, output_stl) (fresh job gen)) = Return tt) ->
           result_file_present env job format = true ->
           exists resp : FileResponse,
             fst run = Return resp
             /\ sandbox_scripts (trace (snd run)) = [code]).
Proof.
  intros env prompt format pc cs key job gen run.
  assert (Hfirst : forall (resp : FileResponse) (w1 : World),
             truthy key = true ->
             pipeline_init_error env = None ->
             attempt_body env format pc cs 0 None (fresh job gen) = (Return resp, w1) ->
             run = (Return resp, w1)).
  { intros resp w1 Hkey Hinit B. subst run.
    unfold generate_from_text. rewrite Hkey, Hinit. cbn [negb seq].
    rewrite retry_loop_cons, B. reflexivity. }
  assert (Hreturns : forall (resp : FileResponse) (w1 : World),
             attempt_body env format pc cs 0 None (fresh job gen) = (Return resp, w1) ->
             constraints_error env cs = None).
  { intros resp w1 B. destruct (constraints_error env cs) as [e|] eqn:C; [|reflexivity].
    rewrite (attempt_body_constraints env format pc cs 0 None _ e C) in B.
    discriminate B. }
  split; [|split].
  - destruct run as [r w'] eqn:E. subst run.
    apply generate_from_text_cases in E. cbn [snd].
    destruct E as [(Hs & _)|[(_ & _ & e & _ & _ & ->)|(_ & _ & C & L)]].
    + rewrite Hs. cbn. lia.
    + cbn [trace fresh app].
      rewrite (proj1 (attempt_pre_quiet env cs 0 None)). cbn. lia.
    + apply (loop_run_sandbox_bound env format pc cs C) in L.
      destruct L as (evs & Htr & Hlen).
      rewrite Htr. cbn [fresh trace app]. exact Hlen.
  - intros resp w1 Hkey Hinit B. split; [auto|].
    pose proof (Hreturns resp w1 B) as C.
    apply attempt_body_spec in B; [|exact C].
    destruct B as (evs & dj & Htr & _ & _ & _ & _ & Hpost).
    apply attempt_post_runs in Hpost.
    destruct Hpost as (Hlen & _ & Hret & _).
    rewrite Htr. cbn [fresh trace app]. rewrite Hlen. apply Hret. reflexivity.
  - intros text code out err Hkey Hinit C Hgen Hpp Hrun Hval Hres.
    assert (Hfb : chosen_feedback pc 0 None = if truthy pc then pc else None).
    { unfold chosen_feedback. cbn. now rewrite andb_true_r. }
    destruct (attempt_body_returns env format pc cs None 0 (fresh job gen)
                text code out err) as (resp & w1 & B); auto.
    { rewrite Hfb. exact Hgen. }
    rewrite (Hfirst resp w1 Hkey Hinit B). cbn [fst snd].
    exists resp. split; [reflexivity|].
    apply attempt_body_spec in B; [|exact C].
    destruct B as (evs & dj & Htr & _ & _ & _ & _ & Hpost).
    cbn [fresh next_gen next_job trace app] in *.
    unfold attempt_post in Hpost. rewrite Hfb, Hgen, Hpp in Hpost.
    destruct Hpost as (Hs & _). rewrite Htr. exact Hs.
Qed.

Lemma sandbox_started_at_most_three_times_witness :
  exists resp : FileResponse,
    fst (generate_from_text Samples.happy_env "a cube" "stl" None None (Some "key")
           (fresh 0 0))
    = Return resp
    /\ sandbox_scripts
         (trace (snd (generate_from_text Samples.happy_env "a cube" "stl" None None
                        (Some "key") (fresh 0 0))))
       = [Samples.cube_script].
Proof.
  apply (proj2 (proj2 (sandbox_started_at_most_three_times Samples.happy_env
                         "a cube" "stl" None None (Some "key") 0 0))
           Samples.cube_reply Samples.cube_script "ok" "").
  - reflexivity.
  - reflexivity.
  - reflexivity.
  - reflexivity.
  - vm_compute. reflexivity.
  - reflexivity.
  - intros _. vm_compute. reflexivity.
  - reflexivity.
Defined.

(** C7: on attempt 0 a previous script, when one was supplied, is the
    feedback handed to code generation, and nothing is handed otherwise;
    on every later attempt [n] the feedback is exactly the hint classified
    from the geometry failure caught on attempt [n - 1].  The call of
    attempt 0 is made whenever the request has a key, the pipeline can be
    built and parsing the constraints does not raise. *)
Theorem feedback_is_the_hint_of_the_previous_attempt :
  forall (env : Env) (prompt format : string)
         (previous_code constraints gemini_api_key : option string) (job gen : nat),
    let tr := trace (snd (generate_from_text env prompt format previous_code constraints
                            gemini_api_key (fresh job gen))) in
    (forall fb : option string,
        nth_error (generation_feedbacks tr) 0 = Some fb ->
        fb = if truthy previous_code then previous_code else None)
    /\ (truthy gemini_api_key = true ->
        pipeline_init_error env = None ->
        constraints_error env constraints = None ->
        nth_error (generation_feedbacks tr) 0
        = Some (if truthy previous_code then previous_code else None))
    /\ (forall (n : nat) (fb : option string),
           nth_error (generation_feedbacks tr) (S n) = Some fb ->
           exists msg : string,
             nth_error (caught_errors tr) n = Some (n, msg)
             /\ fb = Some (_parse_freecad_error msg)).
Proof.
  intros env prompt format pc cs key job gen tr.
  assert (Hfb0 : chosen_feedback pc 0 None = if truthy pc then pc else None).
  { unfold chosen_feedback. cbn. now rewrite andb_true_r. }
  assert (Htail : forall a, In a (tl [0; 1; 2]) -> a <> 0).
  { cbn. intros a [<-|[<-|[]]]; discriminate. }
  destruct (generate_from_text env prompt format pc cs key (fresh job gen))
    as [r w'] eqn:E.
  subst tr. cbn [snd].
  split; [|split].
  - apply generate_from_text_cases in E.
    destruct E as [(_ & Hg & _)|[(_ & _ & e & _ & _ & ->)|(_ & _ & C & L)]].
    + rewrite Hg. cbn. intros fb [=].
    + cbn [trace fresh app].
      rewrite (proj1 (proj2 (attempt_pre_quiet env cs 0 None))). intros fb [=].
    + apply (loop_run_feedback env format pc cs C) in L; [|exact Htail].
      destruct L as (evs & Htr & Hhd & _).
      rewrite Htr. cbn [fresh trace app].
      intros fb Hfb. rewrite Hhd in Hfb. cbn [nth_error] in Hfb.
      injection Hfb as <-. exact Hfb0.
  - intros Hkey Hinit C. unfold generate_from_text in E.
    rewrite Hkey, Hinit in E. cbn [negb seq] in E.
    apply retry_loop_run, (loop_run_feedback env format pc cs C) in E; [|exact Htail].
    destruct E as (evs & Htr & Hhd & _).
    rewrite Htr. cbn [fresh trace app]. rewrite Hhd. cbn [nth_error].
    now rewrite Hfb0.
  - apply generate_from_text_cases in E.
    destruct E as [(_ & Hg & _)|[(_ & _ & e & _ & _ & ->)|(_ & _ & C & L)]].
    + rewrite Hg. cbn. intros n fb [=].
    + cbn [trace fresh app].
      rewrite (proj1 (proj2 (attempt_pre_quiet env cs 0 None))). intros n fb [=].
    + apply (loop_run_feedback env format pc cs C) in L; [|exact Htail].
      destruct L as (evs & Htr & _ & Hnext).
      rewrite Htr. cbn [fresh trace app].
      intros n fb Hfb. destruct (Hnext n fb Hfb) as (a & msg & Ha & Hmsg & ->).
      exists msg. split; [|reflexivity].
      destruct n as [|[|[|n]]]; cbn in Ha;
        [injection Ha as <-; exact Hmsg..|destruct n; discriminate Ha].
Qed.

Lemma feedback_is_the_hint_of_the_previous_attempt_witness :
  exists msg : string,
    nth_error
      (caught_errors
         (trace (snd (generate_from_text Samples.fillet_then_ok_env "a bracket"
                        "stl" (Some "old script") None (Some "key") (fresh 0 0)))))
      0 = Some (0, msg)
    /\ Some "FILLET ERROR: valueerror: fillet radius 9.0 too large for edge of length 4.0. Reduce fillet radius."
       = Some (_parse_freecad_error msg).
Proof.
  apply (proj2 (proj2 (feedback_is_the_hint_of_the_previous_attempt
                         Samples.fillet_then_ok_env "a bracket" "stl"
                         (Some "old script") None (Some "key") 0 0)) 0).
  vm_compute. reflexivity.
Defined.

Example feedback_with_previous_script :
  generation_feedbacks
    (trace (snd (generate_from_text Samples.fillet_then_ok_env "a bracket" "stl"
                   (Some "old script") None (Some "key") (fresh 0 0))))
  = [ Some "old script";
      Some "FILLET ERROR: valueerror: fillet radius 9.0 too large for edge of length 4.0. Reduce fillet radius." ]
  /\ resp_headers
       (match fst (generate_from_text Samples.fillet_then_ok_env "a bracket" "stl"
                     (Some "old script") None (Some "key") (fresh 0 0)) with
        | Return resp => resp
        | Raise _ => mkResponse (0, gen_py) "" "" []
        end)
     = [("X-Retry-Count", "1")].
Proof. vm_compute. split; reflexivity. Qed.

(** C8: a generated script in which the scan finds a disallowed pattern
    is rejected before execution: the request ends at that generation call
    with the security error and the sandbox has been started only for the
    earlier attempts; and no script the sandbox is ever started with by
    [/generate] holds any of the patterns. *)
Theorem blocked_script_never_reaches_the_sandbox :
  forall (env : Env) (prompt format : string)
         (previous_code constraints gemini_api_key : option string) (job gen : nat),
    let run := generate_from_text env prompt format previous_code constraints gemini_api_key
                 (fresh job gen) in
    let tr := trace (snd run) in
    (forall (n : nat) (fb : option string) (reply : string)
            (usage_error : option string) (pattern : string),
        nth_error (generation_feedbacks tr) n = Some fb ->
        generate_content env (gen + n) fb = LLMReplied reply usage_error ->
        In pattern dangerous ->
        contains pattern (ensure_function (extract_code reply)) = true ->
        (exists p, In p dangerous /\ fst run = Raise (blocked_error p))
        /\ length (sandbox_scripts tr) = n
        /\ length (generation_feedbacks tr) = S n)
    /\ (forall script pattern : string,
           In script (sandbox_scripts tr) ->
           In pattern dangerous ->
           contains pattern script = false).
Proof.
  intros env prompt format pc cs key job gen run tr.
  destruct run as [r w'] eqn:E. subst run tr. cbn [fst snd].
  apply generate_from_text_cases in E.
  destruct E as [(Hs & Hg & _)|[(_ & _ & e & _ & _ & ->)|(_ & _ & C & L)]].
  - rewrite Hs, Hg. cbn. split; [intros [|n] fb reply ue p [=]|intros s p []].
  - cbn [trace fresh app].
    destruct (attempt_pre_quiet env cs 0 None) as (-> & -> & _).
    split; [intros [|n] fb reply ue p [=]|intros s p []].
  - split.
    + apply (loop_run_blocked env format pc cs C) in L.
      destruct L as (evs & Htr & Hblk).
      rewrite Htr. cbn [fresh trace app next_gen] in *.
      intros n fb reply ue pattern Hfb Hgen Hin Hc.
      destruct (postprocess_blocked reply pattern Hin Hc) as (p & Hp & Hpp).
      destruct (Hblk n fb reply ue p Hfb Hgen Hpp) as (-> & Hlen & Hlen').
      eauto.
    + apply (loop_run_scripts_clean env format pc cs C) in L.
      destruct L as (evs & Htr & Hclean).
      rewrite Htr. cbn [fresh trace app]. intros script p Hin Hp.
      destruct (Hclean script Hin) as (text & -> & Htext).
      apply final_code_clean; auto.
Qed.

Lemma blocked_script_never_reaches_the_sandbox_witness :
  (exists p, In p dangerous
             /\ fst (generate_from_text Samples.shell_env "a cube" "stl" None None
                       (Some "key") (fresh 0 0))
                = Raise (blocked_error p))
  /\ length (sandbox_scripts
               (trace (snd (generate_from_text Samples.shell_env "a cube" "stl"
                              None None (Some "key") (fresh 0 0))))) = 0
  /\ length (generation_feedbacks
               (trace (snd (generate_from_text Samples.shell_env "a cube" "stl"
                              None None (Some "key") (fresh 0 0))))) = 1.
Proof.
  apply (proj1 (blocked_script_never_reaches_the_sandbox Samples.shell_env
                  "a cube" "stl" None None (Some "key") 0 0)
           0 None Samples.shell_reply None "subprocess").
  - vm_compute. reflexivity.
  - reflexivity.
  - cbn. auto.
  - vm_compute. reflexivity.
Defined.

(* ================================================================== *)
(** * Further properties: texts *)
(* ================================================================== *)

Section TextFacts.

Lemma split_from_nonempty (sep : string) (s : string) :
  forall skip, split_from sep skip s <> [].
Proof.
  induction s as [|c s IH]; intros skip; cbn [split_from]; [discriminate|].
  destruct skip; [|apply IH].
  destruct (prefix sep (String c s)); [discriminate|].
  destruct (split_from sep 0 s); discriminate.
Qed.

(** The first piece of a split is a prefix of the text. *)
Lemma split_head_prefix (sep s : string) :
  exists rest, s = nth 0 (split sep s) "" ++ rest.
Proof.
  unfold split. induction s as [|c s [rest IH]]; [exists ""; reflexivity|].
  cbn [split_from]. destruct (prefix sep (String c s)).
  - exists (String c s). reflexivity.
  - destruct (split_from sep 0 s) as [|x xs] eqn:E.
    + exfalso. exact (split_from_nonempty sep s 0 E).
    + cbn [nth] in *. exists rest. cbn. now rewrite IH at 1.
Qed.

(** The first piece of a split holds no separator. *)
Lemma split_head_clean (sep s : string) :
  sep <> "" -> contains sep (nth 0 (split sep s) "") = false.
Proof.
  intro Hsep. unfold split. induction s as [|c s IH].
  - cbn. destruct sep; [contradiction|reflexivity].
  - cbn [split_from]. destruct (prefix sep (String c s)) eqn:P.
    + cbn. destruct sep; [contradiction|reflexivity].
    + destruct (split_from sep 0 s) as [|x xs] eqn:E.
      * exfalso. exact (split_from_nonempty sep s 0 E).
      * cbn [nth] in *. rewrite contains_unfold, IH, orb_false_r.
        destruct (prefix sep (String c x)) eqn:Q; [|reflexivity].
        apply prefix_iff in Q. destruct Q as [v Hv].
        destruct (split_head_prefix sep s) as [rest Hrest].
        unfold split in Hrest. rewrite E in Hrest. cbn [nth] in Hrest.
        assert (prefix sep (String c s) = true) as P'.
        { apply prefix_iff. exists (v ++ rest).
          rewrite <- append_assoc, <- Hv, Hrest. reflexivity. }
        congruence.
Qed.

Lemma ensure_function_defines (text : string) :
  contains "def generate_model" (ensure_function text) = true.
Proof.
  unfold ensure_function.
  destruct (contains "def generate_model" text) eqn:E; cbn [negb]; [exact E|].
  apply contains_iff. exists "". eexists. cbn. reflexivity.
Qed.

Lemma lstrip_no_lead (s : string) : no_lead_space (lstrip s) = true.
Proof.
  induction s as [|c s IH]; [reflexivity|]. cbn [lstrip].
  destruct (isspace c) eqn:E; [exact IH|]. cbn. now rewrite E.
Qed.

Lemma lstrip_fixed (s : string) : no_lead_space s = true -> lstrip s = s.
Proof.
  destruct s as [|c s]; [reflexivity|]. cbn.
  destruct (isspace c); [discriminate|reflexivity].
Qed.

Lemma rstrip_no_lead (s : string) :
  no_lead_space s = true -> no_lead_space (rstrip s) = true.
Proof.
  destruct s as [|c s]; [reflexivity|]. cbn [no_lead_space rstrip].
  intro H. destruct (rstrip s); [|exact H].
  destruct (isspace c) eqn:E; [reflexivity|]. cbn. now rewrite E.
Qed.

Lemma rstrip_idem (s : string) : rstrip (rstrip s) = rstrip s.
Proof.
  induction s as [|c s IH]; [reflexivity|]. cbn [rstrip].
  destruct (rstrip s) as [|d r] eqn:E.
  - destruct (isspace c) eqn:Hc; [reflexivity|]. cbn. now rewrite Hc.
  - cbn [rstrip] in *. rewrite IH. reflexivity.
Qed.

Lemma strip_idem (s : string) : strip (strip s) = strip s.
Proof.
  unfold strip.
  rewrite (lstrip_fixed (rstrip (lstrip s))).
  - apply rstrip_idem.
  - apply rstrip_no_lead, lstrip_no_lead.
Qed.

Lemma has_char_contains (c : ascii) (s : string) :
  has_char c s = contains (String c "") s.
Proof.
  induction s as [|a s IH]; [reflexivity|].
  rewrite contains_unfold. cbn [has_char prefix]. rewrite IH.
  destruct (ascii_dec c a) as [->|Hne].
  - rewrite Ascii.eqb_refl. now destruct s.
  - assert (Ascii.eqb a c = false) as ->.
    { apply Ascii.eqb_neq. congruence. }
    reflexivity.
Qed.

Lemma has_char_strip (c : ascii) (s : string) :
  has_char c s = false -> has_char c (strip s) = false.
Proof.
  rewrite !has_char_contains. intro H.
  destruct (contains (String c "") (strip s)) eqn:E; [|reflexivity].
  apply contains_strip in E. congruence.
Qed.

Lemma has_char_append (c : ascii) (a b : string) :
  has_char c (a ++ b) = has_char c a || has_char c b.
Proof.
  induction a as [|x a IH]; [reflexivity|]. cbn. rewrite IH.
  now rewrite orb_assoc.
Qed.

Lemma has_char_replace (c d : ascii) (s : string) :
  c <> d -> has_char c (replace_char c (String d "") s) = false.
Proof.
  intro Hne. induction s as [|a s IH]; [reflexivity|]. cbn [replace_char].
  destruct (Ascii.eqb a c) eqn:E.
  - cbn. rewrite IH, orb_false_r. apply Ascii.eqb_neq. congruence.
  - cbn. now rewrite E, IH.
Qed.

Lemma has_char_replace_keeps (c d x : ascii) (s : string) :
  has_char x s = false -> x <> d ->
  has_char x (replace_char c (String d "") s) = false.
Proof.
  intros H Hne. induction s as [|a s IH]; [reflexivity|].
  cbn in H. apply orb_false_iff in H. destruct H as [Ha Hs].
  cbn [replace_char]. destruct (Ascii.eqb a c).
  - cbn. rewrite (IH Hs), orb_false_r. apply Ascii.eqb_neq. congruence.
  - cbn. now rewrite Ha, (IH Hs).
Qed.

(** The pieces of a split hold only characters of the text. *)
Lemma split_pieces_chars (sep s : string) (x : ascii) :
  has_char x s = false ->
  forall skip piece, In piece (split_from sep skip s) -> has_char x piece = false.
Proof.
  induction s as [|c s IH]; intros H skip piece Hin.
  - cbn in Hin. destruct Hin as [<-|[]]. reflexivity.
  - cbn in H. apply orb_false_iff in H. destruct H as [Hc Hs].
    cbn [split_from] in Hin. destruct skip.
    + destruct (prefix sep (String c s)).
      * destruct Hin as [<-|Hin]; [reflexivity|]. exact (IH Hs _ _ Hin).
      * destruct (split_from sep 0 s) as [|p ps] eqn:E.
        -- destruct Hin as [<-|[]]. cbn. now rewrite Hc.
        -- destruct Hin as [<-|Hin].
           ++ cbn. rewrite Hc. apply (IH Hs 0 p). rewrite E. now left.
           ++ apply (IH Hs 0 piece). rewrite E. now right.
    + exact (IH Hs _ _ Hin).
Qed.

(** The pieces of a split on one character do not hold that character. *)
Lemma split_char_pieces (c : ascii) (s piece : string) :
  In piece (split (String c "") s) -> has_char c piece = false.
Proof.
  unfold split. revert piece. induction s as [|a s IH]; intros piece Hin.
  - cbn in Hin. destruct Hin as [<-|[]]. reflexivity.
  - cbn [split_from String.length Nat.sub] in Hin.
    destruct (prefix (String c "") (String a s)) eqn:P.
    + destruct Hin as [<-|Hin]; [reflexivity|]. auto.
    + destruct (split_from (String c "") 0 s) as [|p ps] eqn:E.
      * exfalso. exact (split_from_nonempty _ s 0 E).
      * assert (Ha : Ascii.eqb a c = false).
        { cbn in P. destruct (ascii_dec c a) as [->|Hne].
          - now destruct s.
          - apply Ascii.eqb_neq. congruence. }
        destruct Hin as [<-|Hin].
        -- cbn. rewrite Ha. apply IH. now left.
        -- apply IH. now right.
Qed.

End TextFacts.

(* ================================================================== *)
(** * Further properties: the generated script and the classifier *)
(* ================================================================== *)

(** X1: the code taken out of a reply of the model never holds a Markdown
    fence, whether the reply marks its code with a [python] fence, with a
    plain fence, or with none. *)
Theorem extract_code_has_no_fence :
  forall reply : string, contains "```" (extract_code reply) = false.
Proof.
  intro reply. unfold extract_code.
  destruct (contains "```python" reply).
  - apply split_head_clean. discriminate.
  - destruct (contains "```" reply) eqn:E.
    + apply split_head_clean. discriminate.
    + exact E.
Qed.

Lemma substring_length (n : nat) (s : string) :
  String.length (substring 0 n s) = Nat.min n (String.length s).
Proof.
  revert s. induction n as [|n IH]; intros [|c s]; cbn; auto.
Qed.

Lemma append_length (a b : string) :
  String.length (a ++ b) = String.length a + String.length b.
Proof. induction a as [|c a IH]; cbn; auto. Qed.

(** X2: when no rule matches the selected line, the hint is exactly seven
    characters longer than the first 300 characters of the text: it never
    exceeds 307 characters, however long the diagnostic is. *)
Theorem generic_hint_is_bounded :
  forall stderr : string,
    (forall r, In r rule_table ->
               rule_matches r (lower (select_error_line stderr)) = false) ->
    String.length (_parse_freecad_error stderr)
    = 7 + Nat.min 300 (String.length stderr)
    /\ String.length (_parse_freecad_error stderr) <= 307.
Proof.
  intros stderr Hnone.
  rewrite parse_is_first_match. unfold first_match.
  rewrite (find_no_hit _ rule_table Hnone).
  unfold hint_generic, take. rewrite append_length, substring_length.
  cbn [String.length]. lia.
Qed.

Lemma generic_hint_is_bounded_witness :
  String.length (_parse_freecad_error "Segmentation fault") = 7 + Nat.min 300 18
  /\ String.length (_parse_freecad_error "Segmentation fault") <= 307.
Proof.
  apply (generic_hint_is_bounded "Segmentation fault").
  intros r H. cbn in H.
  destruct H as [<-|[<-|[<-|[<-|[<-|[<-|[<-|[]]]]]]]]; reflexivity.
Defined.

(** X3: when the fillet rule decides, the hint quotes the whole selected
    line in lower case: the removal of a leading [ValueError: ] that the
    code writes never takes place, because the line has been lower-cased
    before. *)
Theorem fillet_hint_quotes_the_lowered_line :
  forall stderr : string,
    let s := lower (select_error_line stderr) in
    contains "apply_draft failed" s || (contains "draft" s && contains "before" s)
    = false ->
    contains "null shape" s = false ->
    contains "fuse_objects failed" s = false ->
    contains "fillet" s && contains "too large" s = true ->
    _parse_freecad_error stderr
    = "FILLET ERROR: " ++ s ++ ". Reduce fillet radius.".
Proof.
  intros stderr s H1 H2 H3 H4. unfold _parse_freecad_error. fold s.
  rewrite H1, H2, H3, H4. subst s. apply hint_fillet_lower.
Qed.

Lemma fillet_hint_quotes_the_lowered_line_witness :
  _parse_freecad_error
    ("Traceback (most recent call last):" ++ nl
     ++ "ValueError: Fillet R9 too large for edge length 4.00" ++ nl)
  = "FILLET ERROR: valueerror: fillet r9 too large for edge length 4.00. Reduce fillet radius.".
Proof.
  exact (fillet_hint_quotes_the_lowered_line
           ("Traceback (most recent call last):" ++ nl
            ++ "ValueError: Fillet R9 too large for edge length 4.00" ++ nl)
           eq_refl eq_refl eq_refl eq_refl).
Defined.

Lemma parse_nonempty (stderr : string) :
  truthy (Some (_parse_freecad_error stderr)) = true.
Proof.
  unfold _parse_freecad_error.
  set (s := lower (select_error_line stderr)).
  destruct (contains "apply_draft failed" s || (contains "draft" s && contains "before" s));
    [reflexivity|].
  destruct (contains "null shape" s); [reflexivity|].
  destruct (contains "fuse_objects failed" s); [reflexivity|].
  destruct (contains "fillet" s && contains "too large" s); [reflexivity|].
  destruct (contains "not watertight" s); [reflexivity|].
  destruct (contains "empty" s); [reflexivity|].
  destruct (contains "makefillet" s); reflexivity.
Qed.

(* ================================================================== *)
(** * Further properties: configuration lists *)
(* ================================================================== *)

Section ConfigFacts.

Import Config.

Lemma stripped_entries_in (entries : list string) (o : string) :
  In o (stripped_entries entries) ->
  o <> "" /\ exists piece, In piece entries /\ o = strip piece.
Proof.
  unfold stripped_entries. rewrite in_flat_map.
  intros (piece & Hin & Ho).
  destruct (strip piece) eqn:E; [contradiction|].
  destruct Ho as [<-|[]]. split; [discriminate|].
  exists piece. auto.
Qed.

Lemma replace_char_idem (c d : ascii) (s : string) :
  c <> d ->
  replace_char c (String d "") (replace_char c (String d "") s)
  = replace_char c (String d "") s.
Proof.
  intro Hne. induction s as [|a s IH]; [reflexivity|]. cbn [replace_char].
  destruct (Ascii.eqb a c) eqn:E; cbn [append replace_char].
  - assert (Ascii.eqb d c = false) as ->
        by (apply Ascii.eqb_neq; congruence).
    now rewrite IH.
  - now rewrite E, IH.
Qed.

End ConfigFacts.

(** X4: every entry of the allowed origins (and hosts) read from the
    environment is non-empty, carries no white space at either end and
    holds neither a comma nor a semicolon; an unset variable gives the
    single entry [*], and a semicolon separates entries exactly as a comma
    does. *)
Theorem allowed_entries_are_clean :
  (forall (value : option string) (o : string),
      In o (Config.origins value) ->
      o <> ""
      /\ strip o = o
      /\ has_char ","%char o = false
      /\ has_char ";"%char o = false)
  /\ Config.origins None = ["*"]
  /\ (forall v : string,
         Config.origins (Some (replace_char ";"%char "," v))
         = Config.origins (Some v)).
Proof.
  split; [|split].
  - intros value o Hin. unfold Config.origins in *.
    destruct (stripped_entries_in _ _ Hin) as (Hne & piece & Hpiece & ->).
    split; [exact Hne|]. split; [apply strip_idem|].
    unfold Config.ALLOWED in Hpiece. split.
    + apply has_char_strip. exact (split_char_pieces _ _ _ Hpiece).
    + apply has_char_strip. unfold split in Hpiece.
      eapply split_pieces_chars; [|exact Hpiece].
      apply has_char_replace. discriminate.
  - reflexivity.
  - intro v. unfold Config.origins, Config.ALLOWED.
    rewrite replace_char_idem; [reflexivity|discriminate].
Qed.

Lemma allowed_entries_are_clean_witness :
  "https://b.example" <> ""
  /\ strip "https://b.example" = "https://b.example"
  /\ has_char ","%char "https://b.example" = false
  /\ has_char ";"%char "https://b.example" = false.
Proof.
  apply (proj1 allowed_entries_are_clean
           (Some "https://a.example; https://b.example ,,")).
  vm_compute. auto.
Defined.

Example origins_sample :
  Config.origins (Some "https://a.example; https://b.example ,,")
  = ["https://a.example"; "https://b.example"]
  /\ Config.origins (Some "") = [].
Proof. split; reflexivity. Qed.

(* ================================================================== *)
(** * Further properties: the pipeline's mesh report and its examples *)
(* ================================================================== *)

(** X5: the report of [AgentPipeline.validate_mesh] is valid exactly when
    it lists no error, whatever the mesh library does; it lists each of
    its two errors at most once, the watertight one first; and a mesh
    that cannot be loaded is reported valid, with a warning logged. *)
Theorem mesh_report_valid_iff_no_error :
  forall loaded : attr Trimesh,
    let r := fst (Report.validate_mesh_report loaded) in
    (Report.valid r = true <-> Report.errors r = [])
    /\ (exists a b : bool,
           Report.errors r
           = ((if a then ["Not watertight"] else [])
              ++ (if b then ["Zero/negative volume"] else []))%list)
    /\ (forall e : string,
           loaded = inl e ->
           Report.validate_mesh_report loaded = (Report.mkReport true [], Some e)).
Proof.
  intros loaded r. subst r. unfold Report.validate_mesh_report.
  destruct loaded as [e|mesh].
  - cbn. repeat split; auto.
    + exists false, false. reflexivity.
    + intros e' [= <-]. reflexivity.
  - destruct (is_watertight mesh) as [e|[]]; cbn.
    + repeat split; auto; [exists false, false; reflexivity|discriminate].
    + destruct (volume mesh) as [e|v]; cbn.
      * repeat split; auto; [exists false, false; reflexivity|discriminate].
      * destruct (PrimFloat.leb v 0); cbn; repeat split; auto; try discriminate.
        -- exists false, true. reflexivity.
        -- exists false, false. reflexivity.
    + destruct (volume mesh) as [e|v]; cbn.
      * repeat split; auto; try discriminate. exists true, false. reflexivity.
      * destruct (PrimFloat.leb v 0); cbn; repeat split; auto; try discriminate.
        -- exists true, true. reflexivity.
        -- exists true, false. reflexivity.
Qed.

Lemma mesh_report_valid_iff_no_error_witness :
  Report.validate_mesh_report (inl "file is not a mesh")
  = (Report.mkReport true [], Some "file is not a mesh").
Proof.
  exact (proj2 (proj2 (mesh_report_valid_iff_no_error (inl "file is not a mesh")))
           "file is not a mesh" eq_refl).
Defined.

(** X6: the validator of the server is at least as strict as the report
    of the pipeline: for a mesh file that exists, loads to the same mesh
    for both and whose properties can be read, a report that is not valid
    means the server's validator raises a geometry failure. *)
Theorem invalid_report_means_geometry_failure :
  forall (env : Env) (stl_path : path) (w : World) (mesh : Trimesh)
         (empty watertight : bool) (vol : float) (n : nat),
    file_exists env stl_path = true ->
    trimesh_load env stl_path = inr mesh ->
    is_empty mesh = inr empty ->
    is_watertight mesh = inr watertight ->
    volume mesh = inr vol ->
    faces mesh = inr n ->
    Report.valid (fst (Report.validate_mesh_report (inr mesh))) = false ->
    exists msg : string,
      validate_mesh env stl_path w = (Raise (GeometryError msg), w).
Proof.
  intros env p w mesh e wt v n Hex Hload He Hwt Hv Hn Hrep.
  rewrite (validate_mesh_readable env p w mesh e wt v n Hex Hload He Hwt Hv Hn).
  unfold Report.validate_mesh_report in Hrep. rewrite Hwt, Hv in Hrep.
  destruct e; [eauto|]. destruct wt; cbn [negb] in *; [|eauto].
  destruct (PrimFloat.leb v 0); [eauto|]. cbn in Hrep. discriminate Hrep.
Qed.

Lemma invalid_report_means_geometry_failure_witness :
  exists msg : string,
    validate_mesh Samples.flat_env (0, output_stl) (fresh 1 1)
    = (Raise (GeometryError msg), fresh 1 1).
Proof.
  exact (invalid_report_means_geometry_failure Samples.flat_env (0, output_stl)
           (fresh 1 1) Samples.flat_sheet false true 0%float 2
           eq_refl eq_refl eq_refl eq_refl eq_refl eq_refl eq_refl).
Defined.

Section ExamplesFacts.

Import Examples.

Variable set_order : list string -> list string.
Variable read_file : string -> string + string.

(** The loop over the chosen files, as a filter. *)
Lemma load_loop (files : list string) :
  forall (text : string) (loaded : nat) (logs : list examples_log),
    let '(text', loaded', logs') :=
      fold_left (load_one read_file) files (text, loaded, logs) in
    loaded_files logs'
    = (loaded_files logs
       ++ filter (fun f => match read_file f with inr _ => true | inl _ => false end)
                 files)%list
    /\ loaded' = loaded + length (loaded_files logs') - length (loaded_files logs)
    /\ exists more, text' = text ++ more.
Proof.
  assert (Happ : forall a b, loaded_files (a ++ b) = (loaded_files a ++ loaded_files b)%list).
  { induction a as [|[] a IH]; intro b; cbn; rewrite ?IH; reflexivity. }
  induction files as [|f files IH]; intros text loaded logs.
  - cbn. rewrite app_nil_r. split; [reflexivity|]. split; [lia|].
    exists "". clear. induction text; cbn; congruence.
  - cbn [fold_left filter]. unfold load_one at 2.
    destruct (read_file f) as [e|content].
    + specialize (IH text loaded (logs ++ [LogNotLoaded f e])%list).
      destruct (fold_left (load_one read_file) files _) as [[t' l'] g'].
      rewrite Happ in IH. cbn in IH. rewrite app_nil_r in IH. exact IH.
    + specialize (IH (text ++ nl ++ "### " ++ f ++ nl ++ "```python" ++ nl
                           ++ content ++ nl ++ "```" ++ nl)
                     (S loaded) (logs ++ [LogLoaded f])%list).
      destruct (fold_left (load_one read_file) files _) as [[t' l'] g'].
      rewrite Happ in IH. cbn [loaded_files] in IH. rewrite <- app_assoc in IH.
      cbn [app] in IH. destruct IH as (Hl & Hn & more & Ht).
      split; [exact Hl|]. split.
      * rewrite Hn, Hl, !length_app. cbn [length]. lia.
      * eexists. rewrite Ht, append_assoc. reflexivity.
Qed.

Lemma matched_files_sound (spec f : string) :
  In f (matched_files spec) ->
  exists keyword files,
    In (keyword, files) SPEC_TYPE_EXAMPLES
    /\ contains keyword (lower spec) = true
    /\ In f files.
Proof.
  unfold matched_files. rewrite nodup_In, in_flat_map.
  intros ([k files] & Hin & Hf). cbn [fst snd] in Hf.
  destruct (contains k (lower spec)) eqn:E; [|contradiction].
  exists k, files. auto.
Qed.

Lemma NoDup_firstn {A : Type} (n : nat) (l : list A) :
  NoDup l -> NoDup (firstn n l).
Proof.
  intro H. rewrite <- (firstn_skipn n l) in H.
  exact (NoDup_app_remove_r _ _ H).
Qed.

Lemma In_firstn {A : Type} (n : nat) (l : list A) (x : A) :
  In x (firstn n l) -> In x l.
Proof.
  intro H. rewrite <- (firstn_skipn n l). apply in_or_app. now left.
Qed.

Lemma filter_length_le {A : Type} (f : A -> bool) (l : list A) :
  length (filter f l) <= length l.
Proof.
  induction l as [|a l IH]; cbn; [lia|]. destruct (f a); cbn; lia.
Qed.

End ExamplesFacts.

(** X7: the examples injected into the system prompt: provided the
    iteration over the set of matched files visits each of them once,
    at most [max_examples] files are loaded, none twice, and each one is
    listed in the table under a keyword that occurs in the lower-cased
    specification; and the text returned is empty exactly when no file
    was loaded. *)
Theorem relevant_examples_are_matched_and_bounded :
  forall (set_order : list string -> list string)
         (read_file : string -> string + string)
         (spec : string) (max_examples : nat),
    (forall l, NoDup l -> NoDup (set_order l)
                          /\ forall f, In f (set_order l) -> In f l) ->
    let out := Examples._get_relevant_examples set_order read_file spec max_examples in
    let loaded := Examples.loaded_files (snd out) in
    length loaded <= max_examples
    /\ NoDup loaded
    /\ (forall f, In f loaded ->
                  exists keyword files,
                    In (keyword, files) Examples.SPEC_TYPE_EXAMPLES
                    /\ contains keyword (lower spec) = true
                    /\ In f files
                    /\ exists content, read_file f = inr content)
    /\ (fst out = "" <-> loaded = []).
Proof.
  intros set_order read_file spec max_examples Hord out loaded.
  subst loaded out. unfold Examples._get_relevant_examples.
  assert (Hnd : NoDup (Examples.matched_files spec)) by apply NoDup_nodup.
  pose proof (matched_files_sound spec) as Hsound.
  destruct (Examples.matched_files spec) as [|m ms] eqn:Em.
  - cbn. split; [lia|]. split; [constructor|]. split; [intros f []|].
    split; reflexivity.
  - set (matched := (m :: ms)) in *.
    destruct (Hord matched Hnd) as (Hnd' & Hsub).
    set (chosen := firstn max_examples (set_order matched)).
    pose proof (load_loop read_file chosen
                  (nl ++ "## RELEVANT EXAMPLES FOR YOUR SPEC:" ++ nl) 0 []) as L.
    destruct (fold_left (Examples.load_one read_file) chosen _) as [[text loaded] logs].
    cbn [Examples.loaded_files app length] in L.
    destruct L as (Hl & Hn & more & Ht).
    assert (Hlen : length (Examples.loaded_files logs) <= max_examples).
    { rewrite Hl. etransitivity; [apply filter_length_le|].
      subst chosen. rewrite length_firstn. lia. }
    assert (Hnd2 : NoDup (Examples.loaded_files logs)).
    { rewrite Hl. apply NoDup_filter. subst chosen. now apply NoDup_firstn. }
    assert (Hin : forall f, In f (Examples.loaded_files logs) ->
                  exists keyword files,
                    In (keyword, files) Examples.SPEC_TYPE_EXAMPLES
                    /\ contains keyword (lower spec) = true
                    /\ In f files
                    /\ exists content, read_file f = inr content).
    { intros f Hf. rewrite Hl in Hf. apply filter_In in Hf.
      destruct Hf as (Hf & Hr). subst chosen. apply In_firstn, Hsub in Hf.
      destruct (Hsound f Hf) as (k & files & H1 & H2 & H3).
      exists k, files. repeat split; auto.
      destruct (read_file f) as [|content]; [discriminate|eauto]. }
    assert (Happ : forall a b, Examples.loaded_files (a ++ b)
                               = (Examples.loaded_files a ++ Examples.loaded_files b)%list).
    { induction a as [|[] a IH]; intro b; cbn; rewrite ?IH; reflexivity. }
    destruct (loaded =? 0)%nat eqn:E0; cbn [fst snd].
    + apply Nat.eqb_eq in E0. rewrite E0 in Hn.
      repeat split; auto.
      destruct (Examples.loaded_files logs); [reflexivity|cbn in Hn; lia].
    + apply Nat.eqb_neq in E0. rewrite Happ. cbn. rewrite app_nil_r.
      repeat split; auto.
      * intro Hempty. rewrite Ht in Hempty. discriminate Hempty.
      * intro Hnil. rewrite Hnil in Hn. cbn in Hn. lia.
Qed.

Lemma relevant_examples_are_matched_and_bounded_witness :
  length (Examples.loaded_files
            (snd (Examples._get_relevant_examples (fun l => rev l)
                    (fun f => if String.eqb f "example_tube.py"
                              then inl "No such file" else inr "pass")
                    "A pipe flange bracket" 3))) <= 3.
Proof.
  apply (relevant_examples_are_matched_and_bounded (fun l => rev l)
           (fun f => if String.eqb f "example_tube.py"
                     then inl "No such file" else inr "pass")
           "A pipe flange bracket" 3).
  intros l Hl. split.
  - apply NoDup_rev. exact Hl.
  - intros f Hf. apply in_rev. exact Hf.
Defined.

Example relevant_examples_sample :
  Examples.loaded_files
    (snd (Examples._get_relevant_examples (fun l => rev l)
            (fun f => if String.eqb f "example_tube.py"
                      then inl "No such file" else inr "pass")
            "A pipe flange bracket" 3))
  = ["example_pipe_flange.py"; "example_mounting_flange.py"]
  /\ Examples._get_relevant_examples (fun l => l) (fun _ => inr "pass")
       "a sphere" 3
     = ("", [Examples.LogNoMatch]).
Proof. vm_compute. split; reflexivity. Qed.

(* ================================================================== *)
(** * Further properties: the generation and packaging step *)
(* ================================================================== *)

Section StepFacts.

Variable env : Env.

Lemma archives_app (a b : list event) :
  archives (a ++ b) = (archives a ++ archives b)%list.
Proof.
  induction a as [|[] a IH]; cbn; rewrite ?IH; reflexivity.
Qed.

Lemma sandbox_jobs_app (a b : list event) :
  sandbox_jobs (a ++ b) = (sandbox_jobs a ++ sandbox_jobs b)%list.
Proof.
  induction a as [|[] a IH]; cbn; rewrite ?IH; reflexivity.
Qed.

Lemma quiet_no_jobs (evs : list event) : quiet evs -> sandbox_jobs evs = [].
Proof.
  intros (H & _). induction evs as [|[] evs IH]; cbn in *; auto; discriminate.
Qed.

Lemma archives_sandbox_log (t : nat) (o : process_outcome) :
  archives (sandbox_log t o) = [].
Proof. destruct o; reflexivity. Qed.

(** What the packager raises, and what it answers with. *)
Lemma package_raises (stdout stderr : string) (code : Z) (work_dir : nat)
    (hdrs : option (list (string * string))) (fmt : string) (w : World) (e : exn) :
  fst (package env stdout stderr code work_dir hdrs fmt w) = Raise e ->
  match e with
  | GeometryError _ => True
  | HTTPException c d =>
      c = 500 /\ d = "Output file missing from container"
      /\ in_list fmt ["zip"; "both"] = false
  | ValueError _ => False
  | OtherException m =>
      in_list fmt ["zip"; "both"] = true /\ zip_error env work_dir = Some m
      /\ code = 0%Z
  end.
Proof.
  unfold package, write_zip, validate_mesh, mesh_checks, res_exists.
  unfold_monad.
  destruct (in_list fmt ["zip"; "both"]) eqn:Hfmt;
    destruct (code =? 0)%Z eqn:Hcode;
    try apply Z.eqb_eq in Hcode;
    case_split; intros [= <-]; auto.
Qed.

Lemma package_answers (stdout stderr : string) (code : Z) (work_dir : nat)
    (hdrs : option (list (string * string))) (fmt : string) (w : World)
    (resp : FileResponse) :
  fst (package env stdout stderr code work_dir hdrs fmt w) = Return resp ->
  resp_headers resp = match hdrs with Some h => h | None => [] end
  /\ code = 0%Z
  /\ if in_list fmt ["zip"; "both"]
     then resp_path resp = (work_dir, render_zip)
          /\ resp_filename resp = "render_" ++ uuid4 env work_dir ++ ".zip"
          /\ resp_media_type resp = "application/zip"
          /\ zip_error env work_dir = None
     else resp_path resp
          = (work_dir,
             if String.eqb fmt "step" && file_exists env (work_dir, output_step)
             then output_step else output_stl)
          /\ file_exists env (resp_path resp) = true
          /\ resp_filename resp = "render." ++ fmt
          /\ resp_media_type resp = "application/octet-stream".
Proof.
  unfold package, write_zip, validate_mesh, mesh_checks, res_exists.
  unfold_monad.
  destruct (in_list fmt ["zip"; "both"]) eqn:Hfmt;
    destruct (code =? 0)%Z eqn:Hcode;
    try apply Z.eqb_eq in Hcode;
    destruct (String.eqb fmt "step" && file_exists env (work_dir, output_step)) eqn:Hsel;
    case_split; intros [= <-]; cbn; repeat split; auto;
    try (apply negb_false_iff; assumption).
Qed.

(** The archive is written exactly when the packager answers with it. *)
Lemma package_archives (stdout stderr : string) (code : Z) (work_dir : nat)
    (hdrs : option (list (string * string))) (fmt : string) (w : World) :
  exists evs,
    trace (snd (package env stdout stderr code work_dir hdrs fmt w))
    = (trace w ++ evs)%list
    /\ archives evs
       = if is_return (fst (package env stdout stderr code work_dir hdrs fmt w))
            && in_list fmt ["zip"; "both"]
         then [(work_dir,
                ((if file_exists env (work_dir, output_step) then ["render.step"] else [])
                 ++ (if file_exists env (work_dir, output_stl) then ["render.stl"] else [])
                 ++ (if file_exists env (work_dir, gen_py) then ["model_gen.py"] else []))%list)]
         else [].
Proof.
  unfold package, write_zip, validate_mesh, mesh_checks, res_exists.
  unfold_monad.
  destruct (in_list fmt ["zip"; "both"]) eqn:Hfmt;
    destruct (file_exists env (work_dir, output_step)) eqn:Hstep;
    destruct (file_exists env (work_dir, gen_py)) eqn:Hpy;
    case_split;
    (cbn; eexists; split;
     [ repeat rewrite <- app_assoc; cbn [app]; try reflexivity;
       try (rewrite app_nil_r; reflexivity)
     | cbn; rewrite ?Hstep, ?Hpy; try reflexivity ]).
Qed.

End StepFacts.

Section StepFacts2.

Variable env : Env.

(** The validator only appends log lines. *)
Lemma validate_mesh_logs (p : path) (w : World) :
  exists logs,
    snd (validate_mesh env p w)
    = mkWorld (next_job w) (next_gen w) (trace w ++ logs)%list
    /\ archives logs = [] /\ cleanup_events logs = [].
Proof.
  unfold validate_mesh, mesh_checks. unfold_monad.
  case_split;
    first [ solve [exists []; rewrite app_nil_r; destruct w; cbn; auto]
          | solve [eexists; cbn; split; [reflexivity|]; cbn; auto] ].
Qed.

(** The packager after a run with exit code 0: the mesh is validated when
    there is one, and then the format decides. *)
Lemma package_exit_zero (stdout stderr : string) (work_dir : nat)
    (hdrs : option (list (string * string))) (fmt : string) (w : World) :
  let stl_out := (work_dir, output_stl) in
  let chosen :=
    (work_dir,
     if String.eqb fmt "step" && file_exists env (work_dir, output_step)
     then output_step else output_stl) in
  let h := match hdrs with Some h => h | None => [] end in
  fst (package env stdout stderr 0 work_dir hdrs fmt w)
  = match (if file_exists env stl_out
           then fst (validate_mesh env stl_out w) else Return tt) with
    | Raise e => Raise e
    | Return _ =>
        if in_list fmt ["zip"; "both"]
        then match zip_error env work_dir with
             | Some m => Raise (OtherException m)
             | None =>
                 Return (mkResponse (work_dir, render_zip)
                           ("render_" ++ uuid4 env work_dir ++ ".zip")
                           "application/zip" h)
             end
        else if file_exists env chosen
             then Return (mkResponse chosen ("render." ++ fmt)
                            "application/octet-stream" h)
             else Raise (HTTPException 500 "Output file missing from container")
    end.
Proof.
  intros stl_out chosen h. subst stl_out chosen h.
  unfold package, write_zip, res_exists. unfold_monad.
  cbn [Z.eqb negb fst snd].
  destruct (file_exists env (work_dir, output_stl)) eqn:Hstl.
  - destruct (validate_mesh env (work_dir, output_stl) w) as [[[]|e] w1];
      cbn [fst snd]; [|reflexivity].
    destruct (in_list fmt ["zip"; "both"]).
    + destruct (zip_error env work_dir); reflexivity.
    + cbn [fst snd].
      destruct (String.eqb fmt "step" && file_exists env (work_dir, output_step));
        cbn [snd];
        match goal with
        | |- context [negb (file_exists env ?p)] =>
            destruct (file_exists env p); reflexivity
        end.
  - destruct (in_list fmt ["zip"; "both"]).
    + destruct (zip_error env work_dir); reflexivity.
    + cbn [fst snd].
      destruct (String.eqb fmt "step" && file_exists env (work_dir, output_step));
        cbn [snd];
        match goal with
        | |- context [negb (file_exists env ?p)] =>
            destruct (file_exists env p); reflexivity
        end.
Qed.

(** The whole step after a run with exit code 0. *)
Lemma run_freecad_generation_exit_zero (script : string)
    (hdrs : option (list (string * string))) (fmt : string) (w : World)
    (stdout stderr : string) :
  docker_run env (next_job w) script = Completed stdout stderr 0%Z ->
  let j := next_job w in
  let chosen :=
    (j, if String.eqb fmt "step" && file_exists env (j, output_step)
        then output_step else output_stl) in
  let h := match hdrs with Some h => h | None => [] end in
  fst (_run_freecad_generation env script hdrs fmt w)
  = match (if file_exists env (j, output_stl)
           then fst (validate_mesh env (j, output_stl) w) else Return tt) with
    | Raise e => Raise e
    | Return _ =>
        if in_list fmt ["zip"; "both"]
        then match zip_error env j with
             | Some m => Raise (HTTPException 500 m)
             | None =>
                 Return (mkResponse (j, render_zip)
                           ("render_" ++ uuid4 env j ++ ".zip")
                           "application/zip" h)
             end
        else if file_exists env chosen
             then Return (mkResponse chosen ("render." ++ fmt)
                            "application/octet-stream" h)
             else Raise (HTTPException 500 "Output file missing from container")
    end.
Proof.
  intros Hrun j chosen h. subst j chosen h.
  rewrite run_freecad_generation_eq. cbv zeta. rewrite Hrun.
  cbn [setup_error sandbox_result sandbox_log executor_events fst snd].
  set (j := next_job w). set (w1 := mkWorld _ _ _).
  pose proof (package_exit_zero stdout stderr j hdrs fmt w1) as P. cbv zeta in P.
  rewrite (proj1 (validate_mesh_frame env (j, output_stl) w1 w)) in P.
  pose proof (validate_mesh_raise_inv env (j, output_stl) w) as Hinv.
  assert (Hgeo : forall e' w3,
             validate_mesh env (j, output_stl) w = (Raise e', w3) ->
             (if is_reported e' then e' else HTTPException 500 (exn_str e')) = e').
  { intros e' w3 V. destruct (Hinv w3 e' V) as (Hg & _).
    destruct e'; try discriminate Hg. reflexivity. }
  destruct (package env stdout stderr 0 j hdrs fmt w1) as [[resp|e] w2];
    cbn [fst] in P;
    (destruct (file_exists env (j, output_stl));
     [ destruct (validate_mesh env (j, output_stl) w) as [[[]|e'] w3] eqn:V;
       cbn [fst] in *;
       [|try discriminate P; injection P as ->; now rewrite (Hgeo e' w3 eq_refl)]
     | ]);
    (destruct (in_list fmt ["zip"; "both"]);
     [ destruct (zip_error env j)
     | destruct (file_exists env _) ]);
    try discriminate P; try (injection P as ->); reflexivity.
Qed.

End StepFacts2.

Section StepFacts3.

Variable env : Env.

Lemma archives_executor_events (t job : nat) (o : process_outcome) :
  archives (executor_events t job o) = [].
Proof. destruct o; reflexivity. Qed.

Lemma sandbox_jobs_executor_events (t job : nat) (o : process_outcome) :
  sandbox_jobs (executor_events t job o) = [].
Proof. destruct o; reflexivity. Qed.

Lemma made_dirs_app (a b : list event) :
  made_dirs (a ++ b) = (made_dirs a ++ made_dirs b)%list.
Proof.
  induction a as [|[] a IH]; cbn; rewrite ?IH; reflexivity.
Qed.

(** The archives one call of the step writes. *)
Lemma run_freecad_generation_archives (script : string)
    (hdrs : option (list (string * string))) (fmt : string) (w : World) :
  archives (trace (snd (_run_freecad_generation env script hdrs fmt w)))
  = (archives (trace w)
     ++ if is_return (fst (_run_freecad_generation env script hdrs fmt w))
           && in_list fmt ["zip"; "both"]
        then [(next_job w, archive_members env (next_job w))] else [])%list.
Proof.
  rewrite run_freecad_generation_eq. cbv zeta.
  set (j := next_job w). set (o := docker_run env j script).
  set (w1 := mkWorld _ _ _).
  destruct (setup_error o).
  { subst w1. cbn [fst snd is_return andb trace].
    rewrite archives_app. cbn [archives].
    rewrite archives_executor_events. reflexivity. }
  destruct (package_archives env (fst (fst (sandbox_result 30 o)))
              (snd (fst (sandbox_result 30 o))) (snd (sandbox_result 30 o))
              j hdrs fmt w1) as (evs & Htr & Harch).
  destruct (package env _ _ _ j hdrs fmt w1) as [[resp|e] w2];
    cbn [fst snd is_return andb record trace] in *.
  - rewrite Htr. subst w1. cbn [trace].
    rewrite !archives_app, Harch. cbn [archives].
    rewrite archives_executor_events, app_nil_r. reflexivity.
  - rewrite Htr. subst w1. cbn [trace].
    rewrite !archives_app, Harch. cbn [archives].
    rewrite archives_executor_events, !app_nil_r. reflexivity.
Qed.

(** What the step lets out when it raises. *)
Lemma step_raises (script : string) (hdrs : option (list (string * string)))
    (fmt : string) (w : World) (e : exn) :
  fst (_run_freecad_generation env script hdrs fmt w) = Raise e ->
  (exists msg, e = GeometryError msg)
  \/ (exists detail,
         e = HTTPException 500 detail
         /\ (detail = "Output file missing from container"
             \/ zip_error env (next_job w) = Some detail))
  \/ setup_error (docker_run env (next_job w) script) = Some e.
Proof.
  rewrite run_freecad_generation_eq. cbv zeta.
  set (j := next_job w). set (o := docker_run env j script).
  set (w1 := mkWorld _ _ _).
  destruct (setup_error o) as [e0|].
  { intros [= <-]. right. right. reflexivity. }
  pose proof (package_raises env (fst (fst (sandbox_result 30 o)))
                (snd (fst (sandbox_result 30 o))) (snd (sandbox_result 30 o))
                j hdrs fmt w1) as R.
  destruct (package env _ _ _ j hdrs fmt w1) as [[resp|e0] w2]; cbn [fst] in *;
    [discriminate|].
  intros [= <-]. specialize (R e0 eq_refl).
  destruct e0 as [msg|c d|m|m]; cbn [is_reported exn_str].
  - left. eauto.
  - destruct R as (-> & -> & _). right. left. eauto.
  - contradiction.
  - destruct R as (_ & Hz & _). right. left. eauto.
Qed.

(** The task handed over for a scratch directory calls [shutil.rmtree]
    on it, logs how that went, and returns. *)
Lemma cleanup_workdir_removes (work_dir : nat) (w : World) :
  cleanup_workdir env work_dir w
  = (Return tt,
     mkWorld (next_job w) (next_gen w)
       (trace w ++ [EvRmtree work_dir false;
                    EvLog (match rmtree_error env work_dir with
                           | Some e => LogCleanupFailed work_dir e
                           | None => LogCleaned work_dir
                           end)])%list).
Proof.
  unfold cleanup_workdir, shutil_rmtree. unfold_monad. cbn.
  destruct (rmtree_error env work_dir); cbn; rewrite <- app_assoc; reflexivity.
Qed.

(** Running the tasks of a trace calls [shutil.rmtree] once for every
    task handed over, in order, and on nothing else. *)
Lemma run_background_tasks_removes (added : list event) :
  forall w : World,
    fst (run_background_tasks env added w) = Return tt
    /\ exists logs,
         trace (snd (run_background_tasks env added w)) = (trace w ++ logs)%list
         /\ cleanup_events logs = task_removals added.
Proof.
  unfold task_removals.
  induction added as [|ev added IH]; intro w.
  - cbn. split; [reflexivity|]. exists []. rewrite app_nil_r. auto.
  - destruct ev; cbn [run_background_tasks flat_map app]; try apply IH.
    unfold bind. rewrite cleanup_workdir_removes.
    destruct (IH (mkWorld (next_job w) (next_gen w)
                    (trace w ++ [EvRmtree job false;
                                 EvLog (match rmtree_error env job with
                                        | Some e => LogCleanupFailed job e
                                        | None => LogCleaned job
                                        end)])%list))
      as (Hr & logs & Htr & Hc).
    split; [exact Hr|].
    eexists. rewrite Htr. cbn [trace]. rewrite <- app_assoc.
    split; [reflexivity|]. cbn. rewrite Hc. reflexivity.
Qed.

End StepFacts3.



(** X9: for the formats [zip] and [both], after a run with exit code 0
    and a mesh that passes validation (or no mesh file at all), the
    archive is the answer whatever files the run left behind: it is named
    [render_<directory name>.zip], typed [application/zip], and holds, in
    this order, [render.step], [render.stl] and [model_gen.py] for those of
    the three files that exist; when writing it raises, the answer is an
    HTTP error 500 with the text of the exception and no archive. *)
Theorem archive_is_the_answer :
  forall (env : Env) (fc_code : string) (hdrs : option (list (string * string)))
         (fmt : string) (w : World) (stdout stderr : string),
    in_list fmt ["zip"; "both"] = true ->
    docker_run env (next_job w) fc_code = Completed stdout stderr 0%Z ->
    (file_exists env (next_job w, output_stl) = true ->
     fst (validate_mesh env (next_job w, output_stl) w) = Return tt) ->
    let run := _run_freecad_generation env fc_code hdrs fmt w in
    match zip_error env (next_job w) with
    | None =>
        fst run
        = Return (mkResponse (next_job w, render_zip)
                    ("render_" ++ uuid4 env (next_job w) ++ ".zip")
                    "application/zip"
                    (match hdrs with Some h => h | None => [] end))
        /\ archives (trace (snd run))
           = (archives (trace w)
              ++ [(next_job w, archive_members env (next_job w))])%list
    | Some m =>
        fst run = Raise (HTTPException 500 m)
        /\ archives (trace (snd run)) = archives (trace w)
    end.
Proof.
  intros env script hdrs fmt w out err Hfmt Hrun Hval run.
  assert (Hfst := run_freecad_generation_exit_zero env script hdrs fmt w out err Hrun).
  cbv zeta in Hfst. rewrite Hfmt in Hfst.
  assert (Harch := run_freecad_generation_archives env script hdrs fmt w).
  rewrite Hfmt in Harch. fold run in Hfst, Harch.
  assert (Hok : (if file_exists env (next_job w, output_stl)
                 then fst (validate_mesh env (next_job w, output_stl) w)
                 else Return tt) = Return tt).
  { destruct (file_exists env (next_job w, output_stl)); auto. }
  rewrite Hok in Hfst.
  destruct (zip_error env (next_job w)); rewrite Hfst in Harch |- *;
    cbn [is_return andb] in Harch; rewrite Harch; rewrite ?app_nil_r; auto.
Qed.

Lemma archive_is_the_answer_witness :
  fst (_run_freecad_generation Samples.no_output_env Samples.cube_script None
         "zip" (fresh 4 0))
  = Return (mkResponse (4, render_zip) "render_job-4.zip" "application/zip" [])
  /\ archives (trace (snd (_run_freecad_generation Samples.no_output_env
                             Samples.cube_script None "zip" (fresh 4 0))))
     = [(4, ["model_gen.py"])].
Proof.
  exact (archive_is_the_answer Samples.no_output_env Samples.cube_script None "zip"
           (fresh 4 0) "ok" "" eq_refl eq_refl (fun H => eq_refl)).
Defined.

(** X10: a mesh the validator rejects blocks the delivery in every
    format: after a run with exit code 0 that left a mesh file on which
    the validator raises, the step raises the same exception whatever the
    format asked for, writes no archive, and removes the scratch directory
    at once. *)
Theorem rejected_mesh_blocks_every_format :
  forall (env : Env) (fc_code : string) (hdrs : option (list (string * string)))
         (fmt : string) (w w' : World) (stdout stderr : string) (e : exn),
    docker_run env (next_job w) fc_code = Completed stdout stderr 0%Z ->
    file_exists env (next_job w, output_stl) = true ->
    validate_mesh env (next_job w, output_stl) w = (Raise e, w') ->
    let run := _run_freecad_generation env fc_code hdrs fmt w in
    fst run = Raise e
    /\ is_geometry_error e = true
    /\ archives (trace (snd run)) = archives (trace w)
    /\ exists evs,
         trace (snd run) = (trace w ++ EvSandbox (next_job w) fc_code :: evs)%list
         /\ cleanup_events evs = [EvRmtree (next_job w) true].
Proof.
  intros env script hdrs fmt w w' out err e Hrun Hstl Hval run.
  assert (Hfst := run_freecad_generation_exit_zero env script hdrs fmt w out err Hrun).
  cbv zeta in Hfst. rewrite Hstl, Hval in Hfst. cbn [fst] in Hfst.
  fold run in Hfst.
  assert (Harch := run_freecad_generation_archives env script hdrs fmt w).
  fold run in Harch. rewrite Hfst in Harch. cbn [is_return andb] in Harch.
  rewrite app_nil_r in Harch.
  split; [exact Hfst|].
  split; [exact (proj1 (validate_mesh_raise_inv env _ w w' e Hval))|].
  split; [exact Harch|].
  destruct run as [r w2] eqn:E. subst run. cbn [fst snd] in *.
  destruct (run_freecad_generation_spec env script hdrs fmt w r w2 E)
    as (evs & Htr & _ & _ & _ & Hc & _).
  exists evs. rewrite Hfst, Hrun in Hc. auto.
Qed.

Lemma rejected_mesh_blocks_every_format_witness :
  fst (_run_freecad_generation Samples.flat_env Samples.cube_script None "step"
         (fresh 0 0))
  = Raise (GeometryError "Generated mesh has zero or negative volume.").
Proof.
  exact (proj1 (rejected_mesh_blocks_every_format Samples.flat_env
                  Samples.cube_script None "step" (fresh 0 0) (fresh 0 0) "ok" ""
                  (GeometryError "Generated mesh has zero or negative volume.")
                  eq_refl eq_refl eq_refl)).
Defined.

(** X11: a format that is neither [zip], [both] nor [step] is not
    refused: after a run with exit code 0 the mesh file alone decides.
    When it exists and passes validation it is delivered under the name
    [render.<format>], whatever the format is called; when it is missing
    the request fails with status 500 even if a geometry-exchange file
    exists.  And a [step] request whose run left the geometry-exchange
    file but no mesh file is served that file with no mesh validated. *)
Theorem single_file_formats :
  forall (env : Env) (fc_code : string) (hdrs : option (list (string * string)))
         (fmt : string) (w : World) (stdout stderr : string),
    in_list fmt ["zip"; "both"] = false ->
    docker_run env (next_job w) fc_code = Completed stdout stderr 0%Z ->
    let run := _run_freecad_generation env fc_code hdrs fmt w in
    let j := next_job w in
    let h := match hdrs with Some h => h | None => [] end in
    (String.eqb fmt "step" = false ->
     fst run
     = if file_exists env (j, output_stl)
       then match fst (validate_mesh env (j, output_stl) w) with
            | Return _ =>
                Return (mkResponse (j, output_stl) ("render." ++ fmt)
                          "application/octet-stream" h)
            | Raise e => Raise e
            end
       else Raise (HTTPException 500 "Output file missing from container"))
    /\ (fmt = "step" ->
        file_exists env (j, output_step) = true ->
        file_exists env (j, output_stl) = false ->
        fst run
        = Return (mkResponse (j, output_step) "render.step"
                    "application/octet-stream" h)).
Proof.
  intros env script hdrs fmt w out err Hfmt Hrun run j h.
  assert (Hfst := run_freecad_generation_exit_zero env script hdrs fmt w out err Hrun).
  cbv zeta in Hfst. rewrite Hfmt in Hfst. fold run j h in Hfst.
  split.
  - intro Hstep. rewrite Hstep in Hfst. cbn [andb] in Hfst. rewrite Hfst.
    destruct (file_exists env (j, output_stl)) eqn:Hstl; [|reflexivity].
    destruct (fst (validate_mesh env (j, output_stl) w)); reflexivity.
  - intros -> Hstep Hstl. rewrite Hstl, Hstep in Hfst. cbn in Hfst.
    fold j in Hstep. rewrite Hstep in Hfst. exact Hfst.
Qed.

Lemma single_file_formats_witness :
  fst (_run_freecad_generation Samples.stl_only_env Samples.cube_script None "obj"
         (fresh 0 0))
  = Return (mkResponse (0, output_stl) "render.obj" "application/octet-stream" []).
Proof.
  exact (proj1 (single_file_formats Samples.stl_only_env Samples.cube_script None
                  "obj" (fresh 0 0) "ok" "" eq_refl eq_refl) eq_refl).
Defined.

(** X12: [/render] never calls the code generation and never retries: an
    empty script is refused with status 400 before anything runs; any
    other script is handed to the sandbox exactly once, as it is (the
    pattern scan of the generated scripts is not applied), and a non-zero
    exit code reaches the caller as the geometry failure itself, with the
    error stream of the run in its text. *)
Theorem render_runs_the_script_once :
  forall (env : Env) (scad_code format : string) (w : World),
    let run := render_from_script env scad_code format w in
    generation_feedbacks (trace (snd run)) = generation_feedbacks (trace w)
    /\ (scad_code = "" ->
        run = (Raise (HTTPException 400 "scad_code is required"), w))
    /\ (scad_code <> "" ->
        sandbox_scripts (trace (snd run))
        = (sandbox_scripts (trace w) ++ [scad_code])%list
        /\ (snd (sandbox_result 30 (docker_run env (next_job w) scad_code)) <> 0%Z ->
            fst run
            = Raise (GeometryError
                       ("FreeCAD Error: "
                        ++ snd (fst (sandbox_result 30
                                       (docker_run env (next_job w) scad_code))))))).
Proof.
  intros env script fmt w run. subst run. unfold render_from_script.
  destruct script as [|c s].
  - cbn. split; [reflexivity|]. split; [reflexivity|]. intro H. contradiction.
  - destruct (_run_freecad_generation env (String c s) None fmt w) as [r w'] eqn:E.
    destruct (run_freecad_generation_spec env (String c s) None fmt w r w' E)
      as (evs & Htr & _ & _ & (Hs & Hf & _) & _ & _ & Hnz).
    cbn [fst snd]. rewrite Htr.
    rewrite generation_feedbacks_app, sandbox_scripts_app.
    cbn [generation_feedbacks sandbox_scripts]. rewrite Hs, Hf, app_nil_r.
    split; [reflexivity|]. split; [discriminate|]. auto.
Qed.

Lemma render_runs_the_script_once_witness :
  sandbox_scripts
    (trace (snd (render_from_script Samples.stuck_rmtree_env
                   "import subprocess" "stl" (fresh 0 0))))
  = ([] ++ ["import subprocess"])%list
  /\ (snd (sandbox_result 30
             (docker_run Samples.stuck_rmtree_env 0 "import subprocess")) <> 0%Z ->
      fst (render_from_script Samples.stuck_rmtree_env "import subprocess" "stl"
             (fresh 0 0))
      = Raise (GeometryError "FreeCAD Error: boom")).
Proof.
  apply (proj2 (proj2 (render_runs_the_script_once Samples.stuck_rmtree_env
                         "import subprocess" "stl" (fresh 0 0)))).
  discriminate.
Defined.

(* ================================================================== *)
(** * Further properties: one request to [/generate] *)
(* ================================================================== *)

Section RequestFacts.

Variable env : Env.
Variables (format : string) (previous_code constraints : option string).
Hypothesis Hparse : constraints_error env constraints = None.

Lemma postprocess_blocked_in (reply p : string) :
  postprocess reply = inl p -> In p dangerous.
Proof.
  unfold postprocess, blocked_pattern.
  destruct (find _ dangerous) as [q|] eqn:F; [|discriminate].
  intros [= <-]. apply find_some in F. tauto.
Qed.

Lemma setup_error_foreign (o : process_outcome) (e : exn) :
  setup_error o = Some e -> is_reported e = false.
Proof.
  destruct o as [| | |m|[m|m]]; try discriminate; intros [= <-]; reflexivity.
Qed.

Lemma setup_error_written (o : process_outcome) (e : exn) :
  setup_error o = Some e -> dir_made o = true ->
  exists e', o = WriteFailed e' /\ e = lib_raise e'.
Proof.
  destruct o as [| | |m|e']; try discriminate.
  intros [= <-] _. eauto.
Qed.

Lemma made_dirs_executor_events (t job : nat) (o : process_outcome) :
  made_dirs (executor_events t job o) = if dir_made o then [job] else [].
Proof. destruct o; reflexivity. Qed.

(** The packager makes no directory. *)
Lemma package_makes_no_dir (stdout stderr : string) (code : Z) (work_dir : nat)
    (hdrs : option (list (string * string))) (fmt : string) (w : World) :
  made_dirs (trace (snd (package env stdout stderr code work_dir hdrs fmt w)))
  = made_dirs (trace w).
Proof.
  unfold package, write_zip, validate_mesh, mesh_checks, res_exists.
  unfold_monad.
  case_split; cbn; rewrite ?made_dirs_app; cbn; rewrite ?app_nil_r; reflexivity.
Qed.

(** The directory one call of the step makes. *)
Lemma run_freecad_generation_dirs (script : string)
    (hdrs : option (list (string * string))) (fmt : string) (w : World) :
  made_dirs (trace (snd (_run_freecad_generation env script hdrs fmt w)))
  = (made_dirs (trace w)
     ++ if dir_made (docker_run env (next_job w) script)
        then [next_job w] else [])%list.
Proof.
  rewrite run_freecad_generation_eq. cbv zeta.
  set (j := next_job w). set (o := docker_run env j script).
  set (w1 := mkWorld _ _ _).
  assert (H1 : made_dirs (trace w1)
               = (made_dirs (trace w) ++ if dir_made o then [j] else [])%list).
  { subst w1. cbn [trace]. rewrite made_dirs_app. cbn [made_dirs].
    rewrite made_dirs_executor_events. reflexivity. }
  destruct (setup_error o); [exact H1|].
  pose proof (package_makes_no_dir (fst (fst (sandbox_result 30 o)))
                (snd (fst (sandbox_result 30 o))) (snd (sandbox_result 30 o))
                j hdrs fmt w1) as P.
  destruct (package env _ _ _ j hdrs fmt w1) as [[resp|e] w2];
    cbn [fst snd record trace] in *.
  - rewrite P. exact H1.
  - rewrite made_dirs_app, P, H1. cbn. rewrite app_nil_r. reflexivity.
Qed.

(** What one iteration lets out when it raises. *)
Lemma attempt_body_raises (attempt : nat) (feedback_msg : option string)
    (w w1 : World) (e : exn) :
  attempt_body env format previous_code constraints attempt feedback_msg w = (Raise e, w1) ->
  (exists msg, e = GeometryError msg)
  \/ (exists d, e = HTTPException 500 d)
  \/ (exists p, In p dangerous /\ e = blocked_error p)
  \/ (exists m, e = OtherException m /\ generation_failure env m)
  \/ setup_failure env e.
Proof.
  rewrite attempt_body_eq. cbv zeta. rewrite Hparse.
  set (fb := chosen_feedback previous_code attempt feedback_msg).
  set (w0 := mkWorld _ _ _).
  destruct (generate_content env (next_gen w) fb) as [m|text ue] eqn:G.
  - intros [= <- _]. right. right. right. left. exists m. split; [reflexivity|].
    exists (next_gen w), fb. left. exact G.
  - destruct (postprocess text) as [p|code] eqn:P.
    + intros [= <- _]. right. right. left. exists p. split; [|reflexivity].
      eapply postprocess_blocked_in; eauto.
    + destruct ue as [m|].
      * intros [= <- _]. right. right. right. left. exists m. split; [reflexivity|].
        exists (next_gen w), fb. right. eexists. exact G.
      * intro E.
        pose proof (step_raises env code (Some (retry_headers attempt)) format w0 e) as H.
        rewrite E in H. specialize (H eq_refl).
        destruct H as [H|[(d & -> & _)|H]]; [left; exact H|right; left; eauto|].
        right. right. right. right. exists (next_job w0), code. exact H.
Qed.

(** An iteration never raises an HTTP error of its own with a status
    other than 500. *)
Lemma attempt_body_http (attempt : nat) (feedback_msg : option string)
    (w w1 : World) (c : nat) (d : string) :
  attempt_body env format previous_code constraints attempt feedback_msg w
  = (Raise (HTTPException c d), w1) ->
  c = 500.
Proof.
  intro B. apply attempt_body_raises in B.
  destruct B as [(msg & [=])|[(d' & [= -> _])|[(p & _ & [=])|[(m & [=] & _)|(j & code & H)]]]].
  - reflexivity.
  - apply setup_error_foreign in H. discriminate H.
Qed.

(** What one iteration answers with, and where it ran. *)
Lemma attempt_body_answers (attempt : nat) (feedback_msg : option string)
    (w w1 : World) (resp : FileResponse) :
  attempt_body env format previous_code constraints attempt feedback_msg w = (Return resp, w1) ->
  resp_headers resp = retry_headers attempt
  /\ fst (resp_path resp) = next_job w.
Proof.
  rewrite attempt_body_eq. cbv zeta. rewrite Hparse.
  set (fb := chosen_feedback previous_code attempt feedback_msg).
  set (w0 := mkWorld _ _ _).
  destruct (generate_content env (next_gen w) fb) as [m|text [m|]];
    try discriminate; destruct (postprocess text) as [p|code]; try discriminate.
  rewrite run_freecad_generation_eq. cbv zeta.
  set (o := docker_run env (next_job w0) code).
  set (w2 := mkWorld _ _ _).
  destruct (setup_error o); [discriminate|].
  pose proof (package_answers env (fst (fst (sandbox_result 30 o)))
                (snd (fst (sandbox_result 30 o))) (snd (sandbox_result 30 o))
                (next_job w0) (Some (retry_headers attempt)) format w2) as A.
  destruct (package env _ _ _ (next_job w0) _ format w2) as [[a|e] w3];
    cbn [fst] in A; [|discriminate].
  intros [= <- _]. destruct (A a eq_refl) as (Hh & _ & Hp).
  split; [exact Hh|].
  destruct (in_list format ["zip"; "both"]).
  - destruct Hp as (-> & _). reflexivity.
  - destruct Hp as (-> & _). reflexivity.
Qed.

(** The scratch directory of one iteration, and what is arranged for it:
    the iteration ends before it calls the executor; or it calls it, and
    then either the executor raises, with nothing arranged, or exactly one
    arrangement is made. *)
Lemma attempt_body_jobs (attempt : nat) (feedback_msg : option string)
    (w w1 : World) (r : result FileResponse) :
  attempt_body env format previous_code constraints attempt feedback_msg w = (r, w1) ->
  exists evs,
    trace w1 = (trace w ++ evs)%list
    /\ ((sandbox_jobs evs = [] /\ made_dirs evs = [] /\ cleanup_events evs = []
         /\ next_job w1 = next_job w
         /\ is_return r = false
         /\ forall msg, r <> Raise (GeometryError msg))
        \/ (exists code,
               sandbox_jobs evs = [next_job w]
               /\ next_job w1 = S (next_job w)
               /\ made_dirs evs
                  = (if dir_made (docker_run env (next_job w) code)
                     then [next_job w] else [])
               /\ match setup_error (docker_run env (next_job w) code) with
                  | Some e => r = Raise e /\ cleanup_events evs = []
                  | None =>
                      cleanup_events evs
                      = [if is_return r then EvAddTask (next_job w)
                         else EvRmtree (next_job w) true]
                  end)).
Proof.
  rewrite attempt_body_eq. cbv zeta. rewrite Hparse.
  set (fb := chosen_feedback previous_code attempt feedback_msg).
  destruct (attempt_pre_quiet env constraints attempt feedback_msg)
    as (_ & _ & _ & Hc1 & Hj1 & _ & Hm1).
  set (pre := (attempt_pre env constraints attempt feedback_msg ++ [EvGenerate fb])%list).
  assert (Hj0 : sandbox_jobs pre = []).
  { subst pre. rewrite sandbox_jobs_app, Hj1. reflexivity. }
  assert (Hc0 : cleanup_events pre = []).
  { subst pre. rewrite cleanup_events_app, Hc1. reflexivity. }
  assert (Hm0 : made_dirs pre = []).
  { subst pre. rewrite made_dirs_app, Hm1. reflexivity. }
  assert (Hquiet : forall e,
             (forall msg, e <> GeometryError msg) ->
             (Raise e, mkWorld (next_job w) (S (next_gen w)) (trace w ++ pre)%list)
             = (r, w1) ->
             exists evs,
               trace w1 = (trace w ++ evs)%list
               /\ sandbox_jobs evs = [] /\ made_dirs evs = [] /\ cleanup_events evs = []
               /\ next_job w1 = next_job w
               /\ is_return r = false
               /\ forall msg, r <> Raise (GeometryError msg)).
  { intros e He [= <- <-]. exists pre. split; [reflexivity|].
    repeat split; auto. intros msg [= ->]. exact (He msg eq_refl). }
  destruct (generate_content env (next_gen w) fb) as [m|text ue].
  - intro E.
    destruct (Hquiet (OtherException m) ltac:(discriminate) E) as (evs & Htr & H).
    eauto.
  - destruct (postprocess text) as [p|code].
    + intro E.
      destruct (Hquiet (blocked_error p) ltac:(discriminate) E) as (evs & Htr & H).
      eauto.
    + destruct ue as [m|].
      { intro E.
        destruct (Hquiet (OtherException m) ltac:(discriminate) E) as (evs & Htr & H).
        eauto. }
      intro E.
      pose proof (run_freecad_generation_dirs code (Some (retry_headers attempt))
                    format (mkWorld (next_job w) (S (next_gen w)) (trace w ++ pre)%list))
        as D.
      rewrite E in D. cbn [snd next_job trace] in D.
      pose proof E as E'. apply run_freecad_generation_spec in E'.
      cbn [next_job next_gen trace] in E'.
      destruct E' as (evs & Htr & Hj & _ & Hq & Hc & Hrep & _).
      exists (pre ++ EvSandbox (next_job w) code :: evs)%list.
      split; [rewrite Htr, <- app_assoc; reflexivity|]. right. exists code.
      rewrite sandbox_jobs_app, cleanup_events_app, Hj0, Hc0.
      cbn [sandbox_jobs cleanup_events app].
      rewrite (quiet_no_jobs evs Hq), Hc.
      split; [reflexivity|]. split; [exact Hj|]. split.
      * rewrite Htr, <- app_assoc in D. rewrite !made_dirs_app in D.
        rewrite <- app_assoc in D. apply app_inv_head in D.
        rewrite made_dirs_app. rewrite Hm0 in D |- *. exact D.
      * destruct (setup_error (docker_run env (next_job w) code)) as [e0|] eqn:Hsetup;
          [|reflexivity].
        split; [|reflexivity].
        rewrite (run_freecad_generation_setup env code (Some (retry_headers attempt))
                   format
                   (mkWorld (next_job w) (S (next_gen w)) (trace w ++ pre)%list)
                   e0 Hsetup) in E.
        now injection E as <- _.
Qed.


(** The counts of one run of the loop. *)
Lemma loop_run_budget (attempts : list nat)
    (last_error feedback_msg : option string) (w w' : World)
    (r : result FileResponse) :
  loop_run env format previous_code constraints attempts last_error feedback_msg w r w' ->
  exists evs,
    trace w' = (trace w ++ evs)%list
    /\ length (generation_feedbacks evs) <= length attempts
    /\ length (sandbox_scripts evs) <= length (generation_feedbacks evs)
    /\ length (caught_errors evs) <= length (sandbox_scripts evs)
    /\ length (sandbox_scripts evs) <= S (length (caught_errors evs))
    /\ (is_return r = true ->
        length (sandbox_scripts evs) = S (length (caught_errors evs)))
    /\ next_gen w' = next_gen w + length (generation_feedbacks evs)
    /\ next_job w' = next_job w + length (sandbox_scripts evs).
Proof.
  induction 1 as [le fm w|a rest le fm w w1 r B Hng|a rest le fm w w1 w' msg r B _ _ IH
                  |a rest le fm w w1 msg B _].
  - exists []. rewrite app_nil_r. cbn. repeat split; auto; discriminate.
  - apply attempt_body_spec in B; [|exact Hparse].
    destruct B as (evs & dj & Htr & Hg & Hj & Hfb & Herr & Hpost).
    apply attempt_post_runs in Hpost. destruct Hpost as (Hlen & Hle & Hret & _).
    exists evs. rewrite Hfb, Herr, Hlen. cbn [length].
    repeat split; auto; lia.
  - apply attempt_body_spec in B; [|exact Hparse].
    destruct B as (evs & dj & Htr & Hg & Hj & Hfb & Herr & Hpost).
    apply attempt_post_runs in Hpost. destruct Hpost as (Hlen & Hle & _ & Hgeo).
    specialize (Hgeo msg eq_refl). subst dj.
    destruct IH as (evs2 & Htr2 & H1 & H2 & H3 & H3' & H4 & H5 & H6).
    cbn [record next_gen next_job] in H5, H6.
    exists (evs ++ EvLog (LogAttemptFailed a msg) :: evs2)%list.
    split.
    { rewrite Htr2. cbn [record trace]. rewrite Htr, <- !app_assoc. reflexivity. }
    rewrite generation_feedbacks_app, sandbox_scripts_app, caught_errors_app.
    cbn [generation_feedbacks sandbox_scripts caught_errors].
    rewrite !length_app, Hfb, Herr, Hgeo. cbn [length].
    repeat split; try lia; intro Hr; specialize (H4 Hr); lia.
  - apply attempt_body_spec in B; [|exact Hparse].
    destruct B as (evs & dj & Htr & Hg & Hj & Hfb & Herr & Hpost).
    apply attempt_post_runs in Hpost. destruct Hpost as (Hlen & Hle & _ & Hgeo).
    specialize (Hgeo msg eq_refl). subst dj.
    exists (evs ++ [EvLog (LogAttemptFailed a msg)])%list.
    split.
    { cbn [record trace]. rewrite Htr, <- !app_assoc. reflexivity. }
    rewrite generation_feedbacks_app, sandbox_scripts_app, caught_errors_app.
    cbn [generation_feedbacks sandbox_scripts caught_errors record next_gen next_job].
    rewrite !length_app, Hfb, Herr, Hgeo. cbn [length].
    repeat split; try lia; discriminate.
Qed.

(** The failures the loop over the attempts [k], ..., [2] catches, and
    when it gives up. *)
Lemma loop_run_exhaustion (attempts : list nat)
    (last_error feedback_msg : option string) (w w' : World)
    (r : result FileResponse) :
  loop_run env format previous_code constraints attempts last_error feedback_msg w r w' ->
  forall k, k < 3 -> attempts = seq k (3 - k) ->
  exists evs,
    trace w' = (trace w ++ evs)%list
    /\ map fst (caught_errors evs) = seq k (length (caught_errors evs))
    /\ k + length (caught_errors evs) <= 3
    /\ (k + length (caught_errors evs) = 3 ->
        exists m, r = Raise (exhausted m)
                  /\ nth_error (caught_errors evs) (2 - k) = Some (2, m))
    /\ (forall m, r = Raise (exhausted m) -> k + length (caught_errors evs) = 3)
    /\ (forall resp, r = Return resp ->
        resp_headers resp = retry_headers (k + length (caught_errors evs))
        /\ fst (resp_path resp) = next_job w + length (caught_errors evs)).
Proof.
  induction 1 as [le fm w|a rest le fm w w1 r B Hng|a rest le fm w w1 w' msg r B Ha _ IH
                  |a rest le fm w w1 msg B Ha]; intros k Hk Hseq.
  - exfalso. destruct k as [|[|[|k]]]; cbn in Hseq; try discriminate; lia.
  - assert (a = k) as ->.
    { destruct k as [|[|[|k]]]; cbn in Hseq; try lia; now injection Hseq. }
    pose proof B as B'. apply attempt_body_spec in B'; [|exact Hparse].
    destruct B' as (evs & dj & Htr & _ & _ & _ & Herr & _).
    exists evs. rewrite Herr. cbn [length map seq].
    split; [assumption|]. split; [reflexivity|]. split; [lia|].
    split; [intro; lia|]. split.
    + intros m ->. apply attempt_body_http in B. discriminate B.
    + intros resp ->. rewrite !Nat.add_0_r.
      exact (attempt_body_answers _ _ _ _ _ B).
  - assert (a = k /\ rest = seq (S k) (3 - S k)) as (-> & Hrest).
    { destruct k as [|[|[|k]]]; cbn in Hseq; try lia; injection Hseq; auto. }
    pose proof B as B'. apply attempt_body_spec in B'; [|exact Hparse].
    destruct B' as (evs & dj & Htr & _ & Hj & _ & Herr & Hpost).
    apply attempt_post_runs in Hpost. destruct Hpost as (_ & _ & _ & Hgeo).
    specialize (Hgeo msg eq_refl). subst dj.
    destruct (IH (S k) ltac:(lia) Hrest) as (evs2 & Htr2 & Hs & Hle & Hex & Hex' & Hresp).
    cbn [record next_job] in Hresp.
    exists (evs ++ EvLog (LogAttemptFailed k msg) :: evs2)%list.
    split.
    { rewrite Htr2. cbn [record trace]. rewrite Htr, <- !app_assoc. reflexivity. }
    rewrite caught_errors_app, Herr. cbn [caught_errors app length map seq fst].
    rewrite Hs.
    split; [reflexivity|]. split; [lia|]. split; [|split].
    + intro Hlen. destruct Hex as (m & Hr & Hn); [lia|].
      exists m. split; [exact Hr|].
      replace (2 - k) with (S (2 - S k)) by lia. exact Hn.
    + intros m Hr. specialize (Hex' m Hr). lia.
    + intros resp Hr. destruct (Hresp resp Hr) as (Hh & Hp).
      rewrite Hh, Hp, Hj. split; [f_equal; lia|lia].
  - assert (a = 2 /\ k = 2) as (-> & ->).
    { destruct k as [|[|[|k]]]; cbn in Hseq; try lia; injection Hseq; lia. }
    apply attempt_body_spec in B; [|exact Hparse].
    destruct B as (evs & dj & Htr & _ & _ & _ & Herr & _).
    exists (evs ++ [EvLog (LogAttemptFailed 2 msg)])%list.
    split.
    { cbn [record trace]. rewrite Htr, <- !app_assoc. reflexivity. }
    rewrite caught_errors_app, Herr. cbn.
    split; [reflexivity|]. split; [lia|]. split; [eauto|].
    split; [reflexivity|]. discriminate.
Qed.

(** The scratch directories of one run of the loop: the directory of
    every run that failed is removed at once, the background removal is
    handed over for the directory of the file returned, and the only
    directory made with nothing arranged for it is one whose script could
    not be written, which ends the loop. *)
Lemma loop_run_cleanup (attempts : list nat)
    (last_error feedback_msg : option string) (w w' : World)
    (r : result FileResponse) :
  loop_run env format previous_code constraints attempts last_error feedback_msg w r w' ->
  exists evs n left,
    trace w' = (trace w ++ evs)%list
    /\ n <= length attempts
    /\ cleanup_events evs
       = (removals (next_job w) n
          ++ if is_return r then [EvAddTask (next_job w + n)] else [])%list
    /\ made_dirs evs
       = (seq (next_job w) n
          ++ (if is_return r then [next_job w + n] else []) ++ left)%list
    /\ (left = []
        \/ (left = [next_job w + n]
            /\ is_return r = false
            /\ exists code e,
                 docker_run env (next_job w + n) code = WriteFailed e
                 /\ r = Raise (lib_raise e))).
Proof.
  induction 1 as [le fm w|a rest le fm w w1 r B Hng|a rest le fm w w1 w' msg r B _ _ IH
                  |a rest le fm w w1 msg B _].
  - exists [], 0, []. rewrite app_nil_r. cbn. auto 10.
  - apply attempt_body_jobs in B.
    destruct B as (evs & Htr & [(Hj & Hm & Hc & Hn & Hr & _)|(code & Hj & Hn & Hm & Hs)]).
    + exists evs, 0, []. rewrite Hm, Hc, Hr. cbn. repeat split; auto; lia.
    + destruct (setup_error (docker_run env (next_job w) code)) as [e|] eqn:Hsetup.
      * destruct Hs as (-> & Hc).
        destruct (dir_made (docker_run env (next_job w) code)) eqn:D.
        -- destruct (setup_error_written _ _ Hsetup D) as (e' & Ho & ->).
           exists evs, 0, [next_job w]. rewrite Hm, Hc. cbn [is_return].
           rewrite Nat.add_0_r. cbn.
           split; [assumption|]. split; [lia|]. split; [reflexivity|].
           split; [reflexivity|]. right. eauto 6.
        -- exists evs, 0, []. rewrite Hm, Hc. cbn. repeat split; auto; lia.
      * assert (D : dir_made (docker_run env (next_job w) code) = true).
        { destruct (docker_run env (next_job w) code); try reflexivity; discriminate Hsetup. }
        rewrite D in Hm.
        destruct (is_return r).
        -- exists evs, 0, []. rewrite Hm, Hs. cbn. rewrite Nat.add_0_r.
           repeat split; auto; lia.
        -- exists evs, 1, []. rewrite Hm, Hs. cbn. repeat split; auto; lia.
  - apply attempt_body_jobs in B.
    destruct B as (evs & Htr & [(_ & _ & _ & _ & _ & Hng)|(code & Hj & Hn & Hm & Hs)]).
    { exfalso. exact (Hng msg eq_refl). }
    destruct (setup_error (docker_run env (next_job w) code)) as [e|] eqn:Hsetup.
    { destruct Hs as (Hr & _). injection Hr as <-.
      apply setup_error_foreign in Hsetup. discriminate Hsetup. }
    assert (D : dir_made (docker_run env (next_job w) code) = true).
    { destruct (docker_run env (next_job w) code); try reflexivity; discriminate Hsetup. }
    rewrite D in Hm. cbn [is_return] in Hs.
    destruct IH as (evs2 & n & left & Htr2 & Hle & Hc2 & Hm2 & Hleft).
    cbn [record next_job] in Hc2, Hm2, Hleft. rewrite Hn in Hc2, Hm2, Hleft.
    exists (evs ++ EvLog (LogAttemptFailed a msg) :: evs2)%list, (S n), left.
    split.
    { rewrite Htr2. cbn [record trace]. rewrite Htr, <- !app_assoc. reflexivity. }
    rewrite made_dirs_app, cleanup_events_app, Hm, Hs.
    cbn [made_dirs cleanup_events app length].
    rewrite Hc2, Hm2. unfold removals. cbn [seq map].
    replace (next_job w + S n) with (S (next_job w) + n) by lia.
    split; [lia|]. split; [reflexivity|]. split; [reflexivity|]. exact Hleft.
  - apply attempt_body_jobs in B.
    destruct B as (evs & Htr & [(_ & _ & _ & _ & _ & Hng)|(code & Hj & Hn & Hm & Hs)]).
    { exfalso. exact (Hng msg eq_refl). }
    destruct (setup_error (docker_run env (next_job w) code)) as [e|] eqn:Hsetup.
    { destruct Hs as (Hr & _). injection Hr as <-.
      apply setup_error_foreign in Hsetup. discriminate Hsetup. }
    assert (D : dir_made (docker_run env (next_job w) code) = true).
    { destruct (docker_run env (next_job w) code); try reflexivity; discriminate Hsetup. }
    rewrite D in Hm. cbn [is_return] in Hs.
    exists (evs ++ [EvLog (LogAttemptFailed a msg)])%list, 1, [].
    split.
    { cbn [record trace]. rewrite Htr, <- !app_assoc. reflexivity. }
    rewrite made_dirs_app, cleanup_events_app, Hm, Hs.
    cbn. repeat split; auto; lia.
Qed.

End RequestFacts.

Section StripFacts.

Lemma lstrip_keeps (p : string) :
  p <> "" -> no_lead_space p = true ->
  forall u v, exists u', lstrip (u ++ p ++ v) = u' ++ p ++ v.
Proof.
  intros Hne Hlead. induction u as [|x u IH]; intro v.
  - exists "". cbn [append]. apply lstrip_fixed.
    destruct p as [|c p]; [contradiction|exact Hlead].
  - cbn [append lstrip]. destruct (isspace x).
    + apply IH.
    + exists (String x u). reflexivity.
Qed.

Lemma rstrip_app_nonempty (a b : string) :
  rstrip b <> "" -> rstrip (a ++ b) = a ++ rstrip b.
Proof.
  intro Hne. induction a as [|x a IH]; [reflexivity|].
  cbn [append rstrip]. rewrite IH.
  destruct (a ++ rstrip b) as [|d r] eqn:E; [|reflexivity].
  destruct a; [contradiction|discriminate].
Qed.

Lemma rstrip_keeps (p : string) :
  p <> "" -> rstrip p = p ->
  forall v, exists v', rstrip (p ++ v) = p ++ v'.
Proof.
  induction p as [|c p IH]; [contradiction|]. intros _ Hfix v.
  destruct (string_dec p "") as [->|Hp].
  - cbn in Hfix. destruct (isspace c) eqn:Hc; [discriminate|].
    cbn [append rstrip]. rewrite Hc. destruct (rstrip v) as [|e r].
    + exists "". reflexivity.
    + exists (String e r). reflexivity.
  - assert (Hp' : rstrip p = p).
    { cbn [rstrip] in Hfix. destruct (rstrip p) as [|e r].
      - destruct (isspace c); [discriminate|].
        injection Hfix as <-. contradiction.
      - now injection Hfix. }
    destruct (IH Hp Hp' v) as [v' Hv].
    cbn [append rstrip]. rewrite Hv.
    destruct p as [|d p]; [contradiction|]. exists v'. reflexivity.
Qed.

(** A pattern that neither starts nor ends with white space survives
    [strip]. *)
Lemma contains_strip_keeps (p s : string) :
  p <> "" -> no_lead_space p = true -> rstrip p = p ->
  contains p s = true -> contains p (strip s) = true.
Proof.
  intros Hne Hlead Hfix H. apply contains_iff in H. destruct H as (u & v & ->).
  unfold strip. destruct (lstrip_keeps p Hne Hlead u v) as [u' ->].
  destruct (rstrip_keeps p Hne Hfix v) as [v' Hv].
  rewrite rstrip_app_nonempty.
  - rewrite Hv. apply contains_iff. eauto.
  - rewrite Hv. destruct p; [contradiction|discriminate].
Qed.

End StripFacts.

Section EndpointFacts.

Variable env : Env.

Lemma sandbox_jobs_length (tr : list event) :
  length (sandbox_jobs tr) = length (sandbox_scripts tr).
Proof.
  induction tr as [|[] tr IH]; cbn; auto.
Qed.

Lemma task_removals_app (a b : list event) :
  task_removals (a ++ b) = (task_removals a ++ task_removals b)%list.
Proof. unfold task_removals. apply flat_map_app. Qed.

(** The tasks to run depend only on what was handed over. *)
Lemma task_removals_cleanup (tr : list event) :
  task_removals tr = task_removals (cleanup_events tr).
Proof.
  unfold task_removals.
  induction tr as [|[] tr IH]; cbn; rewrite ?IH; reflexivity.
Qed.

Lemma task_removals_removals (job n : nat) : task_removals (removals job n) = [].
Proof.
  unfold task_removals, removals. revert job.
  induction n as [|n IH]; intro job; cbn; auto.
Qed.

(** [/generate] either stops before the loop or in its first iteration,
    with nothing generated, run or made; or it runs the loop over the
    attempts 0, 1 and 2 with constraints that the parser takes. *)
Lemma generate_from_text_run (prompt format : string)
    (previous_code constraints gemini_api_key : option string) (w w' : World)
    (r : result FileResponse) :
  generate_from_text env prompt format previous_code constraints gemini_api_key w
  = (r, w') ->
  (exists e logs,
      r = Raise e
      /\ w' = mkWorld (next_job w) (next_gen w) (trace w ++ logs)%list
      /\ sandbox_scripts logs = [] /\ generation_feedbacks logs = []
      /\ caught_errors logs = [] /\ cleanup_events logs = []
      /\ made_dirs logs = []
      /\ ((truthy gemini_api_key = false
           /\ e = HTTPException 400 "gemini_api_key is required in request body")
          \/ (truthy gemini_api_key = true
              /\ exists m, pipeline_init_error env = Some m
                 /\ e = HTTPException 400
                         ("Invalid API key or pipeline initialization failed: "
                          ++ m))
          \/ (truthy gemini_api_key = true
              /\ pipeline_init_error env = None
              /\ constraints_error env constraints = Some e)))
  \/ (truthy gemini_api_key = true
      /\ pipeline_init_error env = None
      /\ constraints_error env constraints = None
      /\ loop_run env format previous_code constraints [0; 1; 2] None None w r w').
Proof.
  unfold generate_from_text.
  destruct (truthy gemini_api_key); cbn [negb].
  - destruct (pipeline_init_error env) as [m|].
    + unfold_monad. intros [= <- <-]. left.
      exists (HTTPException 400
                ("Invalid API key or pipeline initialization failed: " ++ m)),
        [EvLog (LogPipelineInit m)].
      split; [reflexivity|]. split; [reflexivity|]. cbn.
      repeat (split; [reflexivity|]). right. left. eauto.
    + intro E. cbn [seq] in E.
      destruct (constraints_error env constraints) as [e|] eqn:C.
      * left. rewrite (retry_loop_constraints _ _ _ _ _ _ _ _ _ e C) in E.
        injection E as <- <-.
        destruct (attempt_pre_quiet env constraints 0 None)
          as (H1 & H2 & H3 & H4 & _ & _ & H7).
        exists e, (attempt_pre env constraints 0 None).
        repeat (split; [assumption || reflexivity|]). right. right. auto.
      * right. apply retry_loop_run in E. auto.
  - unfold raise. intros [= <- <-]. left.
    exists (HTTPException 400 "gemini_api_key is required in request body"), [].
    split; [reflexivity|]. split; [rewrite app_nil_r; now destruct w|]. cbn.
    repeat (split; [reflexivity|]). left. auto.
Qed.

End EndpointFacts.



(** X14: the geometry failures a request catches are those of the
    attempts 0, 1, 2 in this order, at most three; the request ends with
    [Generation failed after 3 attempts: <message>] exactly when it has
    caught three, and the message quoted is that of the third failure, the
    one caught on attempt 2. *)
Theorem exhaustion_reports_the_third_failure :
  forall (env : Env) (prompt format : string)
         (previous_code constraints gemini_api_key : option string) (job gen : nat),
    let run := generate_from_text env prompt format previous_code constraints
                 gemini_api_key (fresh job gen) in
    let caught := caught_errors (trace (snd run)) in
    map fst caught = seq 0 (length caught)
    /\ length caught <= 3
    /\ (length caught = 3 ->
        exists m, fst run = Raise (exhausted m)
                  /\ nth_error caught 2 = Some (2, m))
    /\ (forall m, fst run = Raise (exhausted m) -> length caught = 3).
Proof.
  intros env prompt format pc cs key job gen run caught. subst caught.
  destruct run as [r w'] eqn:E. subst run. cbn [fst snd].
  apply generate_from_text_run in E.
  destruct E as [(e & logs & -> & -> & _ & _ & Hc & _ & _ & Hwhy)|(_ & _ & C & L)].
  - cbn [trace fresh app]. rewrite Hc. cbn.
    split; [reflexivity|]. split; [lia|]. split; [discriminate|].
    intros m [= Hm]. exfalso.
    destruct Hwhy as [(_ & ->)|[(_ & m' & _ & ->)|(_ & _ & C)]];
      try discriminate Hm.
    subst e. apply constraints_error_foreign in C. discriminate C.
  - destruct (loop_run_exhaustion env format pc cs C _ _ _ _ _ _ L 0 ltac:(lia) eq_refl)
      as (evs & Htr & Hs & Hle & Hex & Hex' & _).
    rewrite Htr. cbn [fresh trace app]. cbn [plus Nat.sub] in *.
    auto.
Qed.

(** X15: when a request is answered with a file, the [X-Retry-Count]
    header counts the failures caught before: it is absent when the first
    attempt succeeded, and it is 1 or 2 otherwise; the file lies in the
    scratch directory of the last sandbox run, and the sandbox has been
    started once more than failures were caught. *)
Theorem retry_count_header :
  forall (env : Env) (prompt format : string)
         (previous_code constraints gemini_api_key : option string) (job gen : nat)
         (resp : FileResponse),
    let run := generate_from_text env prompt format previous_code constraints
                 gemini_api_key (fresh job gen) in
    fst run = Return resp ->
    let n := length (caught_errors (trace (snd run))) in
    resp_headers resp = retry_headers n
    /\ n <= 2
    /\ fst (resp_path resp) = job + n
    /\ length (sandbox_scripts (trace (snd run))) = S n.
Proof.
  intros env prompt format pc cs key job gen resp run Hr n. subst n.
  destruct run as [r w'] eqn:E. subst run. cbn [fst snd] in *. subst r.
  apply generate_from_text_run in E.
  destruct E as [(e & logs & [=] & _)|(_ & _ & C & L)].
  destruct (loop_run_exhaustion env format pc cs C _ _ _ _ _ _ L 0 ltac:(lia) eq_refl)
    as (evs & Htr & _ & Hle & Hex & _ & Hresp).
  destruct (loop_run_budget env format pc cs C _ _ _ _ _ _ L)
    as (evs' & Htr' & _ & _ & _ & _ & Hret & _).
  assert (evs' = evs) as ->.
  { rewrite Htr in Htr'. cbn [fresh trace app] in Htr'. congruence. }
  rewrite Htr. cbn [fresh trace app next_job plus] in *.
  destruct (Hresp resp eq_refl) as (Hh & Hp).
  split; [exact Hh|]. split.
  - destruct (Nat.eq_dec (length (caught_errors evs)) 3) as [H3|H3]; [|lia].
    destruct (Hex H3) as (m & [=] & _).
  - split; [exact Hp|]. exact (Hret eq_refl).
Qed.

Lemma retry_count_header_witness :
  resp_headers (mkResponse (1, output_stl) "render.stl" "application/octet-stream"
                  [("X-Retry-Count", "1")])
  = retry_headers 1
  /\ 1 <= 2
  /\ fst (resp_path (mkResponse (1, output_stl) "render.stl"
                       "application/octet-stream" [("X-Retry-Count", "1")]))
     = 0 + 1
  /\ length (sandbox_scripts
               (trace (snd (generate_from_text Samples.fillet_then_ok_env
                              "a cube" "stl" None None (Some "key") (fresh 0 0)))))
     = 2.
Proof.
  exact (retry_count_header Samples.fillet_then_ok_env "a cube" "stl" None None
           (Some "key") 0 0
           (mkResponse (1, output_stl) "render.stl" "application/octet-stream"
              [("X-Retry-Count", "1")])
           eq_refl).
Defined.

(** X16: over a whole request, every scratch directory that was made has
    its removal arranged exactly once and in the order of the runs, with
    one exception.  The directory of every run that failed is removed at
    once; the background removal is handed over only for the directory of
    the file that is returned, as the last arrangement, and running the
    tasks after the request calls [shutil.rmtree] on exactly that
    directory and never raises.  The exception: a directory into which the
    script could not be written is left with nothing arranged, and the
    request ends there with the exception of the write. *)
Theorem every_scratch_directory_is_removed_once :
  forall (env : Env) (prompt format : string)
         (previous_code constraints gemini_api_key : option string) (job gen : nat),
    let run := generate_from_text env prompt format previous_code constraints
                 gemini_api_key (fresh job gen) in
    let tr := trace (snd run) in
    exists (n : nat) (left : list nat),
      n <= 3
      /\ cleanup_events tr
         = (removals job n
            ++ if is_return (fst run) then [EvAddTask (job + n)] else [])%list
      /\ made_dirs tr = (map cleanup_job (cleanup_events tr) ++ left)%list
      /\ (left = []
          \/ (left = [job + n]
              /\ exists code e,
                   docker_run env (job + n) code = WriteFailed e
                   /\ fst run = Raise (lib_raise e)))
      /\ forall w0 : World,
           fst (run_background_tasks env tr w0) = Return tt
           /\ exists logs,
                trace (snd (run_background_tasks env tr w0)) = (trace w0 ++ logs)%list
                /\ cleanup_events logs
                   = if is_return (fst run) then [EvRmtree (job + n) false] else [].
Proof.
  intros env prompt format pc cs key job gen run tr. subst tr.
  destruct run as [r w'] eqn:E. subst run. cbn [fst snd].
  assert (Htasks : forall (tr : list event) (n : nat),
             cleanup_events tr
             = (removals job n ++ if is_return r then [EvAddTask (job + n)] else [])%list ->
             forall w0 : World,
               fst (run_background_tasks env tr w0) = Return tt
               /\ exists logs,
                    trace (snd (run_background_tasks env tr w0)) = (trace w0 ++ logs)%list
                    /\ cleanup_events logs
                       = if is_return r then [EvRmtree (job + n) false] else []).
  { intros tr n Hc w0.
    destruct (run_background_tasks_removes env tr w0) as (Hr & logs & Htr & Hl).
    split; [exact Hr|]. exists logs. split; [exact Htr|].
    rewrite Hl, task_removals_cleanup, Hc, task_removals_app, task_removals_removals.
    destruct (is_return r); reflexivity. }
  apply generate_from_text_run in E.
  destruct E as [(e & logs & -> & -> & _ & _ & _ & Hc & Hm & _)|(_ & _ & C & L)].
  - cbn [trace fresh app is_return].
    exists 0, []. rewrite Hc, Hm. cbn.
    split; [lia|]. split; [reflexivity|]. split; [reflexivity|].
    split; [left; reflexivity|].
    apply (Htasks logs 0). rewrite Hc. reflexivity.
  - destruct (loop_run_cleanup env format pc cs C _ _ _ _ _ _ L)
      as (evs & n & left & Htr & Hle & Hc & Hm & Hleft).
    rewrite Htr. cbn [fresh trace app next_job length] in *.
    exists n, left.
    split; [exact Hle|]. split; [exact Hc|]. split.
    { rewrite Hm, Hc, map_app. unfold removals. rewrite map_map. cbn [cleanup_job].
      rewrite map_id. destruct (is_return r); cbn [map cleanup_job app];
        rewrite <- ?app_assoc; reflexivity. }
    split.
    { destruct Hleft as [->|(-> & _ & code & e & Ho & ->)]; [left; reflexivity|].
      right. eauto. }
    apply (Htasks evs n Hc).
Qed.

(** X17: the classifier never returns an empty hint, so every code
    generation call after the first of a request is handed feedback that
    counts as present: the retry prompt always carries the hint. *)
Theorem retries_carry_feedback :
  forall (env : Env) (prompt format : string)
         (previous_code constraints gemini_api_key : option string) (job gen : nat)
         (n : nat) (fb : option string),
    nth_error
      (generation_feedbacks
         (trace (snd (generate_from_text env prompt format previous_code constraints
                        gemini_api_key (fresh job gen)))))
      (S n) = Some fb ->
    truthy fb = true
    /\ exists msg, fb = Some (_parse_freecad_error msg).
Proof.
  intros env prompt format pc cs key job gen n fb.
  destruct (generate_from_text env prompt format pc cs key (fresh job gen))
    as [r w'] eqn:E.
  cbn [snd]. apply generate_from_text_run in E.
  destruct E as [(e & logs & _ & -> & _ & Hg & _)|(_ & _ & C & L)].
  - cbn [trace fresh app]. rewrite Hg. discriminate.
  - destruct (loop_run_feedback env format pc cs C _ _ _ _ _ _ L)
      as (evs & Htr & _ & Hnext).
    { intros a [<-|[<-|[]]]; discriminate. }
    rewrite Htr. cbn [fresh trace app]. intro Hn.
    destruct (Hnext n fb Hn) as (a & msg & _ & _ & ->).
    split; [apply parse_nonempty|eauto].
Qed.

Lemma retries_carry_feedback_witness :
  truthy (Some (_parse_freecad_error ("FreeCAD Error: " ++ Samples.fillet_stderr)))
  = true
  /\ exists msg,
       Some (_parse_freecad_error ("FreeCAD Error: " ++ Samples.fillet_stderr))
       = Some (_parse_freecad_error msg).
Proof.
  apply (retries_carry_feedback Samples.fillet_then_ok_env "a cube" "stl" None None
           (Some "key") 0 0 0).
  vm_compute. reflexivity.
Defined.

(** X18: every script the code generation hands on has one shape: the
    fixed import lines, a blank line, the generated text with the white
    space at its ends removed, a blank line, and the entry point; and the
    text defines (or at least names the definition of) [generate_model],
    the function the entry point calls, because a reply without it is
    wrapped into one. *)
Theorem generated_script_shape :
  forall reply script : string,
    postprocess reply = inr script ->
    exists text,
      script = script_header ++ text ++ script_footer
      /\ text = strip (ensure_function (extract_code reply))
      /\ strip text = text
      /\ contains "def generate_model" text = true.
Proof.
  intros reply script. unfold postprocess.
  destruct (blocked_pattern _); [discriminate|]. intros [= <-].
  exists (strip (ensure_function (extract_code reply))).
  split; [reflexivity|]. split; [reflexivity|]. split; [apply strip_idem|].
  apply contains_strip_keeps; try reflexivity; [discriminate|].
  apply ensure_function_defines.
Qed.

Lemma generated_script_shape_witness :
  exists text,
    Samples.cube_script = script_header ++ text ++ script_footer
    /\ text = strip (ensure_function (extract_code Samples.cube_reply))
    /\ strip text = text
    /\ contains "def generate_model" text = true.
Proof.
  apply (generated_script_shape Samples.cube_reply Samples.cube_script).
  vm_compute. reflexivity.
Defined.

(** X19: the budget of a request: at most three code generation calls;
    the sandbox is never started more often than code was generated; no
    more failures are caught than runs were started, and at most one run
    is not a caught failure (the one that ended the request).  A request
    without a key, or whose pipeline cannot be built, generates nothing
    and starts nothing. *)
Theorem request_call_budget :
  forall (env : Env) (prompt format : string)
         (previous_code constraints gemini_api_key : option string) (job gen : nat),
    let tr := trace (snd (generate_from_text env prompt format previous_code
                            constraints gemini_api_key (fresh job gen))) in
    length (generation_feedbacks tr) <= 3
    /\ length (sandbox_scripts tr) <= length (generation_feedbacks tr)
    /\ length (caught_errors tr) <= length (sandbox_scripts tr)
    /\ length (sandbox_scripts tr) <= S (length (caught_errors tr))
    /\ (truthy gemini_api_key = false \/ pipeline_init_error env <> None ->
        generation_feedbacks tr = [] /\ sandbox_scripts tr = []).
Proof.
  intros env prompt format pc cs key job gen tr. subst tr.
  destruct (generate_from_text env prompt format pc cs key (fresh job gen))
    as [r w'] eqn:E.
  cbn [snd]. apply generate_from_text_run in E.
  destruct E as [(e & logs & _ & -> & Hs & Hg & Hc & _)|(Hk & Hi & C & L)].
  - cbn [trace fresh app]. rewrite Hs, Hg, Hc. cbn. repeat split; lia.
  - destruct (loop_run_budget env format pc cs C _ _ _ _ _ _ L)
      as (evs & Htr & H1 & H2 & H3 & H4 & _).
    rewrite Htr. cbn [fresh trace app length] in *.
    repeat split; try assumption.
    + destruct H as [H|H]; [congruence|contradiction].
    + destruct H as [H|H]; [congruence|contradiction].
Qed.

(** X20: whenever the executor has returned (the directory was made and
    the script written), the step arranges the removal of its scratch
    directory exactly once: at once when it raises, and by handing
    [cleanup_workdir] to the background tasks when it returns a response.
    Running the tasks then calls [shutil.rmtree] on that directory, logs
    how it went and returns whether or not the removal raised; and the
    answer of a removal has no part in the result or the events of the
    step. *)
Theorem cleanup_whenever_the_executor_returns :
  forall (env : Env) (fc_code : string) (hdrs : option (list (string * string)))
         (fmt : string) (w : World),
    setup_error (docker_run env (next_job w) fc_code) = None ->
    let run := _run_freecad_generation env fc_code hdrs fmt w in
    (exists evs,
        trace (snd run) = (trace w ++ EvSandbox (next_job w) fc_code :: evs)%list
        /\ made_dirs evs = [next_job w]
        /\ cleanup_events evs
           = [if is_return (fst run)
              then EvAddTask (next_job w)
              else EvRmtree (next_job w) true]
        /\ forall w0 : World,
             run_background_tasks env evs w0
             = if is_return (fst run)
               then cleanup_workdir env (next_job w) w0
               else (Return tt, w0))
    /\ (forall rm : nat -> option string,
           _run_freecad_generation (with_rmtree_error rm env) fc_code hdrs fmt w
           = run)
    /\ (forall (work_dir : nat) (w0 : World),
           cleanup_workdir env work_dir w0
           = (Return tt,
              mkWorld (next_job w0) (next_gen w0)
                (trace w0
                 ++ [EvRmtree work_dir false;
                     EvLog (match rmtree_error env work_dir with
                            | Some e => LogCleanupFailed work_dir e
                            | None => LogCleaned work_dir
                            end)])%list)).
Proof.
  intros env fc_code hdrs fmt w Hsetup run. split; [|split].
  - pose proof (run_freecad_generation_dirs env fc_code hdrs fmt w) as D.
    fold run in D.
    destruct run as [r w'] eqn:E. subst run. cbn [fst snd] in *.
    destruct (run_freecad_generation_spec env fc_code hdrs fmt w r w' E)
      as (evs & Htr & _ & _ & _ & Hc & _).
    rewrite Hsetup in Hc.
    exists evs. split; [exact Htr|]. split.
    { rewrite Htr, made_dirs_app in D. cbn [made_dirs] in D.
      apply app_inv_head in D. rewrite D.
      destruct (docker_run env (next_job w) fc_code); try reflexivity;
        discriminate Hsetup. }
    split; [exact Hc|].
    intro w0. clear Htr D.
    assert (H : forall tr,
               run_background_tasks env tr w0
               = run_background_tasks env (cleanup_events tr) w0).
    { clear. intro tr. revert w0.
      induction tr as [|[] tr IH]; intro w0; cbn; auto.
      unfold bind. destruct (cleanup_workdir env job w0) as [[[]|e] w1]; auto. }
    rewrite H, Hc.
    destruct (is_return r); cbn [run_background_tasks].
    + unfold bind, ret. destruct (cleanup_workdir env (next_job w) w0) as [[[]|e] w1];
        reflexivity.
    + reflexivity.
  - intro rm. apply run_freecad_generation_rmtree_indep.
  - apply cleanup_workdir_removes.
Qed.

Lemma cleanup_whenever_the_executor_returns_witness :
  cleanup_workdir Samples.stuck_rmtree_env 3 (fresh 4 1)
  = (Return tt,
     mkWorld 4 1
       [EvRmtree 3 false;
        EvLog (LogCleanupFailed 3 "[Errno 16] Device or resource busy")]).
Proof.
  exact (proj2 (proj2 (cleanup_whenever_the_executor_returns Samples.stuck_rmtree_env
                         Samples.cube_script None "stl" (fresh 0 0) eq_refl))
           3 (fresh 4 1)).
Defined.
